(** * The workspace-context collector of LLM Code ([get_workspace_context])

    A shallow embedding of [get_workspace_context] from [src/main.py] and of
    the Python library functions it calls ([str] methods, [posixpath],
    [fnmatch], [os.walk]), followed by the properties of the collector.

    Conventions of the model.
    - A Python [str] is a [string]; a character is a code point in the range
      U+0000..U+00FF.
    - The host is POSIX: [os.sep] is ["/"], [os.path] is [posixpath] and
      [fnmatch.fnmatch] does not fold case.
    - The filesystem is a tree of directories and regular files, without
      symbolic links; a directory lists its children in the order
      [os.scandir] yields them.  A file holds the text a read returns, or
      the reason why it cannot be read.
    - Python exceptions are values of [exn]; a computation that may raise has
      type [M A].
    - The collector only reads: a call is a function of the state of the
      host, [world], and of the path argument. *)

From Stdlib Require Import String Ascii List Bool Arith Lia.
Import ListNotations.
Open Scope string_scope.
Open Scope bool_scope.

(** ** Python [str] methods *)

Module PyStr.

(** [str.isspace] on one character (code points below 256). *)
Definition isspace (c : ascii) : bool :=
  let n := nat_of_ascii c in
  (((9 <=? n) && (n <=? 13)) || ((28 <=? n) && (n <=? 32))
   || (n =? 133) || (n =? 160))%nat.

(** [s.lstrip(chars)], the characters being given by a predicate. *)
Fixpoint lstrip (f : ascii -> bool) (s : string) : string :=
  match s with
  | String c s' => if f c then lstrip f s' else s
  | EmptyString => EmptyString
  end.

(** [s.rstrip(chars)]. *)
Fixpoint rstrip (f : ascii -> bool) (s : string) : string :=
  match s with
  | EmptyString => EmptyString
  | String c s' =>
      match rstrip f s' with
      | EmptyString => if f c then EmptyString else String c EmptyString
      | r => String c r
      end
  end.

(** [s.strip()] *)
Definition strip (s : string) : string := rstrip isspace (lstrip isspace s).

(** [s.startswith(p)] *)
Fixpoint startswith (p s : string) : bool :=
  match p with
  | EmptyString => true
  | String a p' =>
      match s with
      | EmptyString => false
      | String b s' => Ascii.eqb a b && startswith p' s'
      end
  end.

(** [s.endswith("/")], for a one-character suffix. *)
Fixpoint endswith_char (c : ascii) (s : string) : bool :=
  match s with
  | EmptyString => false
  | String a EmptyString => Ascii.eqb a c
  | String _ s' => endswith_char c s'
  end.

(** [sub in s] *)
Fixpoint contains (sub s : string) : bool :=
  startswith sub s
  || match s with
     | EmptyString => false
     | String _ s' => contains sub s'
     end.

Definition lower_char (c : ascii) : ascii :=
  let n := nat_of_ascii c in
  if (((65 <=? n) && (n <=? 90))
      || ((192 <=? n) && (n <=? 222) && negb (n =? 215)))%nat
  then ascii_of_nat (n + 32) else c.

(** [s.lower()] *)
Fixpoint lower (s : string) : string :=
  match s with
  | EmptyString => EmptyString
  | String c s' => String (lower_char c) (lower s')
  end.

(** [s.replace(a, b)] for one-character [a] and [b]. *)
Fixpoint replace (a b : ascii) (s : string) : string :=
  match s with
  | EmptyString => EmptyString
  | String c s' => String (if Ascii.eqb c a then b else c) (replace a b s')
  end.

(** [s.split(c)] for a one-character separator: never the empty list. *)
Fixpoint split (c : ascii) (s : string) : list string :=
  match s with
  | EmptyString => [EmptyString]
  | String a s' =>
      if Ascii.eqb a c then EmptyString :: split c s'
      else match split c s' with
           | h :: t => String a h :: t
           | [] => [String a EmptyString]
           end
  end.

(** [c.join(l)] *)
Fixpoint join (c : ascii) (l : list string) : string :=
  match l with
  | [] => EmptyString
  | [x] => x
  | x :: l' => x ++ String c (join c l')
  end.

(** [c * n] for a one-character string [c]. *)
Fixpoint mul (c : ascii) (n : nat) : string :=
  match n with
  | O => EmptyString
  | S n' => String c (mul c n')
  end.

(** The lines a text-mode file object yields when iterated: each line
    keeps its newline. *)
Fixpoint readlines (s : string) : list string :=
  match s with
  | EmptyString => []
  | String c s' =>
      if Ascii.eqb c "010" then String c EmptyString :: readlines s'
      else match s' with
           | EmptyString => [String c EmptyString]
           | _ => match readlines s' with
                  | l :: ls => String c l :: ls
                  | [] => [String c EmptyString]
                  end
           end
  end.

End PyStr.

(** ** Exceptions *)

(** The exception classes the collector can meet.  [IOError] is an alias of
    [OSError]. *)
Inductive exn : Type :=
| UnicodeDecodeError (msg : string)
| OSError (msg : string)
| ValueError (msg : string).

(** [str(e)] *)
Definition str (e : exn) : string :=
  match e with
  | UnicodeDecodeError msg => msg
  | OSError msg => msg
  | ValueError msg => msg
  end.

(** A computation that returns a value or raises. *)
Definition M (A : Type) : Type := (exn + A)%type.

Definition ret {A : Type} (a : A) : M A := inr a.

Definition raise {A : Type} (e : exn) : M A := inl e.

Definition bind {A B : Type} (m : M A) (k : A -> M B) : M B :=
  match m with
  | inl e => inl e
  | inr a => k a
  end.

Notation "x <- m ;; k" := (bind m (fun x => k))
  (at level 61, m at next level, right associativity).

(** A [for] loop that threads an accumulator and stops at the first
    exception. *)
Fixpoint foldM {A B : Type} (f : B -> A -> M B) (l : list A) (b : B) : M B :=
  match l with
  | [] => ret b
  | a :: l' => b' <- f b a ;; foldM f l' b'
  end.

(** ** [posixpath] *)

Module posixpath.

Definition sep : ascii := "/"%char.
Definition curdir : string := ".".
Definition pardir : string := "..".

Definition isabs (s : string) : bool := PyStr.startswith "/" s.

(** [join(a, b)] *)
Definition join (a b : string) : string :=
  if PyStr.startswith "/" b then b
  else if (a =? "") || PyStr.endswith_char sep a then a ++ b
  else a ++ String sep b.

(** [join(a, *p)] *)
Definition join_all (a : string) (p : list string) : string :=
  fold_left join p a.

(** [basename(p)]: what follows the last separator. *)
Definition basename (p : string) : string :=
  last (PyStr.split sep p) "".

(** One step of the loop of [normpath] over the components. *)
Definition normpath_step (initial_slashes : nat) (new_comps : list string)
    (comp : string) : list string :=
  if (comp =? "") || (comp =? curdir) then new_comps
  else if negb (comp =? pardir)
          || ((initial_slashes =? 0)%nat
              && match new_comps with [] => true | _ => false end)
          || (match new_comps with
              | [] => false
              | _ => last new_comps "" =? pardir
              end)
  then new_comps ++ [comp]
  else removelast new_comps.

(** [normpath(path)] *)
Definition normpath (path : string) : string :=
  if path =? "" then curdir
  else
    let initial_slashes :=
      if PyStr.startswith "/" path then
        if PyStr.startswith "//" path && negb (PyStr.startswith "///" path)
        then 2 else 1
      else 0 in
    let comps := PyStr.split sep path in
    let new_comps := fold_left (normpath_step initial_slashes) comps [] in
    let path := PyStr.join sep new_comps in
    let path := PyStr.mul sep initial_slashes ++ path in
    if path =? "" then curdir else path.

(** [abspath(path)], the working directory being [cwd]. *)
Definition abspath (cwd path : string) : string :=
  normpath (if isabs path then path else join cwd path).

(** The length of [commonprefix([l1, l2])]. *)
Fixpoint commonprefix_len (l1 l2 : list string) : nat :=
  match l1, l2 with
  | a :: l1', b :: l2' => if a =? b then S (commonprefix_len l1' l2') else 0
  | _, _ => 0
  end.

Definition nonempty (s : string) : bool := negb (s =? "").

(** [relpath(path, start)]; raises [ValueError] on an empty [path]. *)
Definition relpath (cwd path start : string) : M string :=
  if path =? "" then raise (ValueError "no path specified")
  else
    let start_list := filter nonempty (PyStr.split sep (abspath cwd start)) in
    let path_list := filter nonempty (PyStr.split sep (abspath cwd path)) in
    let i := commonprefix_len start_list path_list in
    let rel_list :=
      (repeat pardir (List.length start_list - i) ++ skipn i path_list)%list
    in
    match rel_list with
    | [] => ret curdir
    | a :: p => ret (join_all a p)
    end.

End posixpath.

(** ** [fnmatch] *)

(** A model of [fnmatch.fnmatchcase], which [fnmatch.fnmatch] is on a POSIX
    host: [*] matches any run of characters, [?] one character, [[seq]] one
    character of [seq], [[!seq]] one character not in [seq]; an unclosed
    bracket is a literal one. *)
Module Fnmatch.

Inductive item : Type :=
| Star
| AnyChar
| Lit (c : ascii)
| Class (stuff : string).

(** Whether the bracket whose opening character precedes [s] is closed:
    a closing bracket directly after the opening one, or after the
    negation mark, belongs to the class. *)
Definition closes (s : string) : bool :=
  let s1 := match s with
            | String c s' => if Ascii.eqb c "!" then s' else s
            | EmptyString => s
            end in
  let s2 := match s1 with
            | String c s' => if Ascii.eqb c "]" then s' else s1
            | EmptyString => s1
            end in
  PyStr.contains "]" s2.

(** The pattern as a list of items.  [st] is [Some stuff] inside a
    bracket, [stuff] being what was read of the class. *)
Fixpoint translate (st : option string) (pat : string) : list item :=
  match pat with
  | EmptyString => []
  | String c rest =>
      match st with
      | None =>
          if Ascii.eqb c "*" then Star :: translate None rest
          else if Ascii.eqb c "?" then AnyChar :: translate None rest
          else if Ascii.eqb c "[" then
            if closes rest then translate (Some "") rest
            else Lit c :: translate None rest
          else Lit c :: translate None rest
      | Some stuff =>
          if Ascii.eqb c "]" && negb ((stuff =? "") || (stuff =? "!"))
          then Class stuff :: translate None rest
          else translate (Some (stuff ++ String c "")) rest
      end
  end.

(** The members of a class: [a-b] is a range unless the hyphen is last. *)
Fixpoint ranges_of (s : string) : list (ascii * ascii) :=
  match s with
  | EmptyString => []
  | String c1 s1 =>
      match s1 with
      | String d (String c2 s2) =>
          if Ascii.eqb d "-" then (c1, c2) :: ranges_of s2
          else (c1, c1) :: ranges_of s1
      | _ => (c1, c1) :: ranges_of s1
      end
  end.

Definition in_range (c : ascii) (r : ascii * ascii) : bool :=
  ((nat_of_ascii (fst r) <=? nat_of_ascii c)
   && (nat_of_ascii c <=? nat_of_ascii (snd r)))%nat.

(** Whether [c] is matched by the class [stuff]. *)
Definition in_class (stuff : string) (c : ascii) : bool :=
  match stuff with
  | String n members =>
      if Ascii.eqb n "!" then negb (existsb (in_range c) (ranges_of members))
      else existsb (in_range c) (ranges_of stuff)
  | EmptyString => false
  end.

Fixpoint match_items (items : list item) (name : string) : bool :=
  match items with
  | [] => name =? ""
  | Star :: items' =>
      (fix star (s : string) : bool :=
         match_items items' s
         || match s with
            | EmptyString => false
            | String _ s' => star s'
            end) name
  | AnyChar :: items' =>
      match name with
      | EmptyString => false
      | String _ s' => match_items items' s'
      end
  | Lit c :: items' =>
      match name with
      | EmptyString => false
      | String a s' => Ascii.eqb a c && match_items items' s'
      end
  | Class stuff :: items' =>
      match name with
      | EmptyString => false
      | String a s' => in_class stuff a && match_items items' s'
      end
  end.

(** [fnmatch.fnmatchcase(name, pat)] *)
Definition fnmatchcase (name pat : string) : bool :=
  match_items (translate None pat) name.

(** A pattern without any of the special characters. *)
Fixpoint plain (pat : string) : bool :=
  match pat with
  | EmptyString => true
  | String c rest =>
      negb (Ascii.eqb c "*" || Ascii.eqb c "?" || Ascii.eqb c "[")
      && plain rest
  end.

End Fnmatch.

(** ** The filesystem *)

(** Why a regular file cannot be read as text: [open] fails, or its bytes do
    not decode.  [msg] is the message of the exception. *)
Inductive read_error : Type :=
| Unopenable (msg : string)
| Undecodable (msg : string).

(** A regular file holds the text a read in text mode returns, or the reason
    why it cannot be read.  A directory lists its children in the order
    [os.scandir] yields them. *)
#[warnings="-register-all"]
Inductive node : Type :=
| File (data : read_error + string)
| Dir (children : list (string * node)).

(** What the collector sees of the host: the working directory of the
    process and the tree below the root directory. *)
Record world : Type := mkWorld { getcwd : string; fsroot : node }.

Definition is_dir (n : node) : bool :=
  match n with
  | Dir _ => true
  | File _ => false
  end.

Fixpoint assoc {A : Type} (k : string) (l : list (string * A)) : option A :=
  match l with
  | [] => None
  | (k', v) :: l' => if k' =? k then Some v else assoc k l'
  end.

(** The node a list of components leads to. *)
Fixpoint lookup (comps : list string) (n : node) : option node :=
  match comps with
  | [] => Some n
  | c :: comps' =>
      match n with
      | Dir children =>
          match assoc c children with
          | Some child => lookup comps' child
          | None => None
          end
      | File _ => None
      end
  end.

(** The node an absolute path names.  Empty components and [.] are skipped;
    the paths the collector resolves contain no [..]. *)
Definition resolve (w : world) (p : string) : option node :=
  lookup
    (filter (fun c => negb ((c =? "") || (c =? posixpath.curdir)))
       (PyStr.split posixpath.sep p))
    (fsroot w).

(** [os.path.exists(p)] *)
Definition os_path_exists (w : world) (p : string) : bool :=
  match resolve w p with
  | Some _ => true
  | None => false
  end.

(** [os.path.isfile(p)] *)
Definition os_path_isfile (w : world) (p : string) : bool :=
  match resolve w p with
  | Some (File _) => true
  | _ => false
  end.

(** [with open(p, 'r') as f: f.read()]: the text, or what [open] or the
    decoder raises. *)
Definition open_read (w : world) (p : string) : M string :=
  match resolve w p with
  | Some (File (inr text)) => ret text
  | Some (File (inl (Unopenable msg))) => raise (OSError msg)
  | Some (File (inl (Undecodable msg))) => raise (UnicodeDecodeError msg)
  | Some (Dir _) => raise (OSError ("[Errno 21] Is a directory: '" ++ p ++ "'"))
  | None =>
      raise (OSError ("[Errno 2] No such file or directory: '" ++ p ++ "'"))
  end.

(** The step of [os.walk] into the directory [dirname]: [walkers] gives,
    for each child of the directory being walked, the walk of that child; a
    name that is no child cannot be listed and yields nothing. *)
Definition descend {S : Type} (walkers : list (string * (S -> M S)))
    (s : S) (dirname : string) : M S :=
  match assoc dirname walkers with
  | Some walk => walk s
  | None => ret s
  end.

(** [for root, dirs, files in os.walk(top): ...], top-down and without
    following links, [n] being the node [top] names.  [visit root dirs files
    s] is the body of the loop: it returns the list [dirs] as the body leaves
    it (the generator descends into the names left in it, in that order) and
    the new state.  The walk of [join(top, dirname)] is the walk of the child
    that bears the name.  What cannot be listed is skipped silently, since
    [onerror] is [None]. *)
Fixpoint os_walk {S : Type}
    (visit : string -> list string -> list string -> S -> M (list string * S))
    (top : string) (n : node) (s : S) {struct n} : M S :=
  match n with
  | File _ => ret s
  | Dir children =>
      let dirs := map fst (filter (fun c => is_dir (snd c)) children) in
      let nondirs :=
        map fst (filter (fun c => negb (is_dir (snd c))) children) in
      r <- visit top dirs nondirs s ;;
      let walkers :=
        map (fun c =>
               (fst c, os_walk visit (posixpath.join top (fst c)) (snd c)))
          children in
      foldM (descend walkers) (fst r) (snd r)
  end.

(** [os.walk(top)] from a path. *)
Definition os_walk_path {S : Type} (w : world)
    (visit : string -> list string -> list string -> S -> M (list string * S))
    (top : string) (s : S) : M S :=
  match resolve w top with
  | Some n => os_walk visit top n s
  | None => ret s
  end.

(** ** The collector *)

(** One element of the list [context]: [{"path": ..., "content": ...}]. *)
Record entry : Type := mkEntry { path : string; content : string }.

(** The dictionary [get_workspace_context] returns:
    [{"success": True, "context": ...}] or
    [{"success": False, "error": ...}]. *)
Inductive result : Type :=
| Success (context : list entry)
| Failure (error : string).

Definition os_sep : ascii := posixpath.sep.

(** The list comprehension over the lines of [.gitignore]. *)
Definition parse_gitignore (text : string) : list string :=
  map (fun line => PyStr.replace "/" os_sep (PyStr.strip line))
    (filter (fun line =>
               negb (PyStr.strip line =? "")
               && negb (PyStr.startswith "#" line))
       (PyStr.readlines text)).

(** The first statements of [get_workspace_context]: the value of
    [ignore_patterns]. *)
Definition load_ignore_patterns (w : world) : M (list string) :=
  let gitignore_path := posixpath.join (getcwd w) ".gitignore" in
  if os_path_exists w gitignore_path then
    text <- open_read w gitignore_path ;;
    ret (parse_gitignore text)
  else ret [].

(** The substrings that exclude a file whatever the ignore patterns are. *)
Definition builtin_excludes : list string :=
  [".git"; ".pyc"; ".env"; "__pycache__"].

Section Collector.

(** [fnmatch.fnmatch] *)
Variable fnmatch : string -> string -> bool.

Variable w : world.
Variable ignore_patterns : list string.

(** The argument [path] of [get_workspace_context] and the value of
    [full_path]. *)
Variable path : string.
Variable full_path : string.

(** The test of the comprehension assigned to [dirs[:]]. *)
Definition pruned (rel_root d : string) : bool :=
  existsb (fun p =>
             fnmatch (posixpath.join rel_root d) p
             || fnmatch d (PyStr.rstrip (Ascii.eqb os_sep) p))
    ignore_patterns.

(** The first test on a file: relative path, bare name, built-in
    substrings. *)
Definition excluded (rel_root file : string) : bool :=
  let rel_path := posixpath.join rel_root file in
  existsb (fun p => fnmatch rel_path p) ignore_patterns
  || existsb (fun p => fnmatch file (PyStr.rstrip (Ascii.eqb os_sep) p))
       ignore_patterns
  || existsb (fun pattern => PyStr.contains pattern (PyStr.lower file))
       builtin_excludes.

(** The second test on a file: some component of the reported path matches
    some pattern. *)
Definition component_ignored (rel_path : string) : bool :=
  existsb (fun part => existsb (fun p => fnmatch part p) ignore_patterns)
    (PyStr.split os_sep rel_path).

(** The body of [for file in files]. *)
Definition visit_file (root rel_root : string) (context : list entry)
    (file : string) : M (list entry) :=
  if excluded rel_root file then ret context
  else
    let file_path := posixpath.join root file in
    rel_path <- posixpath.relpath (getcwd w) file_path path ;;
    if component_ignored rel_path then ret context
    else
      match open_read w file_path with
      | inr content => ret (context ++ [mkEntry rel_path content])%list
      | inl (UnicodeDecodeError _) => ret context
      | inl (OSError _) => ret context
      | inl e => raise e
      end.

(** The body of [for root, dirs, files in os.walk(full_path)]. *)
Definition visit (root : string) (dirs files : list string)
    (context : list entry) : M (list string * list entry) :=
  rel_root <- posixpath.relpath (getcwd w) root full_path ;;
  let dirs := filter (fun d => negb (pruned rel_root d)) dirs in
  context <- foldM (visit_file root rel_root) files context ;;
  ret (dirs, context).

End Collector.

(** The body of the outer [try]. *)
Definition get_workspace_context_try (fnmatch : string -> string -> bool)
    (w : world) (path : string) : M result :=
  ignore_patterns <- load_ignore_patterns w ;;
  let context := [] in
  let full_path :=
    posixpath.abspath (getcwd w) (posixpath.join (getcwd w) path) in
  if os_path_isfile w full_path then
    match open_read w full_path with
    | inr content =>
        ret (Success
               (context
                ++ [mkEntry (posixpath.basename full_path) content])%list)
    | inl (UnicodeDecodeError _) =>
        ret (Failure "Cannot read file: binary or unreadable")
    | inl (OSError _) =>
        ret (Failure "Cannot read file: binary or unreadable")
    | inl e => raise e
    end
  else
    context <- os_walk_path w
                 (visit fnmatch w ignore_patterns path full_path)
                 full_path context ;;
    ret (Success context).

(** [get_workspace_context(path)], in the world [w]. *)
Definition get_workspace_context (fnmatch : string -> string -> bool)
    (w : world) (path : string) : result :=
  match get_workspace_context_try fnmatch w path with
  | inr r => r
  | inl e => Failure (str e)
  end.

(** The collector on a POSIX host. *)
Definition collect (w : world) (path : string) : result :=
  get_workspace_context Fnmatch.fnmatchcase w path.

(** ** Well-formed filesystems *)

Fixpoint has_sep (s : string) : bool :=
  match s with
  | EmptyString => false
  | String c s' => Ascii.eqb c posixpath.sep || has_sep s'
  end.

(** A name a directory can hold: not empty, not [.] or [..], without a
    separator. *)
Definition clean (name : string) : bool :=
  negb (name =? "") && negb (name =? posixpath.curdir)
  && negb (name =? posixpath.pardir) && negb (has_sep name).

Fixpoint nodupb (l : list string) : bool :=
  match l with
  | [] => true
  | a :: l' => negb (existsb (String.eqb a) l') && nodupb l'
  end.

(** All the names of a list are clean. *)
Abbreviation clean_all := (Forall (fun name : string => clean name = true)).

(** Every directory holds clean names, each once. *)
Fixpoint wf_node (n : node) : bool :=
  match n with
  | File _ => true
  | Dir children =>
      forallb clean (map fst children) && nodupb (map fst children)
      && forallb (fun c => wf_node (snd c)) children
  end.

(** The working directory is an absolute path and the tree is well formed. *)
Definition wf_world (w : world) : bool :=
  posixpath.isabs (getcwd w) && wf_node (fsroot w).

(** ** The ignore file, in the words of the specification *)

(** A blank line holds nothing but whitespace. *)
Fixpoint blank (line : string) : bool :=
  match line with
  | EmptyString => true
  | String c line' => PyStr.isspace c && blank line'
  end.

(** A comment line starts with a hash. *)
Definition comment (line : string) : bool :=
  match line with
  | String c _ => Ascii.eqb c "#"
  | EmptyString => false
  end.

(** One pattern per line that is neither blank nor a comment: the line
    without its leading and trailing whitespace, its forward slashes turned
    into the separator [sep] of the host. *)
Fixpoint spec_patterns (sep : ascii) (lines : list string) : list string :=
  match lines with
  | [] => []
  | line :: lines' =>
      if blank line || comment line then spec_patterns sep lines'
      else PyStr.replace "/" sep (PyStr.strip line) :: spec_patterns sep lines'
  end.

(** ** Example worlds *)

Module Examples.

(** The line [b/], with its newline. *)
Definition b_slash_line : string := String "b" (String "/" (String "010" "")).

(** [/w] holds [a.txt], [.gitignore] with the line [b/], and [b/c.txt]. *)
Definition w_ignored_dir (c : read_error + string) : world :=
  mkWorld "/w"
    (Dir [("w", Dir [("a.txt", File (inr "hello"));
                     (".gitignore", File (inr b_slash_line));
                     ("b", Dir [("c.txt", File c)])])]).

(** [/w] holds only [secret.env]. *)
Definition w_secret : world :=
  mkWorld "/w" (Dir [("w", Dir [("secret.env", File (inr "KEY=1"))])]).

(** [/w] holds [secret.env] and a [.gitignore] that names it. *)
Definition w_secret_ignored : world :=
  mkWorld "/w"
    (Dir [("w", Dir [("secret.env", File (inr "KEY=1"));
                     (".gitignore", File (inr "secret.env"))])]).

(** [/w] holds [a.txt], and a directory where [.gitignore] should be. *)
Definition w_bad_gitignore (a : read_error + string) : world :=
  mkWorld "/w"
    (Dir [("w", Dir [("a.txt", File a); (".gitignore", Dir [])])]).

(** [/w] holds [secret.env], and a directory where [.gitignore] should
    be. *)
Definition w_secret_bad_gitignore : world :=
  mkWorld "/w"
    (Dir [("w", Dir [("secret.env", File (inr "KEY=1"));
                     (".gitignore", Dir [])])]).

(** The message of the [UnicodeDecodeError] for a file that starts with
    the byte [0xff]. *)
Definition undecodable_msg : string :=
  "'utf-8' codec can't decode byte 0xff in position 0: invalid start byte".

(** [/w] holds [a.txt], and a [.gitignore] that does not decode. *)
Definition w_binary_gitignore (a : read_error + string) : world :=
  mkWorld "/w"
    (Dir [("w", Dir [("a.txt", File a);
                     (".gitignore",
                      File (inl (Undecodable undecodable_msg)))])]).

Definition png_error : read_error := Undecodable undecodable_msg.

Definition src_tree : node :=
  Dir [("main.py", File (inr "pass"));
       ("setup.py", File (inr "setup"));
       ("notes.env.bak", File (inr "x"));
       ("lib", Dir [("util.py", File (inr "y"))])].

(** [/w] holds a text file, a binary file and the tree [src]. *)
Definition w_mixed : world :=
  mkWorld "/w"
    (Dir [("w", Dir [("a.txt", File (inr "hello"));
                     ("logo.png", File (inl png_error));
                     ("src", src_tree)])]).

(** [w_mixed] with the children of [/w/src] listed in another order. *)
Definition w_mixed_reordered : world :=
  mkWorld "/w"
    (Dir [("w", Dir [("a.txt", File (inr "hello"));
                     ("logo.png", File (inl png_error));
                     ("src",
                      Dir [("setup.py", File (inr "setup"));
                           ("lib", Dir [("util.py", File (inr "y"))]);
                           ("notes.env.bak", File (inr "x"));
                           ("main.py", File (inr "pass"))])])]).

(** [w_mixed] after changes outside [/w/src]. *)
Definition w_mixed_touched : world :=
  mkWorld "/w"
    (Dir [("w", Dir [("new.txt", File (inr "new"));
                     ("src", src_tree);
                     ("a.txt", File (inr "changed"))])]).

(** [/w] holds a directory [sub] with its own [.gitignore]. *)
Definition w_nested_gitignore : world :=
  mkWorld "/w"
    (Dir [("w", Dir [("sub", Dir [(".gitignore", File (inr "x.txt"));
                                  ("x.txt", File (inr "kept"))])])]).

End Examples.

(** ** Paths in normal form *)

(** The absolute path with [k] leading separators and the components
    [comps]: the form of the paths [normpath] returns. *)
Definition root_at (k : nat) (comps : list string) : string :=
  PyStr.mul posixpath.sep k ++ PyStr.join posixpath.sep comps.

(** The reported path of what lies [cs] below the scanned directory. *)
Definition rel_of (cs : list string) : string :=
  match cs with
  | [] => posixpath.curdir
  | _ => PyStr.join posixpath.sep cs
  end.

(** ** What a directory scan reports *)

Section Reported.

Variable fnmatch : string -> string -> bool.
Variable w : world.
Variable ignore_patterns : list string.

(** The argument [path] of the collector. *)
Variable start : string.

(** [full_path] is [root_at k comps]. *)
Variable k : nat.
Variable comps : list string.

(** The entry [e] reports the file that lies [cs ++ r] below the scanned
    directory: its path is the relative path of the file and its content
    is what reading the file returns. *)
Definition reports (cs : list string) (e : entry) (r : list string) : Prop :=
  path e = PyStr.join posixpath.sep (cs ++ r)
  /\ open_read w (root_at k (comps ++ cs ++ r)) = inr (content e).

(** The file that lies [r] below the directory [cs] passed every filter:
    no component of [r] matches a pattern without its trailing separators,
    no component of the relative path matches a pattern, and the file name
    holds no built-in substring. *)
Definition survives (cs r : list string) : Prop :=
  r <> []
  /\ clean_all r
  /\ (forall d p, In d r -> In p ignore_patterns ->
                  fnmatch d (PyStr.rstrip (Ascii.eqb os_sep) p) = false)
  /\ (forall part p, In part (cs ++ r) -> In p ignore_patterns ->
                     fnmatch part p = false)
  /\ (forall s, In s builtin_excludes ->
                PyStr.contains s (PyStr.lower (last r "")) = false).

(** What the scan of the node [n], met [cs] below the scanned directory,
    guarantees whatever the accumulated context is: nothing is raised, and
    the entries added report distinct files that survive the filters. *)
Definition scanned (n : node) : Prop :=
  forall cs context,
    wf_node n = true -> clean_all cs ->
    exists new rests,
      os_walk (visit fnmatch w ignore_patterns start (root_at k comps))
        (root_at k (comps ++ cs)) n context
      = inr (context ++ new)%list
      /\ Forall2 (reports cs) new rests
      /\ Forall (survives cs) rests
      /\ NoDup rests.

End Reported.

(** The value of [full_path] in [get_workspace_context]. *)
Definition full_path_of (w : world) (path : string) : string :=
  posixpath.abspath (getcwd w) (posixpath.join (getcwd w) path).

(** * The commands around the collector

    The other operations of [src/main.py]: the file system operations
    ([read_file], [write_file], [make_directory], [change_directory],
    [list_directory]), the configuration, the call of the assistant and the
    body of the interactive loop.

    Conventions added to those of the collector.
    - An operation that changes the host returns the new [world] beside its
      result.
    - The process may write every file it may open:  a file that cannot be
      opened for reading cannot be opened for writing, and every directory
      accepts new children: the names are short enough for the host, and
      the host has room for what is written.
    - The host may refuse a directory to the process, to enter it or to
      list it, for a reason of its own (the process has no permission
      for it, a name is too long for the host): [os.chdir] and
      [os.listdir] then raise the exception the host gives.
    - The default encoding of the host is UTF-8, so that
      [open(p, "r", encoding="utf-8")] reads the text [open(p, "r")] reads.
    - What the program prints is not part of the state. *)

(** ** More [str] methods *)

Module PyText.

(** The characters that end a line for [str.splitlines] (code points
    below 256). *)
Definition linebreak (c : ascii) : bool :=
  let n := nat_of_ascii c in
  (((10 <=? n) && (n <=? 13)) || ((28 <=? n) && (n <=? 30))
   || (n =? 133))%nat.

(** [s.splitlines()]: the lines without their ends; [\r\n] ends one
    line. *)
Fixpoint splitlines (s : string) : list string :=
  match s with
  | EmptyString => []
  | String c s' =>
      if linebreak c then
        match s' with
        | String c' s'' =>
            if Ascii.eqb c "013" && Ascii.eqb c' "010"
            then EmptyString :: splitlines s''
            else EmptyString :: splitlines s'
        | EmptyString => [EmptyString]
        end
      else
        match splitlines s' with
        | l :: ls => String c l :: ls
        | [] => [String c EmptyString]
        end
  end.

(** [s.split()]: the words between runs of whitespace. *)
Fixpoint split_whitespace (s : string) : list string :=
  match s with
  | EmptyString => []
  | String c s' =>
      if PyStr.isspace c then split_whitespace s'
      else
        match s' with
        | EmptyString => [String c EmptyString]
        | String c' _ =>
            if PyStr.isspace c' then String c EmptyString :: split_whitespace s'
            else
              match split_whitespace s' with
              | word :: words => String c word :: words
              | [] => [String c EmptyString]
              end
        end
  end.

(** The first word of a string that starts with one, and what follows
    it. *)
Fixpoint word (s : string) : string :=
  match s with
  | EmptyString => EmptyString
  | String c s' => if PyStr.isspace c then EmptyString else String c (word s')
  end.

Fixpoint after_word (s : string) : string :=
  match s with
  | EmptyString => EmptyString
  | String c s' => if PyStr.isspace c then s else after_word s'
  end.

(** [s.split(maxsplit=1)]: the first word, and the rest of the string
    from the second word on, if there is one. *)
Definition split_maxsplit1 (s : string) : list string :=
  let s := PyStr.lstrip PyStr.isspace s in
  if s =? "" then []
  else
    let rest := PyStr.lstrip PyStr.isspace (after_word s) in
    if rest =? "" then [word s] else [word s; rest].

(** [s[n:]] *)
Fixpoint slice_from (n : nat) (s : string) : string :=
  match n, s with
  | S n', String _ s' => slice_from n' s'
  | _, _ => s
  end.

(** [sep.join(l)] *)
Fixpoint join (sep : string) (l : list string) : string :=
  match l with
  | [] => EmptyString
  | [x] => x
  | x :: l' => x ++ sep ++ join sep l'
  end.

End PyText.

(** ** Colored text *)

Module Color.

Definition BLUE : string := String "027" "[34m".
Definition GREEN : string := String "027" "[32m".
Definition RED : string := String "027" "[31m".
Definition YELLOW : string := String "027" "[33m".
Definition DIM : string := String "027" "[2m".
Definition RESET : string := String "027" "[0m".

Definition blue (text : string) : string := BLUE ++ text ++ RESET.
Definition green (text : string) : string := GREEN ++ text ++ RESET.
Definition red (text : string) : string := RED ++ text ++ RESET.
Definition yellow (text : string) : string := YELLOW ++ text ++ RESET.
Definition dim (text : string) : string := DIM ++ text ++ RESET.

End Color.

(** ** More of the host *)

(** Why a path leads to no node, or to a node of the wrong kind. *)
Inductive errno : Type :=
| ENOENT
| ENOTDIR
| EISDIR
| EEXIST.

(** The calls the host may refuse for a reason of its own. *)
Inductive syscall : Type :=
| Chdir
| Listdir.

(** The node a list of components leads to, or why there is none: a
    component is missing, or a regular file stands where a directory is
    needed. *)
Fixpoint walk_to (comps : list string) (n : node) : errno + node :=
  match comps with
  | [] => inr n
  | c :: comps' =>
      match n with
      | File _ => inl ENOTDIR
      | Dir children =>
          match assoc c children with
          | Some child => walk_to comps' child
          | None => inl ENOENT
          end
      end
  end.

(** The components of an absolute path, as [resolve] reads them. *)
Definition components (p : string) : list string :=
  filter (fun c => negb ((c =? "") || (c =? posixpath.curdir)))
    (PyStr.split posixpath.sep p).

(** [os.path.isdir(p)] *)
Definition os_path_isdir (w : world) (p : string) : bool :=
  match resolve w p with
  | Some (Dir _) => true
  | _ => false
  end.

(** [d[k] = v] for a dictionary that keeps the order of insertion: the
    value of a key it holds is replaced in place, a new key comes last.  A
    directory that receives a child is changed the same way. *)
Fixpoint setitem {A : Type} (k : string) (v : A) (d : list (string * A))
    : list (string * A) :=
  match d with
  | [] => [(k, v)]
  | (k', v') :: d' =>
      if k' =? k then (k, v) :: d' else (k', v') :: setitem k v d'
  end.

(** The text a read in text mode returns for the text [s] once written:
    every line ending, [\r\n] and [\r] too, is read as [\n]. *)
Fixpoint universal_newlines (s : string) : string :=
  match s with
  | EmptyString => EmptyString
  | String c s' =>
      if Ascii.eqb c "013" then
        match s' with
        | String c' s'' =>
            if Ascii.eqb c' "010" then String "010" (universal_newlines s'')
            else String "010" (universal_newlines s')
        | EmptyString => String "010" EmptyString
        end
      else String c (universal_newlines s')
  end.

(** [p[:p.rfind("/") + 1]] *)
Fixpoint upto_last_sep (p : string) : string :=
  match p with
  | EmptyString => EmptyString
  | String c p' =>
      match upto_last_sep p' with
      | EmptyString =>
          if Ascii.eqb c posixpath.sep then String c EmptyString
          else EmptyString
      | head => String c head
      end
  end.

(** [posixpath.dirname(p)] *)
Definition dirname (p : string) : string :=
  let head := upto_last_sep p in
  if negb (head =? "")
     && negb (PyStr.lstrip (Ascii.eqb posixpath.sep) head =? "")
  then PyStr.rstrip (Ascii.eqb posixpath.sep) head
  else head.

(** The separators a path starts with. *)
Fixpoint leading_seps (p : string) : string :=
  match p with
  | String c p' =>
      if Ascii.eqb c posixpath.sep then String c (leading_seps p')
      else EmptyString
  | EmptyString => EmptyString
  end.

(** The components [normpath] keeps of an absolute path. *)
Definition kept (p : string) : list string :=
  fold_left (posixpath.normpath_step 1) (PyStr.split posixpath.sep p) [].

(** The dictionaries the file system operations return:
    [{"success": True, "path": ...}],
    [{"success": True, "path": ..., "content": ...}] and
    [{"success": False, "error": ...}]. *)
Inductive op_result : Type :=
| OkPath (at_path : string)
| OkContent (at_path : string) (text : string)
| OpError (error : string).

(** One element of the list [files] of [list_directory]:
    [{"name": ..., "isDirectory": ..., "size": ..., "modified": ...}] or
    [{"name": ..., "error": ...}]. *)
Inductive listed : Type :=
| Listed (name : string) (isDirectory : bool) (size : nat) (modified : string)
| Unlisted (name : string) (error : string).

(** [{"success": True, "path": ..., "files": ...}] or
    [{"success": False, "error": ...}]. *)
Inductive ls_result : Type :=
| OkFiles (at_path : string) (files : list listed)
| LsError (error : string).

Section Host.

(** [str(e)] for the [OSError] the host raises for a reason and a path. *)
Variable strerror : errno -> string -> string.

(** [os.stat(p)]: the size and the time of modification, formatted, of
    what [p] names. *)
Variable os_stat : world -> string -> M (nat * string).

(** The exception the host raises when it refuses a call for the path
    [p], if it does. *)
Variable refuses : syscall -> world -> string -> option exn.

Definition os_error {A : Type} (e : errno) (p : string) : M A :=
  raise (OSError (strerror e p)).

(** [with open(p, "r", encoding="utf-8") as f: f.read()] *)
Definition open_r (w : world) (p : string) : M string :=
  match walk_to (components p) (fsroot w) with
  | inr (File (inr text)) => ret text
  | inr (File (inl (Unopenable msg))) => raise (OSError msg)
  | inr (File (inl (Undecodable msg))) => raise (UnicodeDecodeError msg)
  | inr (Dir _) => os_error EISDIR p
  | inl e => os_error e p
  end.

(** [os.makedirs(p, exist_ok=True)] below the node [n], which the path
    [prefix] names: the directories of [comps] that are missing are made,
    from the first one on.  A regular file on the way refuses the
    directory to make below it, and a regular file at the end is in the
    way; nothing has been made by then. *)
Fixpoint mkdir_p (prefix : string) (comps : list string) (n : node)
    {struct comps} : M node :=
  match comps with
  | [] =>
      match n with
      | Dir _ => ret n
      | File _ => os_error EEXIST prefix
      end
  | c :: comps' =>
      match n with
      | File _ => os_error ENOTDIR (posixpath.join prefix c)
      | Dir children =>
          let child :=
            match assoc c children with
            | Some child => child
            | None => Dir []
            end in
          child' <- mkdir_p (posixpath.join prefix c) comps' child ;;
          ret (Dir (setitem c child' children))
      end
  end.

(** [os.makedirs(p, exist_ok=True)] for an absolute path. *)
Definition os_makedirs (w : world) (p : string) : M world :=
  root <- mkdir_p (leading_seps p) (components p) (fsroot w) ;;
  ret (mkWorld (getcwd w) root).

(** [with open(p, "w", encoding="utf-8") as f: f.write(text)] below the
    node [n]: the file is made, or its content replaced. *)
Fixpoint write_at (p : string) (comps : list string) (text : string)
    (n : node) {struct comps} : M node :=
  match comps with
  | [] => os_error EISDIR p
  | c :: comps' =>
      match n with
      | File _ => os_error ENOTDIR p
      | Dir children =>
          match comps' with
          | [] =>
              match assoc c children with
              | Some (Dir _) => os_error EISDIR p
              | Some (File (inl (Unopenable msg))) => raise (OSError msg)
              | _ =>
                  ret (Dir (setitem c
                              (File (inr (universal_newlines text)))
                              children))
              end
          | _ =>
              match assoc c children with
              | Some child =>
                  child' <- write_at p comps' text child ;;
                  ret (Dir (setitem c child' children))
              | None => os_error ENOENT p
              end
          end
      end
  end.

Definition open_w (w : world) (p : string) (text : string) : M world :=
  root <- write_at p (components p) text (fsroot w) ;;
  ret (mkWorld (getcwd w) root).

(** [os.listdir(p)] *)
Definition os_listdir (w : world) (p : string) : M (list string) :=
  match refuses Listdir w p with
  | Some e => raise e
  | None =>
      match walk_to (components p) (fsroot w) with
      | inr (Dir children) => ret (map fst children)
      | inr (File _) => os_error ENOTDIR p
      | inl e => os_error e p
      end
  end.

(** [os.chdir(p)]: [os.getcwd()] then returns the path of the directory
    as the host knows it, with one leading separator. *)
Definition os_chdir (w : world) (p : string) : M world :=
  match refuses Chdir w p with
  | Some e => raise e
  | None =>
      match walk_to (components p) (fsroot w) with
      | inr (Dir _) =>
          ret (mkWorld
                 (String posixpath.sep
                    (PyStr.join posixpath.sep (components p)))
                 (fsroot w))
      | inr (File _) => os_error ENOTDIR p
      | inl e => os_error e p
      end
  end.

(** ** The file system operations *)

(** [get_current_dir()] *)
Definition get_current_dir (w : world) : string := getcwd w.

(** [list_directory(dir_path)] *)
Definition list_directory (w : world) (dir_path : string) : ls_result :=
  let full_path :=
    posixpath.abspath (getcwd w) (posixpath.join (getcwd w) dir_path) in
  match os_listdir w full_path with
  | inr entries =>
      OkFiles full_path
        (map (fun entry =>
                let entry_path := posixpath.join full_path entry in
                match os_stat w entry_path with
                | inr (size, modified) =>
                    Listed entry (os_path_isdir w entry_path) size modified
                | inl e => Unlisted entry (str e)
                end)
           entries)
  | inl e => LsError (str e)
  end.

(** [change_directory(dir_path)] *)
Definition change_directory (w : world) (dir_path : string)
    : op_result * world :=
  let full_path :=
    posixpath.abspath (getcwd w) (posixpath.join (getcwd w) dir_path) in
  if negb (os_path_isdir w full_path) then
    (OpError (full_path ++ " is not a directory"), w)
  else
    match os_chdir w full_path with
    | inr w => (OkPath (getcwd w), w)
    | inl e => (OpError (str e), w)
    end.

(** [make_directory(dir_path)] *)
Definition make_directory (w : world) (dir_path : string)
    : op_result * world :=
  let full_path :=
    posixpath.abspath (getcwd w) (posixpath.join (getcwd w) dir_path) in
  match os_makedirs w full_path with
  | inr w => (OkPath full_path, w)
  | inl e => (OpError (str e), w)
  end.

(** [read_file(file_path)] *)
Definition read_file (w : world) (file_path : string) : op_result :=
  let full_path :=
    posixpath.abspath (getcwd w) (posixpath.join (getcwd w) file_path) in
  match open_r w full_path with
  | inr content => OkContent full_path content
  | inl e => OpError (str e)
  end.

(** [write_file(file_path, content)]: what [os.makedirs] made stays when
    [open] then raises. *)
Definition write_file (w : world) (file_path content : string)
    : op_result * world :=
  let full_path :=
    posixpath.abspath (getcwd w) (posixpath.join (getcwd w) file_path) in
  let dir_name := dirname full_path in
  match os_makedirs w dir_name with
  | inr w =>
      match open_w w full_path content with
      | inr w => (OkPath full_path, w)
      | inl e => (OpError (str e), w)
      end
  | inl e => (OpError (str e), w)
  end.

End Host.

(** ** The configuration *)

(** The values a configuration holds: [None], a boolean or a string. *)
Inductive value : Type :=
| VNone
| VBool (b : bool)
| VStr (s : string).

(** [bool(v)] *)
Definition truthy (v : value) : bool :=
  match v with
  | VNone => false
  | VBool b => b
  | VStr s => negb (s =? "")
  end.

(** A dictionary with strings as keys, in the order of insertion. *)
Definition dict (A : Type) : Type := list (string * A).

(** [d.get(k, default)] *)
Definition dict_get {A : Type} (d : dict A) (k : string) (default : A) : A :=
  match assoc k d with
  | Some v => v
  | None => default
  end.

(** The dictionary [config]: the configurations by name under ["configs"]
    and the name of the active one under ["active"], each of the two keys
    being there or not. *)
Record configuration : Type := mkConfiguration {
  configs : option (dict (dict value));
  active : option string
}.

Definition DEFAULT_CONFIG : configuration :=
  mkConfiguration
    (Some [("default",
            [("apiKey", VStr "");
             ("baseUrl", VStr "https://api.openai.com/v1");
             ("model", VStr "gpt-4o");
             ("debug", VBool false)])])
    (Some "default").

(** [config.get("active", "default")] *)
Definition active_name (config : configuration) : string :=
  match active config with
  | Some name => name
  | None => "default"
  end.

(** [config.get("configs", {})] *)
Definition configs_of (config : configuration) : dict (dict value) :=
  match configs config with
  | Some d => d
  | None => []
  end.

(** [get_active_config()] *)
Definition get_active_config (config : configuration) : dict value :=
  let active := active_name config in
  dict_get (configs_of config) active [].

Section Config.

(** The file at [CONFIG_PATH], which lies outside the tree of [world], and
    [save_config]: what it leaves in that file, whether the write
    succeeds or not. *)
Variable stored : Type.
Variable save_config : configuration -> stored -> stored.

(** [set_active_config(key, value)]: what it returns, the dictionary
    [config] and the file afterwards. *)
Definition set_active_config (config : configuration) (file : stored)
    (key : string) (v : value) : bool * configuration * stored :=
  let active_ := active_name config in
  match assoc active_ (configs_of config) with
  | Some conf =>
      let config :=
        mkConfiguration
          (Some (setitem active_ (setitem key v conf) (configs_of config)))
          (active config) in
      (true, config, save_config config file)
  | None => (false, config, file)
  end.

End Config.

(** ** The call of the assistant *)

(** One message of the chat history: [{"role": ..., "content": ...}]. *)
Module Msg.

Record t : Type := mk { role : string; content : string }.

End Msg.

(** What [call_api] returns: [{"success": True, "message": ...}] or
    [{"success": False, "error": ...}]. *)
Inductive api_result : Type :=
| ApiOk (message : string)
| ApiError (error : string).

Section Api.

(** The service: for the key, the model and the messages sent, the
    [content] of each chunk of the streamed response ([None] or a
    string), or [str(e)] for the exception the client raises. *)
Variable create :
  value -> value -> list Msg.t -> string + list (option string).

(** [call_api(messages)] *)
Definition call_api (config : configuration) (messages : list Msg.t)
    : api_result :=
  let active_config := get_active_config config in
  if truthy (dict_get active_config "debug" (VBool false)) then
    ApiOk "DEBUG MODE: This is a mock response. Set debug=false to use actual API."
  else
    let api_key := dict_get active_config "apiKey" VNone in
    let model := dict_get active_config "model" (VStr "gpt-4o") in
    if negb (truthy api_key) then ApiError "API key not configured"
    else
      let formatted_messages :=
        map (fun msg => Msg.mk (Msg.role msg) (Msg.content msg)) messages in
      match create api_key model formatted_messages with
      | inr response =>
          ApiOk
            (fold_left
               (fun full_response chunk =>
                  match chunk with
                  | Some content => full_response ++ content
                  | None => full_response
                  end)
               response "")
      | inl error => ApiError error
      end.

End Api.

(** ** The edit mode *)

Module FileEditMode.

(** The object [file_edit_mode]; [mode] is ["create"] or ["append"]. *)
Record t : Type := mk {
  active : bool;
  file_path : option string;
  content : list string;
  mode : option string
}.

(** [FileEditMode()] *)
Definition init : t := mk false None [] None.

(** [self.reset()] *)
Definition reset (self : t) : t := mk false None [] None.

End FileEditMode.

(** ** The interactive loop *)

Definition NL : string := String "010" EmptyString.

(** The content of the first message of the history. *)
Definition system_content (cwd : string) : string :=
  "You are a helpful coding assistant. You have access to the user's filesystem."
  ++ NL ++ "Current directory: " ++ cwd.

(** The state of the program: the host, the configuration and its file, the
    edit mode and the chat history. *)
Record state (stored : Type) : Type := mkState {
  host : world;
  config_file : stored;
  config : configuration;
  file_edit_mode : FileEditMode.t;
  messages : list Msg.t
}.

Arguments mkState {stored}.
Arguments host {stored}.
Arguments config_file {stored}.
Arguments config {stored}.
Arguments file_edit_mode {stored}.
Arguments messages {stored}.

(** What one turn of the loop leads to: the next turn, the end of the loop,
    or an exception that leaves [main]. *)
Inductive outcome (stored : Type) : Type :=
| Next (s : state stored)
| Break (s : state stored)
| Fatal.

Arguments Next {stored}.
Arguments Break {stored}.
Arguments Fatal {stored}.

(** [l.sort(key=...)], the order of the keys being [le]: the sort is
    stable. *)
Fixpoint insert_sorted {A : Type} (le : A -> A -> bool) (x : A) (l : list A)
    : list A :=
  match l with
  | [] => [x]
  | y :: l' => if le x y then x :: l else y :: insert_sorted le x l'
  end.

Definition sort_by {A : Type} (le : A -> A -> bool) (l : list A) : list A :=
  fold_right (insert_sorted le) [] l.

(** The key of [files.sort] in the handler of [/ls], and the order of two
    keys. *)
Definition ls_key (x : listed) : bool * string :=
  match x with
  | Listed name isDirectory _ _ => (negb isDirectory, PyStr.lower name)
  | Unlisted name _ => (negb false, PyStr.lower name)
  end.

Definition key_le (a b : bool * string) : bool :=
  match fst a, fst b with
  | false, true => true
  | true, false => false
  | _, _ => String.leb (snd a) (snd b)
  end.

(** The line of the listing for one element of [files]. *)
Definition ls_line (f : listed) : string :=
  match f with
  | Listed name true _ _ => name ++ "/"
  | Listed name false _ _ => name
  | Unlisted name error =>
      if negb (error =? "") then name ++ " (error: " ++ error ++ ")"
      else name
  end.

(** The value of [context_message] after the loop over [files]. *)
Definition context_message (path_ : string) (files : list entry) : string :=
  fold_left
    (fun message file =>
       message ++ "File: " ++ path file ++ NL ++ "```" ++ NL
       ++ content file ++ NL ++ "```" ++ NL ++ NL)
    files
    ("Here are the files in the workspace (" ++ path_ ++ "):" ++ NL ++ NL).

Section Loop.

Variable strerror : errno -> string -> string.
Variable os_stat : world -> string -> M (nat * string).
Variable refuses : syscall -> world -> string -> option exn.
Variable fnmatch : string -> string -> bool.
Variable stored : Type.
Variable save_config : configuration -> stored -> stored.
Variable create :
  value -> value -> list Msg.t -> string + list (option string).

(** What [print_tree(path)] writes to the standard output. *)
Variable print_tree : world -> string -> string.

(** [file_edit_mode] set to [e]. *)
Definition with_edit (s : state stored) (e : FileEditMode.t)
    : state stored :=
  mkState (host s) (config_file s) (config s) e (messages s).

(** [messages.append(...)] *)
Definition append_messages (s : state stored) (new : list Msg.t)
    : state stored :=
  mkState (host s) (config_file s) (config s) (file_edit_mode s)
    (messages s ++ new)%list.

(** The handler of [/context] and [/#], for the command [cmd]: the code
    of lines 570 to 604, which lines 658 to 692 and 746 to 780 repeat. *)
Definition handle_context (s : state stored) (cmd : string)
    : outcome stored :=
  let path_ :=
    match PyText.split_maxsplit1 cmd with
    | _ :: arg :: _ => arg
    | _ => "."
    end in
  match get_workspace_context fnmatch (host s) path_ with
  | Success files =>
      Next (append_messages s
              [Msg.mk "user"
                 ("Here's the current workspace context:" ++ NL
                  ++ context_message path_ files);
               Msg.mk "assistant"
                 "I've received and understood the workspace context. I'll use this information to provide better assistance."])
  | Failure _ => Next s
  end.

(** The handler of [/ls]: the code of lines 606 to 632, which lines 694
    to 720 repeat. *)
Definition handle_ls (s : state stored) (cmd : string) : outcome stored :=
  let dir_path :=
    match PyText.split_maxsplit1 cmd with
    | _ :: arg :: _ => arg
    | _ => "."
    end in
  match list_directory strerror os_stat refuses (host s) dir_path with
  | OkFiles at_path files =>
      let files :=
        sort_by (fun x y => key_le (ls_key x) (ls_key y)) files in
      let output :=
        Color.green ("Contents of: " ++ at_path) :: map ls_line files in
      Next (append_messages s
              [Msg.mk "user"
                 ("Directory listing for " ++ at_path ++ ":" ++ NL
                  ++ PyText.join NL output)])
  | LsError _ => Next s
  end.

(** The handler of [/tree]: the code of lines 634 to 655, which lines 722
    to 743 repeat. *)
Definition handle_tree (s : state stored) (cmd : string) : outcome stored :=
  let path_ :=
    match PyText.split_maxsplit1 cmd with
    | _ :: arg :: _ => arg
    | _ => "."
    end in
  Next (append_messages s
          [Msg.mk "user"
             ("Directory tree for "
              ++ posixpath.abspath (getcwd (host s)) path_ ++ ":" ++ NL
              ++ print_tree (host s) path_)]).

(** The last handlers of [/ls] and of [/tree], lines 782 to 806: they
    print the listing and the tree, and add nothing to the history. *)
Definition handle_ls_printed (s : state stored) (cmd : string)
    : outcome stored :=
  Next s.

Definition handle_tree_printed (s : state stored) (cmd : string)
    : outcome stored :=
  Next s.

(** The body of [while True] in [main], for the line [input] returns. *)
Definition loop_body (s : state stored) (line : string) : outcome stored :=
  let e := file_edit_mode s in
  if FileEditMode.active e then
    if PyStr.strip line =? "/save" then
      let content := PyText.join NL (FileEditMode.content e) in
      match FileEditMode.file_path e with
      | Some file_path =>
          let (result, w) := write_file strerror (host s) file_path content in
          Next (mkState w (config_file s) (config s) (FileEditMode.reset e)
                  (messages s))
      | None => Next (with_edit s (FileEditMode.reset e))
      end
    else if PyStr.strip line =? "/cancel" then
      Next (with_edit s (FileEditMode.reset e))
    else
      Next (with_edit s
              (FileEditMode.mk (FileEditMode.active e)
                 (FileEditMode.file_path e)
                 (FileEditMode.content e ++ [line])%list
                 (FileEditMode.mode e)))
  else
  let cmd := PyStr.strip line in
  if (cmd =? "/exit") || (cmd =? "/quit") then Break s
  else if PyStr.startswith "/config" cmd then
    match PyText.split_whitespace cmd with
    | [] => Fatal
    | [_] => Next s
    | _ :: command :: args =>
        if command =? "list" then Next s
        else if command =? "show" then Next s
        else
          match args with
          | key :: v :: vs =>
              if command =? "set" then
                let value := PyText.join " " (v :: vs) in
                let '(_, config, file) :=
                  set_active_config stored save_config (config s)
                    (config_file s) key (VStr value) in
                Next (mkState (host s) file config e (messages s))
              else Next s
          | _ => Next s
          end
    end
  else if cmd =? "/help" then Next s
  else if (cmd =? "/pwd") || (cmd =? "/cwd") then Next s
  else if PyStr.startswith "/cd " cmd then
    let path_arg := PyStr.strip (PyText.slice_from 4 cmd) in
    let (result, w) :=
      change_directory strerror refuses (host s) path_arg in
    match result with
    | OpError _ => Next s
    | _ =>
        match messages s with
        | first :: others =>
            Next (mkState w (config_file s) (config s) e
                    (Msg.mk (Msg.role first) (system_content (getcwd w))
                     :: others))
        | [] => Fatal
        end
    end
  else if PyStr.startswith "/mkdir " cmd then
    let path_arg := PyStr.strip (PyText.slice_from 7 cmd) in
    let (result, w) := make_directory strerror (host s) path_arg in
    Next (mkState w (config_file s) (config s) e (messages s))
  else if PyStr.startswith "/cat " cmd then Next s
  else if PyStr.startswith "/write " cmd then
    let file_arg := PyStr.strip (PyText.slice_from 7 cmd) in
    Next (with_edit s (FileEditMode.mk true (Some file_arg) [] (Some "create")))
  else if PyStr.startswith "/append " cmd then
    let file_arg := PyStr.strip (PyText.slice_from 8 cmd) in
    match read_file strerror (host s) file_arg with
    | OkContent _ content =>
        Next (with_edit s
                (FileEditMode.mk true (Some file_arg)
                   (PyText.splitlines content) (Some "append")))
    | _ => Next s
    end
  else if PyStr.startswith "/context" cmd || PyStr.startswith "/#" cmd then
    handle_context s cmd
  else if PyStr.startswith "/ls" cmd then handle_ls s cmd
  else if PyStr.startswith "/tree" cmd then handle_tree s cmd
  else if PyStr.startswith "/context" cmd || PyStr.startswith "/#" cmd then
    handle_context s cmd
  else if PyStr.startswith "/ls" cmd then handle_ls s cmd
  else if PyStr.startswith "/tree" cmd then handle_tree s cmd
  else if PyStr.startswith "/context" cmd || PyStr.startswith "/#" cmd then
    handle_context s cmd
  else if PyStr.startswith "/ls" cmd then handle_ls_printed s cmd
  else if PyStr.startswith "/tree" cmd then handle_tree_printed s cmd
  else
    let s := append_messages s [Msg.mk "user" cmd] in
    match call_api create (config s) (messages s) with
    | ApiOk assistant_msg =>
        Next (append_messages s [Msg.mk "assistant" assistant_msg])
    | ApiError _ => Next s
    end.

(** The loop [while True] of [main] on the lines the user enters; the end
    of the input breaks the loop. *)
Fixpoint loop (s : state stored) (lines : list string)
    : option (state stored) :=
  match lines with
  | [] => Some s
  | line :: lines' =>
      match loop_body s line with
      | Next s' => loop s' lines'
      | Break s' => Some s'
      | Fatal => None
      end
  end.

(** The state in which [main] enters its loop. *)
Definition initial (w : world) (file : stored) (config : configuration)
    : state stored :=
  mkState w file config FileEditMode.init
    [Msg.mk "system" (system_content (getcwd w))].

End Loop.

(** ** Example values *)

Module Samples.

(** The messages of a Linux host. *)
Definition strerror (e : errno) (p : string) : string :=
  match e with
  | ENOENT => "[Errno 2] No such file or directory"
  | ENOTDIR => "[Errno 20] Not a directory"
  | EISDIR => "[Errno 21] Is a directory"
  | EEXIST => "[Errno 17] File exists"
  end ++ ": '" ++ p ++ "'".

(** A host on which every entry has the same size and date. *)
Definition os_stat (w : world) (p : string) : M (nat * string) :=
  ret (0, "2024-01-01T00:00:00").

(** A host that refuses nothing. *)
Definition refuses (call : syscall) (w : world) (p : string)
    : option exn :=
  None.

(** A host on which the process may neither enter nor list [/w/src]. *)
Definition src_locked (call : syscall) (w : world) (p : string)
    : option exn :=
  if p =? "/w/src"
  then Some (OSError ("[Errno 13] Permission denied: '" ++ p ++ "'"))
  else None.

(** The configuration file as the last configuration saved, if any. *)
Definition save_config (config : configuration)
    (file : option configuration) : option configuration :=
  Some config.

(** A service that answers [ok] in two chunks. *)
Definition create (api_key model : value) (messages : list Msg.t)
    : string + list (option string) :=
  inr [Some "o"; None; Some "k"].

(** A host that prints no tree. *)
Definition print_tree (w : world) (p : string) : string := "".

End Samples.

(** ** What the filters of the scan let through *)

(** The tests of the scan on the way to the file that lies [r] below the
    directory met [cs] below the scanned one: no directory of [r] is pruned
    from [dirs] where it is listed, and the file passes the two tests on
    files. *)
Fixpoint admitted (fnmatch : string -> string -> bool)
    (ignore_patterns : list string) (cs r : list string) : bool :=
  match r with
  | [] => false
  | name :: r' =>
      match r' with
      | [] =>
          negb (excluded fnmatch ignore_patterns (rel_of cs) name)
          && negb (component_ignored fnmatch ignore_patterns
                     (PyStr.join posixpath.sep (cs ++ [name])))
      | _ =>
          negb (pruned fnmatch ignore_patterns (rel_of cs) name)
          && admitted fnmatch ignore_patterns (cs ++ [name]) r'
      end
  end.

Section ReportedExactly.

Variable fnmatch : string -> string -> bool.
Variable w : world.
Variable ignore_patterns : list string.
Variable start : string.
Variable k : nat.
Variable comps : list string.

(** What the scan of the node [n], met [cs] below the scanned directory,
    adds to any accumulated context: the entries of the files below [n]
    that are admitted and can be read, and no other entry. *)
Definition scanned_exactly (n : node) : Prop :=
  forall cs,
    wf_node n = true -> clean_all cs ->
    lookup (comps ++ cs) (fsroot w) = Some n ->
    exists new,
      (forall context,
         os_walk (visit fnmatch w ignore_patterns start (root_at k comps))
           (root_at k (comps ++ cs)) n context
         = inr (context ++ new)%list)
      /\ forall p text,
           In (mkEntry p text) new
           <-> exists r,
                 clean_all r
                 /\ admitted fnmatch ignore_patterns cs r = true
                 /\ p = PyStr.join posixpath.sep (cs ++ r)
                 /\ lookup r n = Some (File (inr text)).

End ReportedExactly.

(** ** Notions for the properties of the commands *)

(** The first message of the history names the working directory. *)
Definition names_cwd {stored : Type} (s : state stored) : Prop :=
  exists others,
    messages s
    = Msg.mk "system" (system_content (getcwd (host s))) :: others.

(** A line that the edit mode takes as content: neither [/save] nor
    [/cancel] once stripped. *)
Definition is_content (line : string) : bool :=
  negb (PyStr.strip line =? "/save") && negb (PyStr.strip line =? "/cancel").

(** A line of text: it holds none of the characters that end a line for
    [str.splitlines]. *)
Fixpoint one_line (s : string) : bool :=
  match s with
  | EmptyString => true
  | String c s' => negb (PyText.linebreak c) && one_line s'
  end.

(** [f.get("isDirectory", False)] *)
Definition is_directory (f : listed) : bool :=
  match f with
  | Listed _ isDirectory _ _ => isDirectory
  | Unlisted _ _ => false
  end.

(** The order of [files] after [files.sort] in the handler of [/ls]. *)
Definition ls_le (x y : listed) : Prop := key_le (ls_key x) (ls_key y) = true.

(** Whatever a list of components leads to in [n], it leads to a node of
    the same kind in [n']. *)
Definition kinds_kept (n n' : node) : Prop :=
  forall q x, walk_to q n = inr x ->
    exists x', walk_to q n' = inr x' /\ is_dir x' = is_dir x.

(** [f["name"]] *)
Definition listed_name (f : listed) : string :=
  match f with
  | Listed name _ _ _ => name
  | Unlisted name _ => name
  end.

(** * Properties *)

(** Closes a goal that says that the names of a list are clean, from the
    hypotheses that say so of its parts. *)
Ltac clean_names :=
  repeat first
    [ assumption
    | apply Forall_nil
    | apply Forall_cons
    | apply Forall_app; split ].

(** ** Strings *)

Lemma string_eqb_refl (s : string) : (s =? s) = true.
Proof. apply String.eqb_refl. Qed.

Lemma append_empty_r (s : string) : s ++ "" = s.
Proof. induction s as [|c s IH]; simpl; [reflexivity | now rewrite IH]. Qed.

Lemma append_assoc (a b c : string) : (a ++ b) ++ c = a ++ (b ++ c).
Proof. induction a as [|x a IH]; simpl; [reflexivity | now rewrite IH]. Qed.

Lemma has_sep_app (a b : string) : has_sep (a ++ b) = has_sep a || has_sep b.
Proof.
  induction a as [|c a IH]; simpl; [reflexivity|].
  rewrite IH. now rewrite orb_assoc.
Qed.

Lemma clean_nonempty (s : string) : clean s = true -> s <> "".
Proof. intros H ->. discriminate H. Qed.

Lemma clean_no_sep (s : string) : clean s = true -> has_sep s = false.
Proof.
  unfold clean. intros H.
  repeat (apply andb_prop in H; destruct H as [H ?]).
  now apply negb_true_iff.
Qed.

Lemma clean_not_curdir (s : string) : clean s = true -> (s =? ".") = false.
Proof.
  unfold clean. intros H.
  repeat (apply andb_prop in H; destruct H as [H ?]).
  now apply negb_true_iff.
Qed.

Lemma clean_not_pardir (s : string) : clean s = true -> (s =? "..") = false.
Proof.
  unfold clean. intros H.
  repeat (apply andb_prop in H; destruct H as [H ?]).
  now apply negb_true_iff.
Qed.

Lemma clean_eqb_empty (s : string) : clean s = true -> (s =? "") = false.
Proof.
  intros H. apply String.eqb_neq. now apply clean_nonempty.
Qed.

(** *** [split] and [join] *)

Lemma split_nonnil (c : ascii) (s : string) : PyStr.split c s <> [].
Proof.
  induction s as [|a s IH]; simpl; [discriminate|].
  destruct (Ascii.eqb a c); [discriminate|].
  destruct (PyStr.split c s); [contradiction | discriminate].
Qed.

Lemma split_no_sep (s : string) :
  has_sep s = false -> PyStr.split posixpath.sep s = [s].
Proof.
  induction s as [|a s IH]; simpl; [reflexivity|].
  intros H. apply orb_false_iff in H as [Ha Hs].
  rewrite Ha, (IH Hs). reflexivity.
Qed.

Lemma split_app_sep (x s : string) :
  has_sep x = false ->
  PyStr.split posixpath.sep (x ++ String posixpath.sep s)
  = x :: PyStr.split posixpath.sep s.
Proof.
  induction x as [|a x IH]; intros H.
  - reflexivity.
  - simpl in H. apply orb_false_iff in H as [Ha Hx].
    simpl. rewrite Ha, (IH Hx). reflexivity.
Qed.

Lemma split_parts_no_sep (s : string) :
  Forall (fun part => has_sep part = false) (PyStr.split posixpath.sep s).
Proof.
  induction s as [|a s IH]; simpl.
  - constructor; [reflexivity | constructor].
  - destruct (Ascii.eqb a posixpath.sep) eqn:Ha.
    + constructor; [reflexivity | exact IH].
    + destruct (PyStr.split posixpath.sep s) as [|h t].
      * constructor; [simpl; now rewrite Ha | constructor].
      * inversion IH; subst. constructor; [simpl; now rewrite Ha | assumption].
Qed.

Lemma split_join (l : list string) :
  l <> [] -> Forall (fun part => has_sep part = false) l ->
  PyStr.split posixpath.sep (PyStr.join posixpath.sep l) = l.
Proof.
  induction l as [|x l IH]; intros Hne Hl; [contradiction|].
  inversion Hl as [|? ? Hx Hl']; subst.
  destruct l as [|y l].
  - simpl. now apply split_no_sep.
  - change (PyStr.join posixpath.sep (x :: y :: l))
      with (x ++ String posixpath.sep (PyStr.join posixpath.sep (y :: l))).
    rewrite split_app_sep by assumption.
    rewrite IH; [reflexivity | discriminate | assumption].
Qed.

Lemma join_snoc (l : list string) (d : string) :
  l <> [] ->
  PyStr.join posixpath.sep (l ++ [d])
  = PyStr.join posixpath.sep l ++ String posixpath.sep d.
Proof.
  induction l as [|x l IH]; intros Hne; [contradiction|].
  destruct l as [|y l].
  - reflexivity.
  - change (PyStr.join posixpath.sep ((x :: y :: l) ++ [d]))
      with (x ++ String posixpath.sep
                   (PyStr.join posixpath.sep ((y :: l) ++ [d]))).
    rewrite IH by discriminate.
    change (PyStr.join posixpath.sep (x :: y :: l))
      with (x ++ String posixpath.sep (PyStr.join posixpath.sep (y :: l))).
    rewrite append_assoc. reflexivity.
Qed.

Lemma Forall_clean_no_sep (l : list string) :
  clean_all l ->
  Forall (fun part => has_sep part = false) l.
Proof.
  intros H. eapply Forall_impl; [|exact H]. intros a. apply clean_no_sep.
Qed.

Lemma join_inj (l1 l2 : list string) :
  l1 <> [] -> l2 <> [] ->
  clean_all l1 -> clean_all l2 ->
  PyStr.join posixpath.sep l1 = PyStr.join posixpath.sep l2 -> l1 = l2.
Proof.
  intros N1 N2 C1 C2 E.
  rewrite <- (split_join l1), <- (split_join l2), E;
    auto using Forall_clean_no_sep.
Qed.

(** ** Paths *)

Lemma endswith_char_app (c : ascii) (a b : string) :
  b <> "" -> PyStr.endswith_char c (a ++ b) = PyStr.endswith_char c b.
Proof.
  intros Hb. induction a as [|x a IH]; [reflexivity|].
  simpl. rewrite IH.
  destruct (a ++ b) eqn:E; [|reflexivity].
  destruct a; simpl in E; [contradiction | discriminate].
Qed.

Lemma endswith_no_sep (s : string) :
  has_sep s = false -> PyStr.endswith_char posixpath.sep s = false.
Proof.
  induction s as [|a s IH]; [reflexivity|].
  simpl. intros H. apply orb_false_iff in H as [Ha Hs].
  destruct s; [exact Ha | now apply IH].
Qed.

Lemma endswith_mul (k : nat) :
  PyStr.endswith_char posixpath.sep (PyStr.mul posixpath.sep (S k)) = true.
Proof.
  induction k as [|k IH]; [reflexivity|].
  change (PyStr.mul posixpath.sep (S (S k)))
    with (String posixpath.sep (PyStr.mul posixpath.sep (S k))).
  simpl PyStr.endswith_char. exact IH.
Qed.

Lemma startswith_sep_clean (d : string) :
  clean d = true -> PyStr.startswith "/" d = false.
Proof.
  intros H. pose proof (clean_no_sep _ H) as Hs.
  destruct d as [|a d]; [reflexivity|].
  simpl in Hs. apply orb_false_iff in Hs as [Ha _].
  cbn [PyStr.startswith]. rewrite Ascii.eqb_sym.
  unfold posixpath.sep in Ha. now rewrite Ha.
Qed.

Lemma join_no_sep_last (l : list string) :
  l <> [] -> clean_all l ->
  PyStr.endswith_char posixpath.sep (PyStr.join posixpath.sep l) = false.
Proof.
  induction l as [|x l IH]; intros Hne Hl; [contradiction|].
  inversion Hl as [|? ? Hx Hl']; subst.
  destruct l as [|y l].
  - simpl. apply endswith_no_sep. now apply clean_no_sep.
  - change (PyStr.join posixpath.sep (x :: y :: l))
      with (x ++ String posixpath.sep (PyStr.join posixpath.sep (y :: l))).
    assert (Hj : PyStr.join posixpath.sep (y :: l) <> "").
    { inversion Hl' as [|? ? Hy _]; subst.
      destruct l; simpl.
      - now apply clean_nonempty.
      - destruct y; [discriminate Hy | discriminate]. }
    change (x ++ String posixpath.sep (PyStr.join posixpath.sep (y :: l)))
      with (x ++ (String posixpath.sep ""
                  ++ PyStr.join posixpath.sep (y :: l))).
    rewrite <- append_assoc.
    rewrite endswith_char_app by assumption.
    apply IH; [discriminate | assumption].
Qed.

Lemma root_at_nonempty (k : nat) (comps : list string) :
  root_at (S k) comps <> "".
Proof. discriminate. Qed.

Lemma root_at_isabs (k : nat) (comps : list string) :
  posixpath.isabs (root_at (S k) comps) = true.
Proof. reflexivity. Qed.

Lemma root_at_nil (k : nat) : root_at k [] = PyStr.mul posixpath.sep k.
Proof. unfold root_at. apply append_empty_r. Qed.

Lemma root_at_single (k : nat) (d : string) :
  root_at k [d] = PyStr.mul posixpath.sep k ++ d.
Proof. reflexivity. Qed.

Lemma join_clean_nonempty (l : list string) :
  l <> [] -> clean_all l ->
  PyStr.join posixpath.sep l <> "".
Proof.
  intros Hne Hl. destruct l as [|x l]; [contradiction|].
  inversion Hl as [|? ? Hx _]; subst. destruct l; simpl.
  - now apply clean_nonempty.
  - destruct x; [discriminate Hx | discriminate].
Qed.

(** Joining a clean name to a path in normal form appends a component. *)
Lemma join_root_at (k : nat) (comps : list string) (d : string) :
  clean_all comps -> clean d = true ->
  posixpath.join (root_at (S k) comps) d = root_at (S k) (comps ++ [d]).
Proof.
  intros Hc Hd. unfold posixpath.join.
  rewrite (startswith_sep_clean d Hd).
  replace (root_at (S k) comps =? "") with false by reflexivity.
  rewrite orb_false_l.
  destruct comps as [|x comps].
  - rewrite root_at_nil, endswith_mul. reflexivity.
  - unfold root_at at 1.
    rewrite endswith_char_app
      by (apply join_clean_nonempty; [discriminate | assumption]).
    rewrite join_no_sep_last by (assumption || discriminate).
    unfold root_at. rewrite join_snoc by discriminate.
    rewrite append_assoc. reflexivity.
Qed.

Lemma split_mul (k : nat) (s : string) :
  PyStr.split posixpath.sep (PyStr.mul posixpath.sep k ++ s)
  = (repeat "" k ++ PyStr.split posixpath.sep s)%list.
Proof.
  induction k as [|k IH]; [reflexivity|].
  simpl. rewrite IH. reflexivity.
Qed.

Lemma filter_repeat_empty (f : string -> bool) (k : nat) (l : list string) :
  f "" = false -> filter f (repeat "" k ++ l)%list = filter f l.
Proof.
  intros Hf. induction k as [|k IH]; [reflexivity|].
  simpl. now rewrite Hf.
Qed.

Lemma filter_all_true {A : Type} (f : A -> bool) (l : list A) :
  Forall (fun a => f a = true) l -> filter f l = l.
Proof.
  induction 1 as [|a l Ha _ IH]; simpl; [reflexivity|].
  now rewrite Ha, IH.
Qed.

(** The components of a path in normal form, as [relpath] and the resolution
    of paths compute them. *)
Lemma filter_split_root_at (f : string -> bool) (k : nat)
    (comps : list string) :
  f "" = false -> (forall s, clean s = true -> f s = true) ->
  clean_all comps ->
  filter f (PyStr.split posixpath.sep (root_at k comps)) = comps.
Proof.
  intros Hf Hc Hl. unfold root_at.
  rewrite split_mul, filter_repeat_empty by assumption.
  destruct comps as [|x comps].
  - simpl. now rewrite Hf.
  - rewrite split_join by (discriminate || now apply Forall_clean_no_sep).
    apply filter_all_true. eapply Forall_impl; [|exact Hl]. exact Hc.
Qed.

(** *** [normpath] *)

Lemma startswith_sep_join (comps : list string) :
  clean_all comps ->
  PyStr.startswith "/" (PyStr.join posixpath.sep comps) = false.
Proof.
  intros Hl. destruct comps as [|x comps]; [reflexivity|].
  inversion Hl as [|? ? Hx _]; subst.
  pose proof (startswith_sep_clean x Hx) as Hs.
  destruct x as [|a x]; [discriminate Hx|].
  destruct comps; exact Hs.
Qed.

Lemma normpath_step_clean (i : nat) (acc : list string) (comp : string) :
  clean comp = true ->
  posixpath.normpath_step i acc comp = (acc ++ [comp])%list.
Proof.
  intros Hc. unfold posixpath.normpath_step, posixpath.curdir, posixpath.pardir.
  rewrite (clean_eqb_empty _ Hc), (clean_not_curdir _ Hc),
    (clean_not_pardir _ Hc).
  reflexivity.
Qed.

Lemma fold_normpath_step_clean (i : nat) (comps acc : list string) :
  clean_all comps ->
  fold_left (posixpath.normpath_step i) comps acc = (acc ++ comps)%list.
Proof.
  intros Hl. revert acc.
  induction Hl as [|x comps Hx _ IH]; intros acc; simpl.
  - now rewrite app_nil_r.
  - rewrite normpath_step_clean by assumption.
    rewrite IH, <- app_assoc. reflexivity.
Qed.

Lemma fold_normpath_step_empty (i k : nat) (comps acc : list string) :
  fold_left (posixpath.normpath_step i) (repeat "" k ++ comps)%list acc
  = fold_left (posixpath.normpath_step i) comps acc.
Proof.
  induction k as [|k IH]; [reflexivity|]. simpl. exact IH.
Qed.

Lemma initial_slashes_root_at (k : nat) (comps : list string) :
  k = 1 \/ k = 2 -> clean_all comps ->
  (if PyStr.startswith "/" (root_at k comps) then
     if PyStr.startswith "//" (root_at k comps)
        && negb (PyStr.startswith "///" (root_at k comps))
     then 2 else 1
   else 0) = k.
Proof.
  intros [-> | ->] Hl; unfold root_at;
    pose proof (startswith_sep_join comps Hl) as Hs;
    cbn [PyStr.mul append PyStr.startswith] in *;
    destruct (PyStr.join posixpath.sep comps) as [|a s];
    cbn in *; try reflexivity; now rewrite Hs.
Qed.

(** A path in normal form is a fixed point of [normpath]. *)
Lemma normpath_root_at (k : nat) (comps : list string) :
  k = 1 \/ k = 2 -> clean_all comps ->
  posixpath.normpath (root_at k comps) = root_at k comps.
Proof.
  intros Hk Hl. unfold posixpath.normpath.
  assert (Hne : (root_at k comps =? "") = false)
    by (destruct Hk as [-> | ->]; reflexivity).
  rewrite Hne, (initial_slashes_root_at k comps Hk Hl).
  assert (Hs : PyStr.split posixpath.sep (root_at k comps)
               = (repeat "" k
                  ++ PyStr.split posixpath.sep
                       (PyStr.join posixpath.sep comps))%list)
    by apply split_mul.
  rewrite Hs, fold_normpath_step_empty.
  assert (Hf : fold_left (posixpath.normpath_step k)
                 (PyStr.split posixpath.sep (PyStr.join posixpath.sep comps)) []
               = comps).
  { destruct comps as [|x comps]; [reflexivity|].
    rewrite split_join by (discriminate || now apply Forall_clean_no_sep).
    now rewrite fold_normpath_step_clean. }
  rewrite Hf. fold (root_at k comps). now rewrite Hne.
Qed.

Lemma Forall_removelast {A : Type} (P : A -> Prop) (l : list A) :
  Forall P l -> Forall P (removelast l).
Proof.
  induction 1 as [|a l Ha Hl IH]; [constructor|].
  destruct l; simpl; [constructor|]. constructor; assumption.
Qed.

Lemma last_clean (acc : list string) :
  clean_all acc ->
  (last acc "" =? posixpath.pardir) = false.
Proof.
  induction 1 as [|a l Ha Hl IH]; [reflexivity|].
  destruct l; [now apply clean_not_pardir | exact IH].
Qed.

Lemma normpath_step_keeps_clean (i : nat) (acc : list string) (comp : string) :
  has_sep comp = false -> clean_all acc ->
  clean_all (posixpath.normpath_step (S i) acc comp).
Proof.
  intros Hs Hacc. unfold posixpath.normpath_step.
  destruct (comp =? "") eqn:E1; [exact Hacc|].
  destruct (comp =? posixpath.curdir) eqn:E2; [exact Hacc|].
  destruct (comp =? posixpath.pardir) eqn:E3; cbn [orb negb andb Nat.eqb].
  - replace (match acc with
             | [] => false
             | _ :: _ => last acc "" =? posixpath.pardir
             end) with false.
    + now apply Forall_removelast.
    + destruct acc; [reflexivity|]. symmetry. now apply last_clean.
  - apply Forall_app. split; [exact Hacc|].
    constructor; [|constructor].
    unfold clean. now rewrite E1, E2, E3, Hs.
Qed.

Lemma fold_normpath_step_keeps_clean (i : nat) (comps acc : list string) :
  Forall (fun part => has_sep part = false) comps ->
  clean_all acc ->
  clean_all
    (fold_left (posixpath.normpath_step (S i)) comps acc).
Proof.
  intros Hl. revert acc.
  induction Hl as [|x comps Hx _ IH]; intros acc Hacc; simpl; [exact Hacc|].
  apply IH. now apply normpath_step_keeps_clean.
Qed.

(** [normpath] brings an absolute path to normal form. *)
Lemma normpath_abs_shape (p : string) :
  posixpath.isabs p = true ->
  exists k comps, (k = 1 \/ k = 2) /\ clean_all comps
                  /\ posixpath.normpath p = root_at k comps.
Proof.
  intros Habs. unfold posixpath.isabs in Habs. unfold posixpath.normpath.
  destruct p as [|a p]; [discriminate Habs|].
  replace (String a p =? "") with false by reflexivity.
  rewrite Habs.
  set (i := if PyStr.startswith "//" (String a p)
               && negb (PyStr.startswith "///" (String a p)) then 2 else 1).
  assert (Hi : i = 1 \/ i = 2) by (subst i; destruct (_ && _); auto).
  set (new_comps := fold_left (posixpath.normpath_step i)
                      (PyStr.split posixpath.sep (String a p)) []).
  assert (Hc : clean_all new_comps).
  { subst new_comps. destruct Hi as [-> | ->];
      apply fold_normpath_step_keeps_clean;
      auto using split_parts_no_sep. }
  exists i, new_comps. repeat split; try assumption.
  fold (root_at i new_comps).
  replace (root_at i new_comps =? "") with false; [reflexivity|].
  destruct Hi as [-> | ->]; reflexivity.
Qed.

(** *** [abspath] and [relpath] *)

Lemma isabs_join (cwd p : string) :
  posixpath.isabs cwd = true -> posixpath.isabs (posixpath.join cwd p) = true.
Proof.
  intros Hc. unfold posixpath.join.
  destruct (PyStr.startswith "/" p) eqn:Hp; [exact Hp|].
  destruct cwd as [|a cwd]; [discriminate Hc|].
  destruct ((String a cwd =? "") || _); exact Hc.
Qed.

(** [full_path] is also what [relpath] makes of [path]. *)
Lemma abspath_join_cwd (cwd p : string) :
  posixpath.isabs cwd = true ->
  posixpath.abspath cwd (posixpath.join cwd p) = posixpath.abspath cwd p.
Proof.
  intros Hc. unfold posixpath.abspath at 1.
  rewrite (isabs_join cwd p Hc). unfold posixpath.abspath.
  destruct (posixpath.isabs p) eqn:Hp; [|reflexivity].
  unfold posixpath.join. unfold posixpath.isabs in Hp. now rewrite Hp.
Qed.

Lemma abspath_shape (cwd p : string) :
  posixpath.isabs cwd = true ->
  exists k comps, (k = 1 \/ k = 2) /\ clean_all comps
                  /\ posixpath.abspath cwd p = root_at k comps.
Proof.
  intros Hc. unfold posixpath.abspath. apply normpath_abs_shape.
  destruct (posixpath.isabs p) eqn:Hp; [exact Hp | now apply isabs_join].
Qed.

Lemma abspath_root_at (cwd : string) (k : nat) (comps : list string) :
  k = 1 \/ k = 2 -> clean_all comps ->
  posixpath.abspath cwd (root_at k comps) = root_at k comps.
Proof.
  intros Hk Hl. unfold posixpath.abspath.
  replace (posixpath.isabs (root_at k comps)) with true
    by (destruct Hk as [-> | ->]; reflexivity).
  now apply normpath_root_at.
Qed.

Lemma commonprefix_len_app (l1 l2 : list string) :
  posixpath.commonprefix_len l1 (l1 ++ l2) = List.length l1.
Proof.
  induction l1 as [|a l1 IH]; simpl.
  - destruct l2; reflexivity.
  - now rewrite String.eqb_refl, IH.
Qed.

Lemma join_all_clean (a : string) (p : list string) :
  clean_all (a :: p) ->
  posixpath.join_all a p = PyStr.join posixpath.sep (a :: p).
Proof.
  unfold posixpath.join_all.
  revert a. induction p as [|b p IH] using rev_ind; intros a Hl; [reflexivity|].
  rewrite fold_left_app. simpl fold_left.
  assert (Hl' : clean_all (a :: p)).
  { inversion Hl as [|? ? Ha Hp]; subst. constructor; [assumption|].
    apply Forall_app in Hp. tauto. }
  assert (Hb : clean b = true).
  { inversion Hl as [|? ? Ha Hp]; subst. apply Forall_app in Hp as [_ Hp].
    now inversion Hp. }
  rewrite IH by assumption.
  change (a :: p ++ [b])%list with ((a :: p) ++ [b])%list.
  rewrite join_snoc by discriminate.
  unfold posixpath.join.
  rewrite (startswith_sep_clean b Hb).
  replace (PyStr.join posixpath.sep (a :: p) =? "") with false.
  - now rewrite join_no_sep_last by (assumption || discriminate).
  - symmetry. apply String.eqb_neq.
    apply join_clean_nonempty; [discriminate | assumption].
Qed.

Lemma relpath_root_at (cwd start : string) (k : nat) (comps cs : list string) :
  k = 1 \/ k = 2 ->
  clean_all comps ->
  clean_all cs ->
  posixpath.abspath cwd start = root_at k comps ->
  posixpath.relpath cwd (root_at k (comps ++ cs)) start = ret (rel_of cs).
Proof.
  intros Hk Hcomps Hcs Hstart. unfold posixpath.relpath.
  replace (root_at k (comps ++ cs) =? "") with false
    by (destruct Hk as [-> | ->]; reflexivity).
  rewrite Hstart, abspath_root_at by clean_names.
  assert (Hf : forall l, clean_all l ->
                 filter posixpath.nonempty
                   (PyStr.split posixpath.sep (root_at k l)) = l).
  { intros l Hl. apply filter_split_root_at; [reflexivity | | exact Hl].
    intros s Hs. unfold posixpath.nonempty. now rewrite clean_eqb_empty. }
  rewrite !Hf by clean_names.
  rewrite commonprefix_len_app, Nat.sub_diag, skipn_app, skipn_all,
    Nat.sub_diag.
  simpl. destruct cs as [|a p]; [reflexivity|].
  now rewrite join_all_clean.
Qed.

Lemma join_root_at' (k : nat) (comps : list string) (d : string) :
  k = 1 \/ k = 2 ->
  clean_all comps -> clean d = true ->
  posixpath.join (root_at k comps) d = root_at k (comps ++ [d]).
Proof. intros [-> | ->]; apply join_root_at. Qed.

(** ** The filesystem *)

Lemma node_ind' (P : node -> Prop) :
  (forall data, P (File data)) ->
  (forall children, Forall (fun c => P (snd c)) children -> P (Dir children)) ->
  forall n, P n.
Proof.
  intros HF HD. fix IH 1. intros [data | children].
  - apply HF.
  - apply HD. induction children as [|[name child] children IHc].
    + constructor.
    + constructor; [apply IH | exact IHc].
Qed.

Lemma nodupb_NoDup (l : list string) : nodupb l = true -> NoDup l.
Proof.
  induction l as [|a l IH]; simpl; intros H; [constructor|].
  apply andb_prop in H as [Ha Hl]. constructor; [|now apply IH].
  intros Hin. apply negb_true_iff in Ha.
  assert (existsb (String.eqb a) l = true); [|congruence].
  apply existsb_exists. exists a. split; [assumption | apply String.eqb_refl].
Qed.

Lemma wf_node_Dir (children : list (string * node)) :
  wf_node (Dir children) = true ->
  clean_all (map fst children)
  /\ NoDup (map fst children)
  /\ Forall (fun c => wf_node (snd c) = true) children.
Proof.
  simpl. intros H.
  apply andb_prop in H as [H H3]. apply andb_prop in H as [H1 H2].
  repeat split.
  - apply Forall_forall. now apply forallb_forall.
  - now apply nodupb_NoDup.
  - apply Forall_forall. now apply (proj1 (forallb_forall _ _)).
Qed.

Lemma assoc_In {A : Type} (k : string) (l : list (string * A)) (v : A) :
  assoc k l = Some v -> In (k, v) l.
Proof.
  induction l as [|[k' v'] l IH]; simpl; [discriminate|].
  destruct (k' =? k) eqn:E.
  - apply String.eqb_eq in E. subst k'. intros [= ->]. now left.
  - intros H. right. now apply IH.
Qed.

Lemma assoc_map {A B : Type} (f : string -> A -> B) (k : string)
    (l : list (string * A)) :
  assoc k (map (fun c => (fst c, f (fst c) (snd c))) l)
  = option_map (f k) (assoc k l).
Proof.
  induction l as [|[k' v'] l IH]; simpl; [reflexivity|].
  destruct (k' =? k) eqn:E; [|exact IH].
  apply String.eqb_eq in E. now subst k'.
Qed.

Lemma lookup_wf (comps : list string) (n n' : node) :
  wf_node n = true -> lookup comps n = Some n' -> wf_node n' = true.
Proof.
  revert n. induction comps as [|c comps IH]; intros n Hwf; simpl.
  - now intros [= <-].
  - destruct n as [data | children]; [discriminate|].
    destruct (assoc c children) as [child|] eqn:E; [|discriminate].
    apply IH. apply wf_node_Dir in Hwf as (_ & _ & Hc).
    rewrite Forall_forall in Hc. apply (Hc (c, child)). now apply assoc_In.
Qed.

Lemma resolve_wf (w : world) (p : string) (n : node) :
  wf_world w = true -> resolve w p = Some n -> wf_node n = true.
Proof.
  unfold wf_world, resolve. intros H. apply andb_prop in H as [_ H].
  now apply lookup_wf.
Qed.

(** [open] raises nothing but the two exceptions the collector catches. *)
Lemma open_read_exn (w : world) (p : string) (e : exn) :
  open_read w p = inl e ->
  (exists msg, e = OSError msg) \/ (exists msg, e = UnicodeDecodeError msg).
Proof.
  unfold open_read.
  destruct (resolve w p) as [[[[msg | msg] | text] | children] |];
    intros [= <-]; eauto.
Qed.

Lemma foldM_app {A B : Type} (f : B -> A -> M B) (l1 l2 : list A) (b : B) :
  foldM f (l1 ++ l2) b = (b' <- foldM f l1 b ;; foldM f l2 b').
Proof.
  revert b. induction l1 as [|a l1 IH]; intros b; simpl; [reflexivity|].
  destruct (f b a) as [e | b']; simpl; [reflexivity | apply IH].
Qed.

(** *** [os.walk] *)

(** The walks of the children of the directory [top]. *)
Abbreviation walkers_of visit top children :=
  (map (fun c => (fst c, os_walk visit (posixpath.join top (fst c)) (snd c)))
     children).

Lemma os_walk_Dir {S : Type}
    (visit : string -> list string -> list string -> S -> M (list string * S))
    (top : string) (children : list (string * node)) (s : S) :
  os_walk visit top (Dir children) s
  = (r <- visit top
            (map fst (filter (fun c => is_dir (snd c)) children))
            (map fst (filter (fun c => negb (is_dir (snd c))) children)) s ;;
     foldM (descend (walkers_of visit top children)) (fst r) (snd r)).
Proof. reflexivity. Qed.

(** The descent into [d] is the walk of the child that bears the name. *)
Lemma descend_child {S : Type}
    (visit : string -> list string -> list string -> S -> M (list string * S))
    (top : string) (children : list (string * node)) (s : S) (d : string) :
  descend (walkers_of visit top children) s d
  = match assoc d children with
    | Some child => os_walk visit (posixpath.join top d) child s
    | None => ret s
    end.
Proof.
  unfold descend.
  rewrite (assoc_map
             (fun name child => os_walk visit (posixpath.join top name) child)).
  now destruct (assoc d children).
Qed.

Lemma NoDup_map_filter {A B : Type} (g : A -> B) (f : A -> bool) (l : list A) :
  NoDup (map g l) -> NoDup (map g (filter f l)).
Proof.
  induction l as [|a l IH]; simpl; intros H; [constructor|].
  inversion H as [|? ? Hnotin Hnd]; subst.
  destruct (f a); simpl; [|now apply IH].
  constructor; [|now apply IH].
  intros Hin. apply Hnotin.
  apply in_map_iff in Hin as (x & <- & Hx).
  apply in_map. now apply filter_In in Hx as [Hx _].
Qed.

Lemma Forall_map_filter {A B : Type} (P : B -> Prop) (g : A -> B)
    (f : A -> bool) (l : list A) :
  Forall P (map g l) -> Forall P (map g (filter f l)).
Proof.
  rewrite !Forall_forall. intros H b Hin. apply H.
  apply in_map_iff in Hin as (x & <- & Hx).
  apply in_map. now apply filter_In in Hx as [Hx _].
Qed.

Lemma Forall_filter {A : Type} (P : A -> Prop) (f : A -> bool) (l : list A) :
  Forall P l -> Forall P (filter f l).
Proof.
  rewrite !Forall_forall. intros H a Hin. apply H.
  now apply filter_In in Hin as [Hin _].
Qed.

Lemma existsb_false {A : Type} (f : A -> bool) (l : list A) :
  existsb f l = false -> forall a, In a l -> f a = false.
Proof.
  intros H a Ha. destruct (f a) eqn:E; [|reflexivity].
  assert (existsb f l = true) by (apply existsb_exists; eauto). congruence.
Qed.

Lemma last_cons_nonnil {A : Type} (a d : A) (l : list A) :
  l <> [] -> last (a :: l) d = last l d.
Proof. destruct l; [contradiction | reflexivity]. Qed.

Lemma NoDup_map_cons (d : string) (rests : list (list string)) :
  NoDup rests -> NoDup (map (cons d) rests).
Proof.
  induction 1 as [|r rests Hnotin _ IH]; simpl; constructor; [|exact IH].
  intros Hin. apply in_map_iff in Hin as (r' & [= ->] & Hin). contradiction.
Qed.

(** ** The directory scan *)

Section Walk.

Variable fnmatch : string -> string -> bool.
Variable w : world.
Variable ignore_patterns : list string.
Variable start : string.
Variable k : nat.
Variable comps : list string.

Hypothesis Hk : k = 1 \/ k = 2.
Hypothesis Hcomps : clean_all comps.
Hypothesis Hstart : posixpath.abspath (getcwd w) start = root_at k comps.

(** The body of the loop, and the path of the directory met [cs] below
    the scanned one. *)
Local Abbreviation V :=
  (visit fnmatch w ignore_patterns start (root_at k comps)).
Local Abbreviation dir_at cs := (root_at k (comps ++ cs)).

Lemma excluded_false (rel_root file : string) :
  excluded fnmatch ignore_patterns rel_root file = false ->
  (forall p, In p ignore_patterns ->
             fnmatch file (PyStr.rstrip (Ascii.eqb os_sep) p) = false)
  /\ (forall s, In s builtin_excludes ->
                PyStr.contains s (PyStr.lower file) = false).
Proof.
  unfold excluded. intros H.
  apply orb_false_iff in H as [H H3]. apply orb_false_iff in H as [_ H2].
  split; intros x Hx.
  - exact (existsb_false _ _ H2 x Hx).
  - exact (existsb_false _ _ H3 x Hx).
Qed.

Lemma component_ignored_false (cs : list string) :
  cs <> [] -> clean_all cs ->
  component_ignored fnmatch ignore_patterns (PyStr.join posixpath.sep cs)
  = false ->
  forall part p, In part cs -> In p ignore_patterns -> fnmatch part p = false.
Proof.
  unfold component_ignored, os_sep. intros Hne Hcs H part p Hpart Hp.
  rewrite split_join in H by (auto using Forall_clean_no_sep).
  exact (existsb_false _ _ (existsb_false _ _ H part Hpart) p Hp).
Qed.

(** One file: either nothing is added, or the entry of that file. *)
Lemma visit_file_spec (cs : list string) (context : list entry) (f : string) :
  clean_all cs -> clean f = true ->
  visit_file fnmatch w ignore_patterns start
    (root_at k (comps ++ cs)) (rel_of cs) context f = inr context
  \/ exists e,
       visit_file fnmatch w ignore_patterns start
         (root_at k (comps ++ cs)) (rel_of cs) context f
       = inr (context ++ [e])%list
       /\ reports w k comps cs e [f]
       /\ survives fnmatch ignore_patterns cs [f].
Proof.
  intros Hcs Hf. unfold visit_file.
  destruct (excluded fnmatch ignore_patterns (rel_of cs) f) eqn:Hex;
    [now left|].
  rewrite join_root_at' by clean_names.
  rewrite <- app_assoc.
  assert (Hcsf : clean_all (cs ++ [f])) by clean_names.
  rewrite (relpath_root_at (getcwd w) start k comps (cs ++ [f]))
    by assumption.
  assert (Hrel : rel_of (cs ++ [f]) = PyStr.join posixpath.sep (cs ++ [f]))
    by (destruct cs; reflexivity).
  rewrite Hrel. cbn [bind ret].
  destruct (component_ignored fnmatch ignore_patterns
              (PyStr.join posixpath.sep (cs ++ [f]))) eqn:Hci; [now left|].
  destruct (open_read w (root_at k (comps ++ cs ++ [f])))
    as [e | text] eqn:Hop.
  - left. destruct (open_read_exn _ _ _ Hop) as [[msg ->] | [msg ->]];
      reflexivity.
  - right. exists (mkEntry (PyStr.join posixpath.sep (cs ++ [f])) text).
    split; [reflexivity|]. split; [split; [reflexivity | exact Hop]|].
    destruct (excluded_false _ _ Hex) as [Hname Hbuiltin].
    unfold survives.
    repeat split.
    + discriminate.
    + now constructor.
    + intros d p [<- | []] Hp. now apply Hname.
    + apply component_ignored_false; try assumption.
      now destruct cs.
    + exact Hbuiltin.
Qed.

(** The loop over the files of one directory. *)
Lemma visit_files_spec (cs files : list string) (context : list entry) :
  clean_all cs ->
  clean_all files -> NoDup files ->
  exists new rests,
    foldM (visit_file fnmatch w ignore_patterns start
             (root_at k (comps ++ cs)) (rel_of cs)) files context
    = inr (context ++ new)%list
    /\ Forall2 (reports w k comps cs) new rests
    /\ Forall (survives fnmatch ignore_patterns cs) rests
    /\ NoDup rests
    /\ Forall (fun r => exists f, r = [f] /\ In f files) rests.
Proof.
  intros Hcs Hfiles. revert context.
  induction Hfiles as [|f files Hf _ IH]; intros context Hnd.
  - exists [], []. simpl. rewrite app_nil_r.
    repeat split; constructor.
  - inversion Hnd as [|? ? Hnotin Hnd']; subst.
    cbn [foldM].
    destruct (visit_file_spec cs context f Hcs Hf)
      as [-> | (e & -> & Hr & Hs)]; cbn [bind].
    + destruct (IH context Hnd') as (new & rests & -> & H2 & H3 & H4 & H5).
      exists new, rests. repeat split; try assumption.
      eapply Forall_impl; [|exact H5].
      intros r (f' & -> & Hin). exists f'. split; [reflexivity | now right].
    + destruct (IH (context ++ [e])%list Hnd')
        as (new & rests & -> & H2 & H3 & H4 & H5).
      exists (e :: new), ([f] :: rests). rewrite <- app_assoc.
      repeat split.
      * now constructor.
      * now constructor.
      * constructor; [|assumption].
        intros Hin. rewrite Forall_forall in H5.
        destruct (H5 _ Hin) as (f' & [= <-] & Hf'). contradiction.
      * constructor; [exists f; split; [reflexivity | now left]|].
        eapply Forall_impl; [|exact H5].
        intros r (f' & -> & Hin). exists f'. split; [reflexivity | now right].
Qed.

Lemma pruned_false (rel_root d : string) :
  pruned fnmatch ignore_patterns rel_root d = false ->
  forall p, In p ignore_patterns ->
            fnmatch d (PyStr.rstrip (Ascii.eqb os_sep) p) = false.
Proof.
  unfold pruned. intros H p Hp.
  pose proof (existsb_false _ _ H p Hp) as H'.
  now apply orb_false_iff in H' as [_ H'].
Qed.

(** What is reported below the child [d] of the directory [cs] is reported
    below [cs]. *)
Lemma reports_child (cs : list string) (d : string) (e : entry)
    (r : list string) :
  reports w k comps (cs ++ [d]) e r -> reports w k comps cs e (d :: r).
Proof.
  unfold reports. now rewrite <- !app_assoc.
Qed.

Lemma survives_child (cs : list string) (d : string) (r : list string) :
  clean d = true ->
  (forall p, In p ignore_patterns ->
             fnmatch d (PyStr.rstrip (Ascii.eqb os_sep) p) = false) ->
  survives fnmatch ignore_patterns (cs ++ [d]) r ->
  survives fnmatch ignore_patterns cs (d :: r).
Proof.
  intros Hd Hkeep (Hne & Hclean & Hdirs & Hparts & Hbuiltin).
  unfold survives. repeat split.
  - discriminate.
  - now constructor.
  - intros d' p [<- | Hin] Hp; [now apply Hkeep | now apply Hdirs].
  - intros part p Hin. apply Hparts.
    now rewrite <- app_assoc.
  - rewrite last_cons_nonnil by assumption. exact Hbuiltin.
Qed.

(** The descent into the directories left in [dirs]. *)
Lemma walk_dirs_spec (cs : list string) (children : list (string * node))
    (ds : list string) (context : list entry) :
  clean_all cs ->
  Forall (fun c => scanned fnmatch w ignore_patterns start k comps (snd c))
    children ->
  Forall (fun c => wf_node (snd c) = true) children ->
  clean_all ds -> NoDup ds ->
  (forall d, In d ds ->
             pruned fnmatch ignore_patterns (rel_of cs) d = false) ->
  exists new rests,
    foldM (descend (walkers_of V (dir_at cs) children)) ds context
    = inr (context ++ new)%list
    /\ Forall2 (reports w k comps cs) new rests
    /\ Forall (survives fnmatch ignore_patterns cs) rests
    /\ NoDup rests
    /\ Forall (fun r => exists d r', r = d :: r' /\ In d ds /\ r' <> [])
         rests.
Proof.
  intros Hcs IHc Hwf Hds. revert context.
  induction Hds as [|d ds Hd _ IH]; intros context Hnd Hkeep.
  - exists [], []. simpl. rewrite app_nil_r. repeat split; constructor.
  - inversion Hnd as [|? ? Hnotin Hnd']; subst.
    cbn [foldM]. rewrite descend_child.
    assert (Htail : forall context',
               exists new rests,
                 foldM (descend (walkers_of V (dir_at cs) children)) ds
                   context'
                 = inr (context' ++ new)%list
                 /\ Forall2 (reports w k comps cs) new rests
                 /\ Forall (survives fnmatch ignore_patterns cs) rests
                 /\ NoDup rests
                 /\ Forall (fun r => exists d' r',
                               r = d' :: r' /\ In d' (d :: ds) /\ r' <> [])
                      rests).
    { intros context'.
      destruct (IH context' Hnd' (fun d' Hd' => Hkeep d' (or_intror Hd')))
        as (new & rests & H1 & H2 & H3 & H4 & H5).
      exists new, rests. repeat split; try assumption.
      eapply Forall_impl; [|exact H5].
      intros r (d' & r' & -> & Hin & Hne). exists d', r'.
      split; [reflexivity | split; [now right | assumption]]. }
    destruct (assoc d children) as [child|] eqn:Hchild; cbn [bind ret].
    + apply assoc_In in Hchild.
      rewrite Forall_forall in IHc, Hwf.
      pose proof (IHc _ Hchild) as Hscan. pose proof (Hwf _ Hchild) as Hwfc.
      cbn [snd] in Hscan, Hwfc.
      assert (Hcsd : clean_all (cs ++ [d])) by clean_names.
      destruct (Hscan (cs ++ [d])%list context Hwfc Hcsd)
        as (new1 & rests1 & Hw & R1 & S1 & N1).
      rewrite join_root_at' by clean_names.
      rewrite <- app_assoc, Hw. cbn [bind].
      specialize (IH (context ++ new1)%list Hnd'
                    (fun d' Hd' => Hkeep d' (or_intror Hd'))).
      destruct IH as (new2 & rests2 & -> & R2 & S2 & N2 & F2).
      exists (new1 ++ new2)%list, (map (cons d) rests1 ++ rests2)%list.
      rewrite <- app_assoc.
      repeat split.
      * apply Forall2_app; [|assumption].
        clear - R1. induction R1 as [|e r new1 rests1 He _ IHR]; simpl;
          constructor; [now apply reports_child | exact IHR].
      * apply Forall_app. split; [|assumption].
        apply Forall_forall. intros r Hin.
        apply in_map_iff in Hin as (r' & <- & Hin).
        rewrite Forall_forall in S1.
        apply survives_child; [assumption | | now apply S1].
        apply (pruned_false (rel_of cs)). apply Hkeep. now left.
      * apply NoDup_app; [now apply NoDup_map_cons | assumption |].
        intros r Hin1 Hin2.
        apply in_map_iff in Hin1 as (r' & <- & _).
        rewrite Forall_forall in F2.
        destruct (F2 _ Hin2) as (d' & r'' & [= <- <-] & Hd' & _).
        contradiction.
      * apply Forall_app. split.
        -- apply Forall_forall. intros r Hin.
           apply in_map_iff in Hin as (r' & <- & Hin).
           rewrite Forall_forall in S1.
           exists d, r'. split; [reflexivity | split; [now left|]].
           now destruct (S1 _ Hin).
        -- eapply Forall_impl; [|exact F2].
           intros r (d' & r' & -> & Hin & Hne). exists d', r'.
           split; [reflexivity | split; [now right | assumption]].
    + apply Htail.
Qed.

(** The scan of a well-formed tree raises nothing and adds, for distinct
    files that survive the filters and can be read, one entry each. *)
Lemma os_walk_spec (n : node) :
  scanned fnmatch w ignore_patterns start k comps n.
Proof.
  induction n as [data | children IHc] using node_ind';
    intros cs context Hwf Hcs.
  - exists [], []. simpl. rewrite app_nil_r. repeat split; constructor.
  - apply wf_node_Dir in Hwf as (Hnames & Hnd & Hwfc).
    rewrite os_walk_Dir. unfold visit at 1.
    rewrite (relpath_root_at (getcwd w) (root_at k comps) k comps cs)
      by (try assumption; now apply abspath_root_at).
    cbn [bind ret].
    destruct (visit_files_spec cs
                (map fst (filter (fun c => negb (is_dir (snd c))) children))
                context Hcs)
      as (new1 & rests1 & -> & R1 & S1 & N1 & F1).
    { now apply Forall_map_filter. }
    { now apply NoDup_map_filter. }
    cbn [bind ret fst snd].
    destruct (walk_dirs_spec cs children
                (filter
                   (fun d =>
                      negb (pruned fnmatch ignore_patterns (rel_of cs) d))
                   (map fst (filter (fun c => is_dir (snd c)) children)))
                (context ++ new1)%list Hcs IHc Hwfc)
      as (new2 & rests2 & -> & R2 & S2 & N2 & F2).
    { apply Forall_filter. now apply Forall_map_filter. }
    { apply NoDup_filter. now apply NoDup_map_filter. }
    { intros d Hd. apply filter_In in Hd as [_ Hd].
      now apply negb_true_iff. }
    exists (new1 ++ new2)%list, (rests1 ++ rests2)%list.
    rewrite <- app_assoc. repeat split.
    + now apply Forall2_app.
    + apply Forall_app. now split.
    + apply NoDup_app; try assumption.
      intros r Hin1 Hin2. rewrite Forall_forall in F1, F2.
      destruct (F1 _ Hin1) as (f & -> & _).
      destruct (F2 _ Hin2) as (d & r' & [= <- <-] & _ & Hne).
      now apply Hne.
Qed.

End Walk.

(** ** The collector as a whole *)

Lemma join_all_root_at (k : nat) (comps r : list string) :
  k = 1 \/ k = 2 ->
  clean_all comps ->
  clean_all r ->
  posixpath.join_all (root_at k comps) r = root_at k (comps ++ r).
Proof.
  intros Hk Hcomps Hr. unfold posixpath.join_all. revert comps Hcomps.
  induction Hr as [|d r Hd _ IH]; intros comps Hcomps; simpl.
  - now rewrite app_nil_r.
  - rewrite join_root_at' by assumption.
    rewrite IH by clean_names.
    now rewrite <- app_assoc.
Qed.

Lemma basename_join (r : list string) :
  r <> [] -> clean_all r ->
  posixpath.basename (PyStr.join posixpath.sep r) = last r "".
Proof.
  intros Hne Hr. unfold posixpath.basename.
  now rewrite split_join by (auto using Forall_clean_no_sep).
Qed.

(** The result when the ignore file was loaded and [full_path] is a regular
    file. *)
Lemma single_file_mode (fnmatch : string -> string -> bool) (w : world)
    (arg : string) (ignore_patterns : list string) :
  load_ignore_patterns w = inr ignore_patterns ->
  os_path_isfile w (full_path_of w arg) = true ->
  get_workspace_context fnmatch w arg
  = match open_read w (full_path_of w arg) with
    | inr content =>
        Success [mkEntry (posixpath.basename (full_path_of w arg)) content]
    | inl _ => Failure "Cannot read file: binary or unreadable"
    end.
Proof.
  intros Hload Hfile.
  unfold get_workspace_context, get_workspace_context_try.
  rewrite Hload. cbn [bind]. fold (full_path_of w arg). rewrite Hfile.
  destruct (open_read w (full_path_of w arg)) as [e | content] eqn:Hop.
  - destruct (open_read_exn _ _ _ Hop) as [[msg ->] | [msg ->]]; reflexivity.
  - reflexivity.
Qed.

Lemma Forall2_In_l {A B : Type} (R : A -> B -> Prop) (l1 : list A)
    (l2 : list B) (a : A) :
  Forall2 R l1 l2 -> In a l1 -> exists b, In b l2 /\ R a b.
Proof.
  induction 1 as [|x y l1 l2 Hxy _ IH]; intros Hin; [contradiction|].
  destruct Hin as [<- | Hin].
  - exists y. split; [now left | assumption].
  - destruct (IH Hin) as (b & Hb & Hab). exists b.
    split; [now right | assumption].
Qed.

(** Entries that report distinct files have distinct paths. *)
Lemma reported_paths_NoDup (fnmatch : string -> string -> bool) (w : world)
    (ignore_patterns : list string) (k : nat) (comps : list string)
    (new : list entry) (rests : list (list string)) :
  Forall2 (reports w k comps []) new rests ->
  Forall (survives fnmatch ignore_patterns []) rests ->
  NoDup rests ->
  NoDup (map path new).
Proof.
  induction 1 as [|e r new rests He R IH]; intros S N; simpl; [constructor|].
  inversion N as [|? ? Hnotin N']; subst.
  inversion S as [|? ? Sr S']; subst.
  constructor; [|now apply IH].
  intros Hin. apply in_map_iff in Hin as (e' & Heq & Hin').
  destruct (Forall2_In_l _ _ _ _ R Hin') as (r' & Hr' & (Hp' & _)).
  destruct He as (Hp & _). simpl in Hp, Hp'.
  rewrite Forall_forall in S'.
  destruct (S' _ Hr') as (Hne' & Hcl' & _).
  destruct Sr as (Hne & Hcl & _).
  assert (r' = r) by (apply join_inj; try assumption; congruence).
  now subst.
Qed.

(** The result when the ignore file was loaded and [full_path] is not a
    regular file: a success, whose entries have distinct paths and report,
    each, a readable file below [full_path] that is excluded by no filter. *)
Lemma directory_mode (fnmatch : string -> string -> bool) (w : world)
    (arg : string) (ignore_patterns : list string) :
  wf_world w = true ->
  load_ignore_patterns w = inr ignore_patterns ->
  os_path_isfile w (full_path_of w arg) = false ->
  exists context,
    get_workspace_context fnmatch w arg = Success context
    /\ NoDup (map path context)
    /\ forall e, In e context ->
         exists r,
           r <> [] /\ clean_all r
           /\ path e = PyStr.join posixpath.sep r
           /\ open_read w (posixpath.join_all (full_path_of w arg) r)
              = inr (content e)
           /\ (forall d p, In d r -> In p ignore_patterns ->
                 fnmatch d (PyStr.rstrip (Ascii.eqb os_sep) p) = false
                 /\ fnmatch d p = false)
           /\ (forall s, In s builtin_excludes ->
                 PyStr.contains s (PyStr.lower (last r "")) = false).
Proof.
  intros Hwf Hload Hfile.
  assert (Hcwd : posixpath.isabs (getcwd w) = true)
    by (unfold wf_world in Hwf; now apply andb_prop in Hwf as [Hwf _]).
  destruct (abspath_shape (getcwd w) (posixpath.join (getcwd w) arg) Hcwd)
    as (k & comps & Hk & Hcomps & Hfull).
  fold (full_path_of w arg) in Hfull.
  assert (Hstart : posixpath.abspath (getcwd w) arg = root_at k comps)
    by (now rewrite <- abspath_join_cwd).
  unfold get_workspace_context, get_workspace_context_try.
  rewrite Hload. cbn [bind]. fold (full_path_of w arg). rewrite Hfile.
  unfold os_walk_path.
  destruct (resolve w (full_path_of w arg)) as [n|] eqn:Hres.
  2:{ exists []. repeat split; [constructor | intros e []]. }
  pose proof (os_walk_spec fnmatch w ignore_patterns arg k comps
                Hk Hcomps Hstart n [] [] (resolve_wf _ _ _ Hwf Hres)
                (Forall_nil _)) as (new & rests & Hw & R & S & N).
  rewrite app_nil_r in Hw. rewrite Hfull, Hw. cbn [bind ret app].
  exists new. split; [reflexivity|]. split.
  - exact (reported_paths_NoDup fnmatch w ignore_patterns k comps new rests
             R S N).
  - intros e He.
    destruct (Forall2_In_l _ _ _ _ R He) as (r & Hr & (Hp & Hop)).
    rewrite Forall_forall in S.
    destruct (S r Hr) as (Hne & Hcl & Hdirs & Hparts & Hbuiltin).
    exists r. repeat split; try assumption.
    + rewrite join_all_root_at by assumption. exact Hop.
    + now apply Hdirs.
    + now apply Hparts.
Qed.

(** ** The ignore file *)

Lemma lstrip_blank (line : string) :
  blank line = true -> PyStr.lstrip PyStr.isspace line = "".
Proof.
  induction line as [|c line IH]; simpl; [reflexivity|].
  intros H. apply andb_prop in H as [Hc Hl]. rewrite Hc. now apply IH.
Qed.

Lemma lstrip_not_blank (line : string) :
  blank line = false ->
  exists c s, PyStr.lstrip PyStr.isspace line = String c s
              /\ PyStr.isspace c = false.
Proof.
  induction line as [|c line IH]; simpl; [discriminate|].
  destruct (PyStr.isspace c) eqn:Hc; simpl.
  - exact IH.
  - intros _. now exists c, line.
Qed.

Lemma rstrip_keeps_head (f : ascii -> bool) (c : ascii) (s : string) :
  f c = false -> PyStr.rstrip f (String c s) <> "".
Proof.
  intros Hc. simpl.
  destruct (PyStr.rstrip f s); [now rewrite Hc | discriminate].
Qed.

(** A line strips to nothing exactly when it is blank. *)
Lemma strip_empty_blank (line : string) :
  (PyStr.strip line =? "") = blank line.
Proof.
  unfold PyStr.strip. destruct (blank line) eqn:Hb.
  - now rewrite lstrip_blank.
  - destruct (lstrip_not_blank line Hb) as (c & s & -> & Hc).
    apply String.eqb_neq. now apply rstrip_keeps_head.
Qed.

Lemma startswith_hash_comment (line : string) :
  PyStr.startswith "#" line = comment line.
Proof.
  destruct line as [|c line]; [reflexivity|].
  cbn [PyStr.startswith comment]. rewrite andb_true_r. apply Ascii.eqb_sym.
Qed.

(** The comprehension of the code yields the patterns of the
    specification. *)
Lemma parse_gitignore_spec (text : string) :
  parse_gitignore text = spec_patterns os_sep (PyStr.readlines text).
Proof.
  unfold parse_gitignore.
  induction (PyStr.readlines text) as [|line lines IH]; [reflexivity|].
  cbn [filter spec_patterns].
  rewrite strip_empty_blank, startswith_hash_comment, <- negb_orb.
  destruct (blank line || comment line); cbn [negb map]; now rewrite IH.
Qed.

Lemma load_absent (w : world) :
  os_path_exists w (posixpath.join (getcwd w) ".gitignore") = false ->
  load_ignore_patterns w = inr [].
Proof. unfold load_ignore_patterns. intros ->. reflexivity. Qed.

Lemma load_present (w : world) (text : string) :
  open_read w (posixpath.join (getcwd w) ".gitignore") = inr text ->
  load_ignore_patterns w = inr (spec_patterns os_sep (PyStr.readlines text)).
Proof.
  intros Hop. unfold load_ignore_patterns. rewrite Hop. cbn [bind ret].
  rewrite parse_gitignore_spec.
  unfold os_path_exists. unfold open_read in Hop.
  destruct (resolve w (posixpath.join (getcwd w) ".gitignore"))
    as [[[[msg | msg] | t] | children] |]; (discriminate Hop || reflexivity).
Qed.

(** A success means that the ignore file was loaded. *)
Lemma success_loaded (fnmatch : string -> string -> bool) (w : world)
    (arg : string) (context : list entry) :
  get_workspace_context fnmatch w arg = Success context ->
  exists ignore_patterns, load_ignore_patterns w = inr ignore_patterns.
Proof.
  unfold get_workspace_context, get_workspace_context_try.
  destruct (load_ignore_patterns w) as [e | pats]; [discriminate|].
  intros _. now exists pats.
Qed.

Lemma basename_no_sep (p : string) : has_sep (posixpath.basename p) = false.
Proof.
  unfold posixpath.basename.
  pose proof (split_parts_no_sep p) as H.
  induction H as [|x l Hx _ IH]; [reflexivity|].
  destruct l; [exact Hx | exact IH].
Qed.

(** ** The matcher *)

Lemma translate_plain (pat : string) :
  Fnmatch.plain pat = true ->
  Fnmatch.translate None pat = map Fnmatch.Lit (list_ascii_of_string pat).
Proof.
  induction pat as [|c pat IH]; [reflexivity|].
  cbn [Fnmatch.plain Fnmatch.translate list_ascii_of_string map].
  intros H. apply andb_prop in H as [Hc Hp].
  apply negb_true_iff in Hc.
  apply orb_false_iff in Hc as [Hc H3]. apply orb_false_iff in Hc as [H1 H2].
  rewrite H1, H2, H3, (IH Hp). reflexivity.
Qed.

Lemma match_items_literal (pat name : string) :
  Fnmatch.match_items (map Fnmatch.Lit (list_ascii_of_string pat)) name
  = (name =? pat).
Proof.
  revert name. induction pat as [|c pat IH]; intros name.
  - destruct name; reflexivity.
  - destruct name as [|a name]; [reflexivity|].
    cbn [list_ascii_of_string map Fnmatch.match_items String.eqb].
    now rewrite IH.
Qed.

(** A plain pattern matches its own text and nothing else. *)
Lemma fnmatchcase_plain (name pat : string) :
  Fnmatch.plain pat = true -> Fnmatch.fnmatchcase name pat = (name =? pat).
Proof.
  intros H. unfold Fnmatch.fnmatchcase.
  now rewrite translate_plain, match_items_literal.
Qed.

(** ** What the collector reads *)

Lemma lookup_app (l1 l2 : list string) (n : node) :
  lookup (l1 ++ l2) n
  = match lookup l1 n with
    | Some n' => lookup l2 n'
    | None => None
    end.
Proof.
  revert n. induction l1 as [|c l1 IH]; intros n; simpl; [reflexivity|].
  destruct n as [data | children]; [reflexivity|].
  destruct (assoc c children); [apply IH | reflexivity].
Qed.

Lemma resolve_root_at (w : world) (k : nat) (l : list string) :
  clean_all l ->
  resolve w (root_at k l) = lookup l (fsroot w).
Proof.
  intros Hl. unfold resolve. rewrite filter_split_root_at; auto.
  intros s Hs. unfold posixpath.curdir.
  now rewrite (clean_eqb_empty _ Hs), (clean_not_curdir _ Hs).
Qed.

Section Frame.

Variable fnmatch : string -> string -> bool.
Variables w1 w2 : world.
Variable ignore_patterns : list string.
Variable start : string.
Variable k : nat.
Variable comps : list string.

Hypothesis Hk : k = 1 \/ k = 2.
Hypothesis Hcomps : clean_all comps.
Hypothesis Hcwd : getcwd w1 = getcwd w2.
Hypothesis Hsame :
  resolve w1 (root_at k comps) = resolve w2 (root_at k comps).

Local Abbreviation V1 :=
  (visit fnmatch w1 ignore_patterns start (root_at k comps)).
Local Abbreviation V2 :=
  (visit fnmatch w2 ignore_patterns start (root_at k comps)).
Local Abbreviation dir_at cs := (root_at k (comps ++ cs)).

(** Below the scanned directory both worlds hold the same files. *)
Lemma open_read_below (r : list string) :
  clean_all r ->
  open_read w1 (dir_at r) = open_read w2 (dir_at r).
Proof.
  intros Hr. unfold open_read.
  rewrite !resolve_root_at by clean_names.
  rewrite !lookup_app.
  rewrite !resolve_root_at in Hsame by assumption.
  now rewrite Hsame.
Qed.

Lemma visit_file_below (cs : list string) (rel_root : string)
    (context : list entry) (f : string) :
  clean_all cs -> clean f = true ->
  visit_file fnmatch w1 ignore_patterns start (root_at k (comps ++ cs))
    rel_root context f
  = visit_file fnmatch w2 ignore_patterns start (root_at k (comps ++ cs))
      rel_root context f.
Proof.
  intros Hcs Hf. unfold visit_file. rewrite Hcwd.
  rewrite join_root_at' by clean_names.
  rewrite <- app_assoc.
  rewrite open_read_below by clean_names.
  reflexivity.
Qed.

Lemma visit_files_below (cs : list string) (rel_root : string)
    (files : list string) (context : list entry) :
  clean_all cs ->
  clean_all files ->
  foldM (visit_file fnmatch w1 ignore_patterns start
           (root_at k (comps ++ cs)) rel_root) files context
  = foldM (visit_file fnmatch w2 ignore_patterns start
             (root_at k (comps ++ cs)) rel_root) files context.
Proof.
  intros Hcs Hfiles. revert context.
  induction Hfiles as [|f files Hf _ IH]; intros context; [reflexivity|].
  cbn [foldM]. rewrite visit_file_below by assumption.
  destruct (visit_file fnmatch w2 ignore_patterns start
              (root_at k (comps ++ cs)) rel_root context f);
    [reflexivity | apply IH].
Qed.

Lemma visit_below (cs dirs files : list string) (context : list entry) :
  clean_all cs ->
  clean_all files ->
  visit fnmatch w1 ignore_patterns start (root_at k comps)
    (root_at k (comps ++ cs)) dirs files context
  = visit fnmatch w2 ignore_patterns start (root_at k comps)
      (root_at k (comps ++ cs)) dirs files context.
Proof.
  intros Hcs Hfiles. unfold visit. rewrite Hcwd.
  destruct (posixpath.relpath (getcwd w2) (root_at k (comps ++ cs))
              (root_at k comps)) as [e | rel_root]; [reflexivity|].
  cbn [bind]. now rewrite visit_files_below.
Qed.

(** The scan of one tree is the same in both worlds. *)
Lemma os_walk_below (n : node) :
  forall cs context,
    wf_node n = true -> clean_all cs ->
    os_walk V1 (dir_at cs) n context = os_walk V2 (dir_at cs) n context.
Proof.
  induction n as [data | children IHc] using node_ind';
    intros cs context Hwf Hcs; [reflexivity|].
  apply wf_node_Dir in Hwf as (Hnames & _ & Hwfc).
  rewrite !os_walk_Dir.
  rewrite visit_below by (try assumption; now apply Forall_map_filter).
  destruct (V2 (dir_at cs)
              (map fst (filter (fun c => is_dir (snd c)) children))
              (map fst (filter (fun c => negb (is_dir (snd c))) children))
              context) as [e | [dirs context']]; [reflexivity|].
  cbn [bind fst snd]. revert context'.
  induction dirs as [|d dirs IHd]; intros context'; [reflexivity|].
  cbn [foldM]. rewrite !descend_child.
  destruct (assoc d children) as [child|] eqn:Hchild; cbn [bind ret].
  - apply assoc_In in Hchild.
    assert (Hd : clean d = true).
    { rewrite Forall_forall in Hnames. apply Hnames.
      change d with (fst (d, child)). now apply in_map. }
    rewrite Forall_forall in IHc, Hwfc.
    rewrite join_root_at' by clean_names.
    rewrite <- app_assoc.
    pose proof (IHc _ Hchild (cs ++ [d])%list context' (Hwfc _ Hchild))
      as IH.
    cbn [snd] in IH. rewrite IH by clean_names. clear IH.
    destruct (os_walk V2 (dir_at (cs ++ [d])) child context'); cbn [bind];
      [reflexivity | apply IHd].
  - apply IHd.
Qed.

End Frame.

(** C8: on a well-formed filesystem, the result is a function of the
    working directory, of the ignore file and of the tree the path argument
    names, the order in which each directory lists its children included:
    two calls with the same path argument in states that agree on these
    return the same result, entry by entry and in the same order. *)
Theorem collect_deterministic (fnmatch : string -> string -> bool)
    (w1 w2 : world) (arg : string) :
  wf_world w1 = true ->
  getcwd w1 = getcwd w2 ->
  resolve w1 (posixpath.join (getcwd w1) ".gitignore")
  = resolve w2 (posixpath.join (getcwd w2) ".gitignore") ->
  resolve w1 (full_path_of w1 arg) = resolve w2 (full_path_of w2 arg) ->
  get_workspace_context fnmatch w1 arg = get_workspace_context fnmatch w2 arg.
Proof.
  intros Hwf Hcwd Hgit Hfull.
  assert (Habs : posixpath.isabs (getcwd w1) = true)
    by (unfold wf_world in Hwf; now apply andb_prop in Hwf as [Hwf _]).
  destruct (abspath_shape (getcwd w1) (posixpath.join (getcwd w1) arg) Habs)
    as (k & comps & Hk & Hcomps & Hshape).
  fold (full_path_of w1 arg) in Hshape.
  assert (Hfp : full_path_of w2 arg = full_path_of w1 arg)
    by (unfold full_path_of; now rewrite Hcwd).
  rewrite Hfp in Hfull.
  assert (Hload : load_ignore_patterns w1 = load_ignore_patterns w2).
  { unfold load_ignore_patterns, os_path_exists, open_read.
    rewrite Hgit, Hcwd. reflexivity. }
  unfold get_workspace_context, get_workspace_context_try.
  rewrite <- Hload.
  destruct (load_ignore_patterns w1) as [e | pats]; [reflexivity|].
  cbn [bind]. fold (full_path_of w1 arg) (full_path_of w2 arg).
  rewrite Hfp.
  unfold os_path_isfile, os_walk_path.
  assert (Hopen : open_read w1 (full_path_of w1 arg)
                  = open_read w2 (full_path_of w1 arg))
    by (unfold open_read; now rewrite Hfull).
  rewrite <- Hopen, <- Hfull.
  destruct (resolve w1 (full_path_of w1 arg)) as [n|] eqn:Hres; [|reflexivity].
  destruct n as [data | children]; [reflexivity|].
  rewrite Hshape in *.
  pose proof (os_walk_below fnmatch w1 w2 pats arg k comps Hk Hcomps Hcwd
                (eq_trans Hres Hfull) (Dir children) [] []
                (resolve_wf _ _ _ Hwf Hres) (Forall_nil _)) as Hw.
  rewrite app_nil_r in Hw. now rewrite Hw.
Qed.

(** * The specification, claim by claim *)

(** C1 (what the code does): when the ignore file loads and the path
    argument names nothing in the filesystem, [get_workspace_context] returns
    a success with no entry, not a failure: [abspath] does not look at the
    filesystem, [os.path.isfile] answers [False] and [os.walk] yields nothing
    for a directory it cannot list. *)
Theorem missing_path_is_success (fnmatch : string -> string -> bool)
    (w : world) (arg : string) (ignore_patterns : list string) :
  load_ignore_patterns w = inr ignore_patterns ->
  os_path_exists w (full_path_of w arg) = false ->
  get_workspace_context fnmatch w arg = Success [].
Proof.
  intros Hload Hex.
  unfold get_workspace_context, get_workspace_context_try.
  rewrite Hload. cbn [bind]. fold (full_path_of w arg).
  unfold os_path_exists in Hex. unfold os_path_isfile, os_walk_path.
  destruct (resolve w (full_path_of w arg)); [discriminate Hex | reflexivity].
Qed.

(** [missing.txt] in a directory that holds only [secret.env]. *)
Lemma missing_path_is_success_witness :
  collect Examples.w_secret "missing.txt" = Success [].
Proof.
  apply (missing_path_is_success Fnmatch.fnmatchcase Examples.w_secret
           "missing.txt" []); reflexivity.
Defined.

(** C2: on a well-formed filesystem, in a directory-mode success, no
    component of the path of an entry is matched by an ignore pattern, be it
    taken as it is or without its trailing separators: a file below a
    directory whose name a pattern matches is not reported, however deep it
    lies.  With the matcher of a POSIX host, a pattern without special
    characters hides every directory that bears its name.  In the scenario of
    the specification the result is the single entry of [a.txt]. *)
Theorem ignored_directory_hidden :
  (forall (fnmatch : string -> string -> bool) (w : world) (arg : string)
          (ignore_patterns : list string) (context : list entry),
      wf_world w = true ->
      load_ignore_patterns w = inr ignore_patterns ->
      os_path_isfile w (full_path_of w arg) = false ->
      get_workspace_context fnmatch w arg = Success context ->
      forall e p d,
        In e context -> In p ignore_patterns ->
        fnmatch d (PyStr.rstrip (Ascii.eqb os_sep) p) = true
        \/ fnmatch d p = true ->
        ~ In d (PyStr.split os_sep (path e)))
  /\ (forall (w : world) (arg : string) (ignore_patterns : list string)
             (context : list entry),
        wf_world w = true ->
        load_ignore_patterns w = inr ignore_patterns ->
        os_path_isfile w (full_path_of w arg) = false ->
        collect w arg = Success context ->
        forall e p,
          In e context -> In p ignore_patterns ->
          Fnmatch.plain (PyStr.rstrip (Ascii.eqb os_sep) p) = true ->
          ~ In (PyStr.rstrip (Ascii.eqb os_sep) p)
              (PyStr.split os_sep (path e)))
  /\ (forall c : read_error + string,
        collect (Examples.w_ignored_dir c) "."
        = Success [mkEntry "a.txt" "hello"]).
Proof.
  assert (Hgen : forall fnmatch w arg pats context,
             wf_world w = true ->
             load_ignore_patterns w = inr pats ->
             os_path_isfile w (full_path_of w arg) = false ->
             get_workspace_context fnmatch w arg = Success context ->
             forall e p d,
               In e context -> In p pats ->
               fnmatch d (PyStr.rstrip (Ascii.eqb os_sep) p) = true
               \/ fnmatch d p = true ->
               ~ In d (PyStr.split os_sep (path e))).
  { intros fnmatch w arg pats context Hwf Hload Hfile Hres e p d He Hp Hmatch
      Hd.
    destruct (directory_mode fnmatch w arg pats Hwf Hload Hfile)
      as (context' & Hres' & _ & Hdesc).
    rewrite Hres in Hres'. injection Hres' as <-.
    destruct (Hdesc e He) as (r & Hne & Hclean & Hpath & _ & Hkeep & _).
    rewrite Hpath in Hd. unfold os_sep in Hd.
    rewrite split_join in Hd by (auto using Forall_clean_no_sep).
    destruct (Hkeep d p Hd Hp) as [H1 H2].
    destruct Hmatch; congruence. }
  split; [exact Hgen|]. split; [|reflexivity].
  intros w arg pats context Hwf Hload Hfile Hres e p He Hp Hplain.
  apply (Hgen Fnmatch.fnmatchcase w arg pats context Hwf Hload Hfile Hres e p);
    try assumption.
  left. rewrite fnmatchcase_plain by assumption. apply String.eqb_refl.
Qed.

(** The scenario: the pattern [b/] names the directory [b], and [b] is no
    component of the path reported. *)
Lemma ignored_directory_hidden_witness :
  collect (Examples.w_ignored_dir (inr "x")) "."
  = Success [mkEntry "a.txt" "hello"]
  /\ ~ In "b" (PyStr.split os_sep (path (mkEntry "a.txt" "hello"))).
Proof.
  split; [reflexivity|].
  apply (proj1 ignored_directory_hidden Fnmatch.fnmatchcase
           (Examples.w_ignored_dir (inr "x")) "." ["b/"]
           [mkEntry "a.txt" "hello"] eq_refl eq_refl eq_refl eq_refl
           (mkEntry "a.txt" "hello") "b/" "b").
  - now left.
  - now left.
  - now left.
Defined.

(** C3 (counterexample): [a.txt] is a regular file that reads as text, but
    a directory stands where [.gitignore] should be; the ignore file is
    loaded before the path is looked at, and the result is a failure. *)
Lemma single_file_unreadable_gitignore :
  os_path_isfile (Examples.w_bad_gitignore (inr "hello"))
    (full_path_of (Examples.w_bad_gitignore (inr "hello")) "a.txt") = true
  /\ open_read (Examples.w_bad_gitignore (inr "hello"))
       (full_path_of (Examples.w_bad_gitignore (inr "hello")) "a.txt")
     = inr "hello"
  /\ collect (Examples.w_bad_gitignore (inr "hello")) "a.txt"
     = Failure "[Errno 21] Is a directory: '/w/.gitignore'".
Proof. repeat split. Qed.

(** C3 (amended): when the ignore file is absent or can be read, and the
    path argument resolves to a regular file that reads as text, the result
    is a success with exactly one entry, whose path is the base name of the
    file, without any separator, and whose content is the text. *)
Theorem single_file_entry (fnmatch : string -> string -> bool) (w : world)
    (arg : string) (ignore_patterns : list string) (text : string) :
  load_ignore_patterns w = inr ignore_patterns ->
  os_path_isfile w (full_path_of w arg) = true ->
  open_read w (full_path_of w arg) = inr text ->
  get_workspace_context fnmatch w arg
  = Success [mkEntry (posixpath.basename (full_path_of w arg)) text]
  /\ has_sep (posixpath.basename (full_path_of w arg)) = false.
Proof.
  intros Hload Hfile Hop. split; [|apply basename_no_sep].
  rewrite (single_file_mode fnmatch w arg ignore_patterns Hload Hfile).
  now rewrite Hop.
Qed.

(** A file two levels below the working directory is reported under its
    base name. *)
Lemma single_file_entry_witness :
  collect Examples.w_mixed "src/lib/util.py" = Success [mkEntry "util.py" "y"]
  /\ has_sep "util.py" = false.
Proof.
  apply (single_file_entry Fnmatch.fnmatchcase Examples.w_mixed
           "src/lib/util.py" [] "y"); reflexivity.
Defined.

(** C4 (counterexample): [a.txt] is a regular file that cannot be opened,
    but [.gitignore] does not decode; the reason of the failure is the
    message of the decoding error, not the fixed one. *)
Lemma unreadable_file_other_reason :
  os_path_isfile
    (Examples.w_binary_gitignore
       (inl (Unopenable "[Errno 13] Permission denied: '/w/a.txt'")))
    (full_path_of
       (Examples.w_binary_gitignore
          (inl (Unopenable "[Errno 13] Permission denied: '/w/a.txt'")))
       "a.txt") = true
  /\ open_read
       (Examples.w_binary_gitignore
          (inl (Unopenable "[Errno 13] Permission denied: '/w/a.txt'")))
       (full_path_of
          (Examples.w_binary_gitignore
             (inl (Unopenable "[Errno 13] Permission denied: '/w/a.txt'")))
          "a.txt")
     = inl (OSError "[Errno 13] Permission denied: '/w/a.txt'")
  /\ collect
       (Examples.w_binary_gitignore
          (inl (Unopenable "[Errno 13] Permission denied: '/w/a.txt'")))
       "a.txt"
     = Failure Examples.undecodable_msg
  /\ collect
       (Examples.w_binary_gitignore
          (inl (Unopenable "[Errno 13] Permission denied: '/w/a.txt'")))
       "a.txt"
     <> Failure "Cannot read file: binary or unreadable".
Proof. repeat split. discriminate. Qed.

(** C4 (amended): when the ignore file is absent or can be read, and the
    path argument resolves to a regular file that fails to open or to
    decode, the result is a failure whose reason is exactly
    ["Cannot read file: binary or unreadable"]. *)
Theorem single_file_unreadable (fnmatch : string -> string -> bool)
    (w : world) (arg : string) (ignore_patterns : list string) (e : exn) :
  load_ignore_patterns w = inr ignore_patterns ->
  os_path_isfile w (full_path_of w arg) = true ->
  open_read w (full_path_of w arg) = inl e ->
  get_workspace_context fnmatch w arg
  = Failure "Cannot read file: binary or unreadable".
Proof.
  intros Hload Hfile Hop.
  rewrite (single_file_mode fnmatch w arg ignore_patterns Hload Hfile).
  now rewrite Hop.
Qed.

(** A file that does not decode, asked for by name. *)
Lemma single_file_unreadable_witness :
  collect Examples.w_mixed "logo.png"
  = Failure "Cannot read file: binary or unreadable".
Proof.
  apply (single_file_unreadable Fnmatch.fnmatchcase Examples.w_mixed
           "logo.png" []
           (UnicodeDecodeError Examples.undecodable_msg));
    reflexivity.
Defined.

(** C5: on a well-formed filesystem, in a directory-mode success, the file
    name of every entry, in lower case, holds none of the built-in
    substrings, whatever the ignore patterns are; a directory that holds only
    [secret.env] yields a success with no entry. *)
Theorem builtin_excluded :
  (forall (fnmatch : string -> string -> bool) (w : world) (arg : string)
          (context : list entry),
      wf_world w = true ->
      os_path_isfile w (full_path_of w arg) = false ->
      get_workspace_context fnmatch w arg = Success context ->
      forall e s,
        In e context -> In s builtin_excludes ->
        PyStr.contains s (PyStr.lower (posixpath.basename (path e))) = false)
  /\ builtin_excludes = [".git"; ".pyc"; ".env"; "__pycache__"]
  /\ load_ignore_patterns Examples.w_secret = inr []
  /\ collect Examples.w_secret "." = Success [].
Proof.
  split; [|repeat split].
  intros fnmatch w arg context Hwf Hfile Hres e s He Hs.
  destruct (success_loaded _ _ _ _ Hres) as (pats & Hload).
  destruct (directory_mode fnmatch w arg pats Hwf Hload Hfile)
    as (context' & Hres' & _ & Hdesc).
  rewrite Hres in Hres'. injection Hres' as <-.
  destruct (Hdesc e He) as (r & Hne & Hclean & Hpath & _ & _ & Hbuiltin).
  rewrite Hpath, basename_join by assumption. now apply Hbuiltin.
Qed.

(** An entry of a scan and one of the built-in substrings. *)
Lemma builtin_excluded_witness :
  PyStr.contains ".env"
    (PyStr.lower (posixpath.basename (path (mkEntry "src/main.py" "pass"))))
  = false.
Proof.
  apply (proj1 builtin_excluded Fnmatch.fnmatchcase Examples.w_mixed "."
           [mkEntry "a.txt" "hello"; mkEntry "src/main.py" "pass";
            mkEntry "src/setup.py" "setup"; mkEntry "src/lib/util.py" "y"]
           eq_refl eq_refl eq_refl).
  - right. now left.
  - right. right. now left.
Defined.

(** C6: on a well-formed filesystem, once the traversal is reached (the
    ignore file is loaded and the path argument is not a regular file), the
    result is a success whatever the files of the tree hold; each entry
    reports a file that was read, with the text read, and no entry has the
    path of a file whose read raises. *)
Theorem unreadable_files_skipped (fnmatch : string -> string -> bool)
    (w : world) (arg : string) (ignore_patterns : list string) :
  wf_world w = true ->
  load_ignore_patterns w = inr ignore_patterns ->
  os_path_isfile w (full_path_of w arg) = false ->
  exists context,
    get_workspace_context fnmatch w arg = Success context
    /\ (forall e, In e context ->
          exists r,
            path e = PyStr.join os_sep r
            /\ open_read w (posixpath.join_all (full_path_of w arg) r)
               = inr (content e))
    /\ (forall r err,
          r <> [] -> clean_all r ->
          open_read w (posixpath.join_all (full_path_of w arg) r) = inl err ->
          forall e, In e context -> path e <> PyStr.join os_sep r).
Proof.
  intros Hwf Hload Hfile.
  destruct (directory_mode fnmatch w arg ignore_patterns Hwf Hload Hfile)
    as (context & Hres & _ & Hdesc).
  exists context. split; [exact Hres|]. split.
  - intros e He.
    destruct (Hdesc e He) as (r & _ & _ & Hpath & Hop & _).
    now exists r.
  - intros r err Hne Hclean Herr e He Hpath.
    destruct (Hdesc e He) as (r' & Hne' & Hclean' & Hpath' & Hop & _).
    assert (r' = r)
      by (apply join_inj; try assumption; unfold os_sep in *; congruence).
    subst r'. congruence.
Qed.

(** The scan of a directory that holds a file that does not decode. *)
Lemma unreadable_files_skipped_witness :
  exists context,
    collect Examples.w_mixed "." = Success context
    /\ (forall e, In e context ->
          exists r,
            path e = PyStr.join os_sep r
            /\ open_read Examples.w_mixed
                 (posixpath.join_all (full_path_of Examples.w_mixed ".") r)
               = inr (content e))
    /\ (forall r err,
          r <> [] -> clean_all r ->
          open_read Examples.w_mixed
            (posixpath.join_all (full_path_of Examples.w_mixed ".") r)
          = inl err ->
          forall e, In e context -> path e <> PyStr.join os_sep r).
Proof.
  apply (unreadable_files_skipped Fnmatch.fnmatchcase Examples.w_mixed "." []);
    reflexivity.
Defined.

(** C7: the ignore patterns are read from [.gitignore] under the working
    directory, whatever the path argument is; when that file does not exist
    the list of patterns is empty and nothing is raised; when it reads as
    text, the patterns are, in order, the lines that are neither blank nor
    comments, stripped of surrounding whitespace, with forward slashes
    replaced by the separator of the host; a directory scan filters with
    these patterns, and a [.gitignore] inside the scanned directory is not
    consulted. *)
Theorem ignore_file_loaded :
  (forall w : world,
      os_path_exists w (posixpath.join (getcwd w) ".gitignore") = false ->
      load_ignore_patterns w = inr [])
  /\ (forall (w : world) (text : string),
        open_read w (posixpath.join (getcwd w) ".gitignore") = inr text ->
        load_ignore_patterns w
        = inr (spec_patterns os_sep (PyStr.readlines text)))
  /\ (forall (fnmatch : string -> string -> bool) (w : world) (arg : string)
             (ignore_patterns : list string),
        load_ignore_patterns w = inr ignore_patterns ->
        os_path_isfile w (full_path_of w arg) = false ->
        get_workspace_context fnmatch w arg
        = match
            os_walk_path w
              (visit fnmatch w ignore_patterns arg (full_path_of w arg))
              (full_path_of w arg) []
          with
          | inr context => Success context
          | inl e => Failure (str e)
          end)
  /\ collect Examples.w_nested_gitignore "sub"
     = Success [mkEntry "x.txt" "kept"].
Proof.
  split; [exact load_absent|]. split; [exact load_present|].
  split; [|reflexivity].
  intros fnmatch w arg pats Hload Hfile.
  unfold get_workspace_context, get_workspace_context_try.
  rewrite Hload. cbn [bind]. fold (full_path_of w arg). rewrite Hfile.
  now destruct (os_walk_path w _ (full_path_of w arg) []).
Qed.

(** A working directory without [.gitignore], and one whose [.gitignore]
    holds the line [b/]. *)
Lemma ignore_file_loaded_witness :
  load_ignore_patterns Examples.w_secret = inr []
  /\ load_ignore_patterns (Examples.w_ignored_dir (inr "x")) = inr ["b/"].
Proof.
  split.
  - apply (proj1 ignore_file_loaded Examples.w_secret). reflexivity.
  - apply (proj1 (proj2 ignore_file_loaded) (Examples.w_ignored_dir (inr "x"))
             Examples.b_slash_line).
    reflexivity.
Defined.

(** The scan of [src] before and after changes outside it, and two scans
    of the same state. *)
Lemma collect_deterministic_witness :
  collect Examples.w_mixed "src" = collect Examples.w_mixed_touched "src"
  /\ collect Examples.w_mixed "." = collect Examples.w_mixed ".".
Proof.
  split.
  - apply (collect_deterministic Fnmatch.fnmatchcase Examples.w_mixed
             Examples.w_mixed_touched "src"); reflexivity.
  - apply (collect_deterministic Fnmatch.fnmatchcase Examples.w_mixed
             Examples.w_mixed "."); reflexivity.
Defined.

(** The entries follow the order in which the directories list their
    children: the code does not sort. *)
Remark listing_order_is_kept :
  collect Examples.w_mixed "."
  = Success [mkEntry "a.txt" "hello"; mkEntry "src/main.py" "pass";
             mkEntry "src/setup.py" "setup"; mkEntry "src/lib/util.py" "y"]
  /\ collect Examples.w_mixed_reordered "."
     = Success [mkEntry "a.txt" "hello"; mkEntry "src/setup.py" "setup";
                mkEntry "src/main.py" "pass"; mkEntry "src/lib/util.py" "y"].
Proof. split; reflexivity. Qed.

(** C9: on a well-formed filesystem, in every success, in either mode, no
    two entries share a path. *)
Theorem entries_unique (fnmatch : string -> string -> bool) (w : world)
    (arg : string) (context : list entry) :
  wf_world w = true ->
  get_workspace_context fnmatch w arg = Success context ->
  NoDup (map path context).
Proof.
  intros Hwf Hres.
  destruct (success_loaded _ _ _ _ Hres) as (pats & Hload).
  destruct (os_path_isfile w (full_path_of w arg)) eqn:Hfile.
  - rewrite (single_file_mode fnmatch w arg pats Hload Hfile) in Hres.
    destruct (open_read w (full_path_of w arg)); [discriminate|].
    injection Hres as <-. simpl. constructor; [intros [] | constructor].
  - destruct (directory_mode fnmatch w arg pats Hwf Hload Hfile)
      as (context' & Hres' & Hnd & _).
    rewrite Hres in Hres'. injection Hres' as <-. exact Hnd.
Qed.

(** The paths of the scan of [w_mixed]. *)
Lemma entries_unique_witness :
  NoDup ["a.txt"; "src/main.py"; "src/setup.py"; "src/lib/util.py"].
Proof.
  apply (entries_unique Fnmatch.fnmatchcase Examples.w_mixed "."
           [mkEntry "a.txt" "hello"; mkEntry "src/main.py" "pass";
            mkEntry "src/setup.py" "setup"; mkEntry "src/lib/util.py" "y"]);
    reflexivity.
Defined.

(** C10 (counterexample): [secret.env] is a regular file that reads as
    text, but a directory stands where [.gitignore] should be; the ignore
    file is loaded before the path is looked at, and the file asked for by
    name is not returned: the result is a failure. *)
Lemma single_file_lost_to_gitignore :
  os_path_isfile Examples.w_secret_bad_gitignore
    (full_path_of Examples.w_secret_bad_gitignore "secret.env") = true
  /\ open_read Examples.w_secret_bad_gitignore
       (full_path_of Examples.w_secret_bad_gitignore "secret.env")
     = inr "KEY=1"
  /\ collect Examples.w_secret_bad_gitignore "secret.env"
     = Failure "[Errno 21] Is a directory: '/w/.gitignore'".
Proof. repeat split. Qed.

(** C10 (amended): in single-file mode nothing is filtered: once the ignore
    file is loaded, whatever its patterns are, a path argument that resolves
    to a regular file that reads as text yields the entry of that file.  The
    file [secret.env], named by a pattern and holding a built-in substring,
    is returned when asked for, and left out of the scan of its
    directory. *)
Theorem single_file_unfiltered :
  (forall (fnmatch : string -> string -> bool) (w : world) (arg : string)
          (ignore_patterns : list string) (text : string),
      load_ignore_patterns w = inr ignore_patterns ->
      os_path_isfile w (full_path_of w arg) = true ->
      open_read w (full_path_of w arg) = inr text ->
      get_workspace_context fnmatch w arg
      = Success [mkEntry (posixpath.basename (full_path_of w arg)) text])
  /\ load_ignore_patterns Examples.w_secret_ignored = inr ["secret.env"]
  /\ excluded Fnmatch.fnmatchcase ["secret.env"] "." "secret.env" = true
  /\ collect Examples.w_secret_ignored "secret.env"
     = Success [mkEntry "secret.env" "KEY=1"]
  /\ collect Examples.w_secret_ignored "." = Success [].
Proof.
  split; [|repeat split].
  intros fnmatch w arg pats text Hload Hfile Hop.
  rewrite (single_file_mode fnmatch w arg pats Hload Hfile).
  now rewrite Hop.
Qed.

(** [secret.env], asked for by name. *)
Lemma single_file_unfiltered_witness :
  collect Examples.w_secret "secret.env"
  = Success [mkEntry "secret.env" "KEY=1"].
Proof.
  apply (proj1 single_file_unfiltered Fnmatch.fnmatchcase Examples.w_secret
           "secret.env" [] "KEY=1"); reflexivity.
Defined.

From Stdlib Require Import Permutation Sorted.

(** * Properties of the commands *)

(** ** Dictionaries and directories *)

Lemma assoc_setitem_same {A : Type} (k : string) (v : A)
    (d : list (string * A)) :
  assoc k (setitem k v d) = Some v.
Proof.
  induction d as [|[k' v'] d IH]; cbn.
  - now rewrite string_eqb_refl.
  - destruct (k' =? k) eqn:E; cbn.
    + now rewrite string_eqb_refl.
    + now rewrite E.
Qed.

Lemma assoc_setitem_other {A : Type} (k k' : string) (v : A)
    (d : list (string * A)) :
  k' <> k -> assoc k' (setitem k v d) = assoc k' d.
Proof.
  intros Hne. induction d as [|[k0 v0] d IH]; cbn.
  - destruct (k =? k') eqn:E; [|reflexivity].
    apply String.eqb_eq in E. congruence.
  - destruct (k0 =? k) eqn:E; cbn.
    + apply String.eqb_eq in E. subst k0.
      destruct (k =? k') eqn:E'; [|reflexivity].
      apply String.eqb_eq in E'. congruence.
    + destruct (k0 =? k'); [reflexivity|exact IH].
Qed.

Lemma setitem_same {A : Type} (k : string) (v : A) (d : list (string * A)) :
  assoc k d = Some v -> setitem k v d = d.
Proof.
  induction d as [|[k' v'] d IH]; cbn; [discriminate|].
  destruct (k' =? k) eqn:E.
  - apply String.eqb_eq in E. intros [= ->]. now subst.
  - intros H. now rewrite IH.
Qed.

Lemma setitem_setitem {A : Type} (k : string) (v v' : A)
    (d : list (string * A)) :
  setitem k v (setitem k v' d) = setitem k v d.
Proof.
  induction d as [|[k0 v0] d IH]; cbn.
  - now rewrite string_eqb_refl.
  - destruct (k0 =? k) eqn:E; cbn.
    + now rewrite string_eqb_refl.
    + now rewrite E, IH.
Qed.

Lemma map_fst_setitem_in {A : Type} (k : string) (v v' : A)
    (d : list (string * A)) :
  assoc k d = Some v' -> map fst (setitem k v d) = map fst d.
Proof.
  induction d as [|[k0 v0] d IH]; cbn; [discriminate|].
  destruct (k0 =? k) eqn:E; cbn.
  - apply String.eqb_eq in E. now subst.
  - intros H. now rewrite IH.
Qed.

Lemma map_fst_setitem_new {A : Type} (k : string) (v : A)
    (d : list (string * A)) :
  assoc k d = None -> map fst (setitem k v d) = (map fst d ++ [k])%list.
Proof.
  induction d as [|[k0 v0] d IH]; cbn; [reflexivity|].
  destruct (k0 =? k) eqn:E; [discriminate|].
  cbn. intros H. now rewrite IH.
Qed.

Lemma assoc_None_not_In {A : Type} (k : string) (d : list (string * A)) :
  assoc k d = None -> ~ In k (map fst d).
Proof.
  induction d as [|[k0 v0] d IH]; cbn; [tauto|].
  destruct (k0 =? k) eqn:E; [discriminate|].
  intros H [Heq|Hin].
  - subst. now rewrite string_eqb_refl in E.
  - now apply IH.
Qed.

(** ** Paths of the host *)

Lemma resolve_components (w : world) (p : string) :
  resolve w p = lookup (components p) (fsroot w).
Proof. reflexivity. Qed.

Lemma lookup_walk_to (comps : list string) (n : node) :
  lookup comps n
  = match walk_to comps n with
    | inr n' => Some n'
    | inl _ => None
    end.
Proof.
  revert n. induction comps as [|c comps IH]; intros n; cbn; [reflexivity|].
  destruct n as [data|children]; [reflexivity|].
  destruct (assoc c children); [apply IH|reflexivity].
Qed.

Lemma components_root_at (k : nat) (comps : list string) :
  clean_all comps -> components (root_at k comps) = comps.
Proof.
  intros H. unfold components. apply filter_split_root_at; [reflexivity| |exact H].
  intros s Hs. rewrite (clean_eqb_empty _ Hs).
  unfold posixpath.curdir. now rewrite (clean_not_curdir _ Hs).
Qed.

Lemma leading_seps_mul (k : nat) (s : string) :
  PyStr.startswith "/" s = false ->
  leading_seps (PyStr.mul posixpath.sep k ++ s) = PyStr.mul posixpath.sep k.
Proof.
  intros H. induction k as [|k IH].
  - destruct s as [|c s]; [reflexivity|].
    cbn [PyStr.mul append leading_seps]. cbn [PyStr.startswith] in H.
    rewrite andb_true_r in H. unfold posixpath.sep.
    rewrite Ascii.eqb_sym, H. reflexivity.
  - cbn [PyStr.mul append leading_seps].
    rewrite Ascii.eqb_refl, IH. reflexivity.
Qed.

Lemma leading_seps_root_at (k : nat) (comps : list string) :
  clean_all comps ->
  leading_seps (root_at k comps) = PyStr.mul posixpath.sep k.
Proof.
  intros H. apply leading_seps_mul. now apply startswith_sep_join.
Qed.

Lemma upto_last_sep_no_sep (s : string) :
  has_sep s = false -> upto_last_sep s = "".
Proof.
  induction s as [|c s IH]; [reflexivity|].
  cbn [has_sep upto_last_sep]. intros H.
  apply orb_false_iff in H as [Hc Hs].
  now rewrite (IH Hs), Hc.
Qed.

Lemma upto_last_sep_app (x y : string) :
  upto_last_sep y <> "" -> upto_last_sep (x ++ y) = x ++ upto_last_sep y.
Proof.
  intros H. induction x as [|c x IH]; [reflexivity|].
  cbn [append upto_last_sep]. rewrite IH.
  destruct (x ++ upto_last_sep y) eqn:E; [|reflexivity].
  destruct x; [|discriminate]. cbn in E. congruence.
Qed.

Lemma upto_last_sep_last (x s : string) :
  has_sep s = false ->
  upto_last_sep (x ++ String posixpath.sep s) = x ++ String posixpath.sep "".
Proof.
  intros H.
  assert (E : upto_last_sep (String posixpath.sep s) = String posixpath.sep "").
  { cbn [upto_last_sep]. rewrite (upto_last_sep_no_sep _ H).
    now rewrite Ascii.eqb_refl. }
  rewrite upto_last_sep_app; rewrite E; [reflexivity|discriminate].
Qed.

Lemma upto_last_sep_mul (k : nat) (s : string) :
  has_sep s = false ->
  upto_last_sep (PyStr.mul posixpath.sep k ++ s) = PyStr.mul posixpath.sep k.
Proof.
  intros H. induction k as [|k IH].
  - now apply upto_last_sep_no_sep.
  - cbn [PyStr.mul append upto_last_sep]. rewrite IH.
    destruct k; cbn [PyStr.mul]; [now rewrite Ascii.eqb_refl|reflexivity].
Qed.

Lemma lstrip_mul (k : nat) (s : string) :
  PyStr.startswith "/" s = false ->
  PyStr.lstrip (Ascii.eqb posixpath.sep) (PyStr.mul posixpath.sep k ++ s) = s.
Proof.
  intros H. induction k as [|k IH].
  - destruct s as [|c s]; [reflexivity|].
    cbn [PyStr.mul append PyStr.lstrip]. cbn [PyStr.startswith] in H.
    rewrite andb_true_r in H. unfold posixpath.sep. now rewrite H.
  - cbn [PyStr.mul append PyStr.lstrip]. now rewrite Ascii.eqb_refl.
Qed.

Lemma rstrip_all (f : ascii -> bool) (y : string) :
  Forall (fun c => f c = true) (list_ascii_of_string y) ->
  PyStr.rstrip f y = "".
Proof.
  induction y as [|c y IH]; [reflexivity|].
  cbn [list_ascii_of_string PyStr.rstrip]. intros H.
  inversion H as [|? ? Hc Hy]; subst. now rewrite (IH Hy), Hc.
Qed.

Lemma rstrip_app_all (f : ascii -> bool) (x y : string) :
  Forall (fun c => f c = true) (list_ascii_of_string y) ->
  PyStr.rstrip f (x ++ y) = PyStr.rstrip f x.
Proof.
  intros H. induction x as [|c x IH].
  - cbn [append]. now rewrite rstrip_all.
  - cbn [append PyStr.rstrip]. now rewrite IH.
Qed.

Lemma rstrip_id (c : ascii) (x : string) :
  x <> "" -> PyStr.endswith_char c x = false ->
  PyStr.rstrip (Ascii.eqb c) x = x.
Proof.
  induction x as [|a x IH]; [congruence|].
  intros _ H. cbn [PyStr.rstrip]. destruct x as [|b x].
  - cbn [PyStr.rstrip]. cbn [PyStr.endswith_char] in H.
    rewrite Ascii.eqb_sym. now rewrite H.
  - rewrite IH; [reflexivity|discriminate|exact H].
Qed.

Lemma root_at_snoc (k : nat) (cs : list string) (c : string) :
  cs <> [] ->
  root_at k (cs ++ [c]) = root_at k cs ++ String posixpath.sep c.
Proof.
  intros H. unfold root_at. now rewrite join_snoc, append_assoc.
Qed.

Lemma dirname_root_at (k : nat) (comps : list string) :
  k = 1 \/ k = 2 -> clean_all comps ->
  dirname (root_at k comps) = root_at k (removelast comps).
Proof.
  intros Hk. induction comps as [|c cs _] using rev_ind; intros Hc.
  - cbn [removelast]. rewrite root_at_nil. unfold dirname.
    pose proof (upto_last_sep_mul k "" eq_refl) as E1.
    pose proof (lstrip_mul k "" eq_refl) as E2.
    rewrite append_empty_r in E1, E2. rewrite E1, E2.
    cbn. now rewrite andb_false_r.
  - rewrite removelast_last.
    apply Forall_app in Hc as [Hcs Hc0]. inversion Hc0 as [|? ? Hcl _]; subst.
    pose proof (clean_no_sep _ Hcl) as Hns.
    destruct cs as [|c0 cs].
    + cbn [app]. rewrite root_at_single, root_at_nil. unfold dirname.
      rewrite upto_last_sep_mul by exact Hns.
      pose proof (lstrip_mul k "" eq_refl) as E2.
      rewrite append_empty_r in E2. rewrite E2.
      cbn. now rewrite andb_false_r.
    + rewrite root_at_snoc by discriminate.
      unfold dirname. rewrite upto_last_sep_last by exact Hns.
      assert (Hj : PyStr.join posixpath.sep (c0 :: cs) <> "")
        by (apply join_clean_nonempty; [discriminate|exact Hcs]).
      assert (Hne : (root_at k (c0 :: cs) ++ String posixpath.sep "" =? "")
                    = false).
      { apply String.eqb_neq. unfold root_at.
        destruct Hk as [-> | ->]; discriminate. }
      assert (Hl : PyStr.lstrip (Ascii.eqb posixpath.sep)
                     (root_at k (c0 :: cs) ++ String posixpath.sep "")
                   = PyStr.join posixpath.sep (c0 :: cs)
                     ++ String posixpath.sep "").
      { unfold root_at. rewrite append_assoc. apply lstrip_mul.
        pose proof (startswith_sep_join _ Hcs) as Hs.
        destruct (PyStr.join posixpath.sep (c0 :: cs)) as [|a s];
          [congruence|exact Hs]. }
      assert (Hne2 : (PyStr.join posixpath.sep (c0 :: cs)
                      ++ String posixpath.sep "" =? "") = false).
      { apply String.eqb_neq.
        destruct (PyStr.join posixpath.sep (c0 :: cs)); discriminate. }
      rewrite Hne, Hl.
      rewrite Hne2. cbn [negb andb].
      rewrite rstrip_app_all.
      2:{ cbn. constructor; [reflexivity|constructor]. }
      apply rstrip_id.
      * unfold root_at. destruct Hk as [-> | ->]; discriminate.
      * unfold root_at. rewrite endswith_char_app by exact Hj.
        apply join_no_sep_last; [discriminate|exact Hcs].
Qed.

(** ** Making directories and writing files *)

Section HostFacts.

Variable strerror : errno -> string -> string.

Lemma mkdir_p_fresh (cs : list string) (prefix : string) :
  exists n', mkdir_p strerror prefix cs (Dir []) = inr n'.
Proof.
  revert prefix. induction cs as [|c cs IH]; intros prefix.
  - now exists (Dir []).
  - cbn [mkdir_p assoc].
    destruct (IH (posixpath.join prefix c)) as [n' ->].
    cbn [bind]. eexists. reflexivity.
Qed.

Lemma mkdir_p_Dir (cs : list string) (prefix : string) (n n' : node) :
  mkdir_p strerror prefix cs n = inr n' ->
  (exists children, n = Dir children)
  /\ exists children', n' = Dir children'.
Proof.
  destruct cs as [|c cs]; cbn [mkdir_p];
    destruct n as [data|children]; try discriminate.
  - intros [= <-]. split; eexists; reflexivity.
  - destruct (mkdir_p _ _ _ _); [discriminate|].
    cbn [bind]. intros [= <-]. split; eexists; reflexivity.
Qed.

(** The path names a directory once [os.makedirs] has returned. *)
Lemma mkdir_p_walk (cs : list string) (prefix : string) (n n' : node) :
  mkdir_p strerror prefix cs n = inr n' ->
  exists children, walk_to cs n' = inr (Dir children).
Proof.
  revert prefix n n'. induction cs as [|c cs IH]; intros prefix n n' H.
  - destruct (mkdir_p_Dir _ _ _ _ H) as [_ [children' ->]].
    now exists children'.
  - cbn [mkdir_p] in H. destruct n as [data|children]; [discriminate|].
    destruct (mkdir_p _ _ cs _) as [|child'] eqn:E; [discriminate|].
    cbn [bind] in H. injection H as <-.
    cbn [walk_to]. rewrite assoc_setitem_same. exact (IH _ _ _ E).
Qed.

(** [os.makedirs] keeps what was there. *)
Lemma mkdir_p_keeps (cs : list string) (prefix : string) (n n' : node) :
  mkdir_p strerror prefix cs n = inr n' ->
  forall q x, walk_to q n = inr x ->
    exists x', walk_to q n' = inr x'
               /\ is_dir x' = is_dir x
               /\ (forall d, x = File d -> x' = x).
Proof.
  revert prefix n n'. induction cs as [|c cs IH]; intros prefix n n' H q x Hq.
  - cbn [mkdir_p] in H. destruct n; [discriminate|]. injection H as <-.
    exists x. auto.
  - cbn [mkdir_p] in H. destruct n as [data|children]; [discriminate|].
    destruct (mkdir_p _ _ cs _) as [|child'] eqn:E; [discriminate|].
    cbn [bind] in H. injection H as <-.
    destruct q as [|c1 q].
    + cbn in Hq. injection Hq as <-. eexists. cbn. split; [reflexivity|].
      split; [reflexivity|discriminate].
    + cbn [walk_to] in Hq |- *.
      destruct (assoc c1 children) as [y|] eqn:Ey; [|discriminate].
      destruct (String.eqb_spec c1 c) as [->|Hne].
      * rewrite assoc_setitem_same. rewrite Ey in E.
        exact (IH _ _ _ E q x Hq).
      * rewrite assoc_setitem_other by exact Hne. rewrite Ey.
        exists x. auto.
Qed.

Lemma mkdir_p_idem (cs : list string) (prefix : string) (n n' : node) :
  mkdir_p strerror prefix cs n = inr n' ->
  mkdir_p strerror prefix cs n' = inr n'.
Proof.
  revert prefix n n'. induction cs as [|c cs IH]; intros prefix n n' H.
  - destruct (mkdir_p_Dir _ _ _ _ H) as [_ [children' ->]]. reflexivity.
  - cbn [mkdir_p] in H. destruct n as [data|children]; [discriminate|].
    destruct (mkdir_p _ _ cs _) as [|child'] eqn:E; [discriminate|].
    cbn [bind] in H. injection H as <-.
    cbn [mkdir_p]. rewrite assoc_setitem_same, (IH _ _ _ E).
    cbn [bind]. now rewrite setitem_setitem.
Qed.

(** [os.makedirs] changes nothing when the path names a directory. *)
Lemma mkdir_p_there (cs : list string) (prefix : string) (n : node)
    (children : list (string * node)) :
  walk_to cs n = inr (Dir children) -> mkdir_p strerror prefix cs n = inr n.
Proof.
  revert prefix n. induction cs as [|c cs IH]; intros prefix n H.
  - cbn in H. injection H as ->. reflexivity.
  - cbn [walk_to] in H. destruct n as [data|ch]; [discriminate|].
    destruct (assoc c ch) as [child|] eqn:Ec; [|discriminate].
    cbn [mkdir_p]. rewrite Ec, (IH _ _ H). cbn [bind].
    now rewrite setitem_same.
Qed.

Lemma write_at_snoc_Dir (p : string) (cs : list string) (c text : string)
    (children : list (string * node)) (c0 : string) :
  write_at strerror p (c0 :: cs ++ [c]) text (Dir children)
  = match assoc c0 children with
    | Some child =>
        child' <- write_at strerror p (cs ++ [c]) text child ;;
        ret (Dir (setitem c0 child' children))
    | None => os_error strerror ENOENT p
    end.
Proof.
  cbn [write_at]. destruct (cs ++ [c])%list eqn:E; [|reflexivity].
  now destruct cs.
Qed.

Lemma write_at_cons_Dir (p : string) (c text : string) (cs : list string)
    (children : list (string * node)) :
  cs <> [] ->
  write_at strerror p (c :: cs) text (Dir children)
  = match assoc c children with
    | Some child =>
        child' <- write_at strerror p cs text child ;;
        ret (Dir (setitem c child' children))
    | None => os_error strerror ENOENT p
    end.
Proof. intros H. cbn [write_at]. destruct cs; [congruence|reflexivity]. Qed.

(** The path names the file written once [open] and [write] have
    returned. *)
Lemma write_at_walk (p : string) (cs : list string) (text : string)
    (n n' : node) :
  write_at strerror p cs text n = inr n' ->
  walk_to cs n' = inr (File (inr (universal_newlines text))).
Proof.
  revert n n'. induction cs as [|c cs IH]; intros n n' H; [discriminate|].
  destruct n as [data|children]; [cbn in H; discriminate|].
  destruct cs as [|c1 cs].
  - cbn [write_at] in H.
    assert (n' = Dir (setitem c (File (inr (universal_newlines text)))
                        children)) as ->.
    { destruct (assoc c children) as [[[[msg|msg]|t]|ch]|];
        cbv [ret raise os_error] in H; congruence. }
    cbn [walk_to]. now rewrite assoc_setitem_same.
  - rewrite write_at_cons_Dir in H by discriminate.
    destruct (assoc c children) as [child|]; [|discriminate].
    destruct (write_at _ _ _ _ child) as [|child'] eqn:E; [discriminate|].
    cbn [bind] in H. injection H as <-.
    cbn [walk_to]. rewrite assoc_setitem_same. exact (IH _ _ E).
Qed.

(** Writing a file keeps what the other paths name. *)
Lemma write_at_keeps (p : string) (cs : list string) (text : string)
    (n n' : node) :
  write_at strerror p cs text n = inr n' ->
  forall q x, q <> cs -> walk_to q n = inr x ->
    exists x', walk_to q n' = inr x'
               /\ is_dir x' = is_dir x
               /\ (forall d, x = File d -> x' = x).
Proof.
  revert n n'. induction cs as [|c cs IH]; intros n n' H q x Hne Hq;
    [discriminate|].
  destruct n as [data|children]; [cbn in H; discriminate|].
  destruct q as [|c1 q].
  { cbn in Hq. injection Hq as <-.
    assert (exists ch, n' = Dir ch) as [ch ->].
    { destruct cs as [|c1 cs].
      - cbn [write_at] in H.
        destruct (assoc c children) as [[[[msg|msg]|t]|ch]|];
          cbv [ret raise os_error] in H; try discriminate;
          injection H as <-; eexists; reflexivity.
      - rewrite write_at_cons_Dir in H by discriminate.
        destruct (assoc c children) as [child|]; [|discriminate].
        destruct (write_at _ _ _ _ child); [discriminate|].
        cbn in H. injection H as <-. eexists; reflexivity. }
    eexists. cbn. split; [reflexivity|]. split; [reflexivity|discriminate]. }
  cbn [walk_to] in Hq.
  destruct (assoc c1 children) as [y|] eqn:Ey; [|discriminate].
  destruct (String.eqb_spec c1 c) as [->|Hc].
  - destruct cs as [|c2 cs].
    + (* the file itself is written: [q] goes below it *)
      cbn [write_at] in H. rewrite Ey in H.
      destruct q as [|c3 q]; [congruence|].
      destruct y as [data|ch].
      * cbn in Hq. discriminate.
      * cbn in H. discriminate.
    + rewrite write_at_cons_Dir in H by discriminate.
      rewrite Ey in H.
      destruct (write_at _ _ _ _ y) as [|child'] eqn:E; [discriminate|].
      cbn [bind] in H. injection H as <-.
      cbn [walk_to]. rewrite assoc_setitem_same.
      apply (IH _ _ E); [congruence|exact Hq].
  - assert (exists v, n' = Dir (setitem c v children)) as [v ->].
    { destruct cs as [|c2 cs].
      - cbn [write_at] in H.
        destruct (assoc c children) as [[[[msg|msg]|t]|ch]|];
          cbv [ret raise os_error] in H; try discriminate;
          injection H as <-; eexists; reflexivity.
      - rewrite write_at_cons_Dir in H by discriminate.
        destruct (assoc c children) as [child|]; [|discriminate].
        destruct (write_at _ _ _ _ child); [discriminate|].
        cbn in H. injection H as <-. eexists; reflexivity. }
    cbn [walk_to]. rewrite assoc_setitem_other by exact Hc. rewrite Ey.
    exists x. auto.
Qed.

End HostFacts.

(** ** The file system operations *)

Lemma full_path_shape (w : world) (p : string) :
  posixpath.isabs (getcwd w) = true ->
  exists k comps, (k = 1 \/ k = 2) /\ clean_all comps
                  /\ full_path_of w p = root_at k comps.
Proof. intros H. unfold full_path_of. now apply abspath_shape. Qed.

Lemma world_eta (w : world) : mkWorld (getcwd w) (fsroot w) = w.
Proof. now destruct w. Qed.

Lemma removelast_snoc (comps : list string) :
  comps <> [] -> (removelast comps ++ [last comps ""])%list = comps.
Proof. intros H. symmetry. now apply app_removelast_last. Qed.

(** A text without carriage return is read as it was written. *)
Lemma universal_newlines_id (s : string) :
  PyStr.contains (String "013" "") s = false -> universal_newlines s = s.
Proof.
  induction s as [|c s IH]; [reflexivity|].
  cbn [PyStr.contains PyStr.startswith universal_newlines].
  intros H. apply orb_false_iff in H as [Hc Hs].
  rewrite andb_true_r in Hc. rewrite Ascii.eqb_sym in Hc. rewrite Hc.
  now rewrite IH.
Qed.

(** What [write_file] does, in terms of the tree. *)
Lemma write_file_spec (strerror : errno -> string -> string) (w : world)
    (file_path content : string) (k : nat) (comps : list string) :
  (k = 1 \/ k = 2) -> clean_all comps ->
  full_path_of w file_path = root_at k comps ->
  write_file strerror w file_path content
  = match mkdir_p strerror (PyStr.mul posixpath.sep k) (removelast comps)
            (fsroot w) with
    | inr n1 =>
        match write_at strerror (root_at k comps) comps content n1 with
        | inr n2 => (OkPath (root_at k comps), mkWorld (getcwd w) n2)
        | inl e => (OpError (str e), mkWorld (getcwd w) n1)
        end
    | inl e => (OpError (str e), w)
    end.
Proof.
  intros Hk Hc Hfull. unfold write_file. fold (full_path_of w file_path).
  rewrite Hfull, dirname_root_at by assumption.
  unfold os_makedirs.
  rewrite leading_seps_root_at, components_root_at
    by (now apply Forall_removelast).
  destruct (mkdir_p _ _ _ _) as [e|n1]; [reflexivity|].
  cbn [bind ret]. unfold open_w. cbn [fsroot getcwd].
  rewrite components_root_at by assumption.
  destruct (write_at _ _ _ _ _); reflexivity.
Qed.

Lemma make_directory_spec (strerror : errno -> string -> string) (w : world)
    (dir_path : string) (k : nat) (comps : list string) :
  (k = 1 \/ k = 2) -> clean_all comps ->
  full_path_of w dir_path = root_at k comps ->
  make_directory strerror w dir_path
  = match mkdir_p strerror (PyStr.mul posixpath.sep k) comps (fsroot w) with
    | inr n1 => (OkPath (root_at k comps), mkWorld (getcwd w) n1)
    | inl e => (OpError (str e), w)
    end.
Proof.
  intros Hk Hc Hfull. unfold make_directory. fold (full_path_of w dir_path).
  rewrite Hfull. unfold os_makedirs.
  rewrite leading_seps_root_at, components_root_at by assumption.
  destruct (mkdir_p _ _ _ _); reflexivity.
Qed.

Lemma read_file_spec (strerror : errno -> string -> string) (w : world)
    (file_path : string) (k : nat) (comps : list string) :
  (k = 1 \/ k = 2) -> clean_all comps ->
  full_path_of w file_path = root_at k comps ->
  forall at_path text,
    read_file strerror w file_path = OkContent at_path text
    <-> at_path = root_at k comps
        /\ walk_to comps (fsroot w) = inr (File (inr text)).
Proof.
  intros Hk Hc Hfull at_path text. unfold read_file.
  fold (full_path_of w file_path). rewrite Hfull. unfold open_r.
  rewrite components_root_at by assumption.
  destruct (walk_to comps (fsroot w)) as [e|[[[msg|msg]|t]|ch]];
    cbv [os_error raise ret]; split; intros H;
    try discriminate H;
    try (match type of H with _ /\ _ => destruct H as [_ H] end;
         discriminate H).
  - injection H as <- <-. auto.
  - destruct H as [-> H]. injection H as ->. reflexivity.
Qed.

Lemma os_path_isdir_root_at (w : world) (k : nat) (comps : list string) :
  clean_all comps ->
  os_path_isdir w (root_at k comps) = true
  <-> exists children, walk_to comps (fsroot w) = inr (Dir children).
Proof.
  intros Hc. unfold os_path_isdir.
  rewrite resolve_components, components_root_at, lookup_walk_to by assumption.
  destruct (walk_to comps (fsroot w)) as [e|[d|ch]]; split; intros H;
    try discriminate H;
    try (match type of H with ex _ => destruct H as [? H] end;
         discriminate H).
  - now exists ch.
  - reflexivity.
Qed.

Lemma make_directory_isdir (strerror : errno -> string -> string)
    (w w' : world) (dir_path at_path : string) :
  posixpath.isabs (getcwd w) = true ->
  make_directory strerror w dir_path = (OkPath at_path, w') ->
  os_path_isdir w' at_path = true.
Proof.
  intros Hcwd Hm.
  destruct (full_path_shape w dir_path Hcwd) as (k & comps & Hk & Hc & Hfull).
  rewrite (make_directory_spec strerror w dir_path k comps Hk Hc Hfull) in Hm.
  destruct (mkdir_p _ _ _ _) as [e|n1] eqn:Em; [discriminate|].
  injection Hm as <- <-.
  apply os_path_isdir_root_at; [exact Hc|].
  exact (mkdir_p_walk _ _ _ _ _ Em).
Qed.

(** What [change_directory] does, in terms of the tree. *)
Lemma change_directory_spec (strerror : errno -> string -> string)
    (refuses : syscall -> world -> string -> option exn) (w : world)
    (dir_path : string) (k : nat) (comps : list string) :
  (k = 1 \/ k = 2) -> clean_all comps ->
  full_path_of w dir_path = root_at k comps ->
  change_directory strerror refuses w dir_path
  = match walk_to comps (fsroot w) with
    | inr (Dir _) =>
        match refuses Chdir w (root_at k comps) with
        | Some e => (OpError (str e), w)
        | None =>
            (OkPath (root_at 1 comps), mkWorld (root_at 1 comps) (fsroot w))
        end
    | _ => (OpError (root_at k comps ++ " is not a directory"), w)
    end.
Proof.
  intros Hk Hc Hfull. unfold change_directory, os_chdir, os_path_isdir.
  fold (full_path_of w dir_path). rewrite Hfull.
  rewrite resolve_components, components_root_at, lookup_walk_to by assumption.
  destruct (walk_to comps (fsroot w)) as [e|[d|ch]]; try reflexivity.
  cbn [negb]. now destruct (refuses Chdir w (root_at k comps)).
Qed.

(** X1: what [write_file] has written, [read_file] reads back at the same
    path, with every line ending read as a newline; a content without
    carriage return is read back as it is. *)
Theorem write_then_read (strerror : errno -> string -> string) (w w' : world)
    (file_path content at_path : string) :
  posixpath.isabs (getcwd w) = true ->
  write_file strerror w file_path content = (OkPath at_path, w') ->
  read_file strerror w' file_path
  = OkContent at_path (universal_newlines content)
  /\ (PyStr.contains (String "013" "") content = false ->
      read_file strerror w' file_path = OkContent at_path content).
Proof.
  intros Hcwd Hw.
  destruct (full_path_shape w file_path Hcwd) as (k & comps & Hk & Hc & Hfull).
  rewrite (write_file_spec strerror w file_path content k comps Hk Hc Hfull)
    in Hw.
  destruct (mkdir_p _ _ _ _) as [e|n1]; [discriminate|].
  destruct (write_at _ _ _ _ n1) as [e|n2] eqn:E; [discriminate|].
  injection Hw as <- <-.
  assert (Hr : read_file strerror (mkWorld (getcwd w) n2) file_path
               = OkContent (root_at k comps) (universal_newlines content)).
  { apply (read_file_spec strerror _ file_path k comps Hk Hc).
    - exact Hfull.
    - split; [reflexivity|]. exact (write_at_walk _ _ _ _ _ _ E). }
  split; [exact Hr|].
  intros Hcr. rewrite Hr. now rewrite universal_newlines_id.
Qed.

Lemma write_then_read_witness :
  read_file Samples.strerror
    (snd (write_file Samples.strerror Examples.w_mixed "docs/new/note.txt"
            "first"))
    "docs/new/note.txt"
  = OkContent "/w/docs/new/note.txt" (universal_newlines "first").
Proof.
  apply (write_then_read Samples.strerror Examples.w_mixed _
           "docs/new/note.txt" "first" "/w/docs/new/note.txt");
    reflexivity.
Defined.

(** The way to a node leads through the nodes above it. *)
Lemma walk_to_app (cs q : list string) (n : node) :
  walk_to (cs ++ q) n
  = match walk_to cs n with
    | inr x => walk_to q x
    | inl e => inl e
    end.
Proof.
  revert n. induction cs as [|c cs IH]; intros n; [reflexivity|].
  cbn [app walk_to]. destruct n as [d|children]; [reflexivity|].
  destruct (assoc c children) as [child|]; [apply IH|reflexivity].
Qed.

(** [os.makedirs] raises when a regular file stands on the way, or at the
    end of it. *)
Lemma mkdir_p_blocked (strerror : errno -> string -> string)
    (cs : list string) (prefix : string) (n : node) :
  walk_to cs n = inl ENOTDIR \/ (exists d, walk_to cs n = inr (File d)) ->
  exists e, mkdir_p strerror prefix cs n = inl e.
Proof.
  revert prefix n. induction cs as [|c cs IH]; intros prefix n H.
  - cbn [walk_to] in H. destruct H as [H|[d H]]; [discriminate H|].
    injection H as ->. cbn [mkdir_p]. eexists. reflexivity.
  - cbn [mkdir_p]. destruct n as [d|children]; [eexists; reflexivity|].
    cbn [walk_to] in H.
    destruct (assoc c children) as [child|].
    + destruct (IH (posixpath.join prefix c) child H) as [e ->].
      now exists e.
    + destruct H as [H|[d H]]; discriminate H.
Qed.

(** [open] for writing raises on a directory. *)
Lemma write_at_blocked (strerror : errno -> string -> string) (p : string)
    (cs : list string) (text : string) (n : node)
    (children : list (string * node)) :
  walk_to cs n = inr (Dir children) ->
  exists e, write_at strerror p cs text n = inl e.
Proof.
  revert n. induction cs as [|c cs IH]; intros n H.
  - eexists. reflexivity.
  - cbn [walk_to] in H. destruct n as [d|ch]; [discriminate H|].
    destruct (assoc c ch) as [child|] eqn:Ea; [|discriminate H].
    destruct cs as [|c' cs].
    + cbn [walk_to] in H. injection H as ->. cbn [write_at]. rewrite Ea.
      eexists. reflexivity.
    + rewrite write_at_cons_Dir by discriminate. rewrite Ea.
      destruct (IH child H) as [e ->]. now exists e.
Qed.

(** X2: [write_file] fails, and leaves the host as it was, when its path
    names a directory and when a regular file stands on the way to it:
    [os.makedirs] has made no directory by then. *)
Theorem write_file_blocked_changes_nothing
    (strerror : errno -> string -> string) (w : world)
    (file_path content : string) :
  posixpath.isabs (getcwd w) = true ->
  os_path_isdir w (full_path_of w file_path) = true
  \/ walk_to (components (full_path_of w file_path)) (fsroot w)
     = inl ENOTDIR ->
  exists error,
    write_file strerror w file_path content = (OpError error, w).
Proof.
  intros Hcwd Hblocked.
  destruct (full_path_shape w file_path Hcwd) as (k & comps & Hk & Hc & Hfull).
  rewrite (write_file_spec strerror w file_path content k comps Hk Hc Hfull).
  rewrite Hfull, components_root_at in Hblocked by assumption.
  rewrite (os_path_isdir_root_at w k comps Hc) in Hblocked.
  destruct comps as [|c0 comps'].
  { cbn [removelast mkdir_p]. cbn [walk_to] in Hblocked.
    destruct Hblocked as [[children H]|H]; [|discriminate H].
    injection H as H. rewrite H. cbn [write_at]. rewrite <- H.
    cbv [ret os_error raise]. rewrite world_eta. eexists. reflexivity. }
  assert (Hsn := removelast_snoc (c0 :: comps') ltac:(discriminate)).
  set (comps := c0 :: comps') in *.
  rewrite <- Hsn in Hblocked. rewrite !walk_to_app in Hblocked.
  destruct Hblocked as [[children H]|H].
  - destruct (walk_to (removelast comps) (fsroot w)) as [e|[d|ch]] eqn:Ew;
      try discriminate H.
    rewrite (mkdir_p_there strerror _ _ _ _ Ew).
    assert (Hd : walk_to comps (fsroot w) = inr (Dir children))
      by (now rewrite <- Hsn, walk_to_app, Ew).
    destruct (write_at_blocked strerror (root_at k comps) comps content _ _
                Hd) as [e ->].
    rewrite world_eta. now exists (str e).
  - destruct (mkdir_p_blocked strerror (removelast comps)
                (PyStr.mul posixpath.sep k) (fsroot w)) as [e ->].
    + destruct (walk_to (removelast comps) (fsroot w)) as [e|[d|ch]] eqn:Ew.
      * left. exact H.
      * right. now exists d.
      * cbn [walk_to] in H. destruct (assoc _ ch); discriminate H.
    + now exists (str e).
Qed.

Lemma write_file_blocked_changes_nothing_witness :
  exists error,
    write_file Samples.strerror Examples.w_mixed "a.txt/notes/x.txt" "text"
    = (OpError error, Examples.w_mixed).
Proof.
  apply (write_file_blocked_changes_nothing Samples.strerror Examples.w_mixed
           "a.txt/notes/x.txt" "text").
  - reflexivity.
  - right. reflexivity.
Defined.

(** X3: [write_file] changes no other file: a file that [read_file] read
    before the call, at a path that does not name the file written, is read
    with the same content after it, whether the call succeeds or not. *)
Theorem write_file_keeps_other_files (strerror : errno -> string -> string)
    (w w' : world) (file_path content : string) (result : op_result)
    (other at_path text : string) :
  posixpath.isabs (getcwd w) = true ->
  write_file strerror w file_path content = (result, w') ->
  components (full_path_of w other) <> components (full_path_of w file_path) ->
  read_file strerror w other = OkContent at_path text ->
  read_file strerror w' other = OkContent at_path text.
Proof.
  intros Hcwd Hw Hne Hr.
  destruct (full_path_shape w file_path Hcwd) as (k & comps & Hk & Hc & Hfull).
  destruct (full_path_shape w other Hcwd) as (k' & cs & Hk' & Hc' & Hfull').
  rewrite Hfull, Hfull', !components_root_at in Hne by assumption.
  rewrite (write_file_spec strerror w file_path content k comps Hk Hc Hfull)
    in Hw.
  apply (read_file_spec strerror w other k' cs Hk' Hc' Hfull') in Hr
    as [-> Hwalk].
  assert (Hkeep : forall n, fsroot w' = n -> getcwd w' = getcwd w ->
            walk_to cs n = inr (File (inr text)) ->
            read_file strerror w' other = OkContent (root_at k' cs) text).
  { intros n Hn Hg Hwalk'.
    apply (read_file_spec strerror w' other k' cs Hk' Hc').
    - unfold full_path_of in *. now rewrite Hg.
    - split; [reflexivity|]. now rewrite Hn. }
  destruct (mkdir_p _ _ _ _) as [e|n1] eqn:Em.
  { injection Hw as _ <-. now apply (Hkeep (fsroot w)). }
  destruct (mkdir_p_keeps _ _ _ _ _ Em cs _ Hwalk) as (x1 & Hx1 & _ & Hsame).
  rewrite (Hsame _ eq_refl) in Hx1.
  destruct (write_at _ _ _ _ n1) as [e|n2] eqn:E.
  - injection Hw as _ <-. now apply (Hkeep n1).
  - injection Hw as _ <-.
    destruct (write_at_keeps _ _ _ _ _ _ E cs _ Hne Hx1)
      as (x2 & Hx2 & _ & Hsame2).
    rewrite (Hsame2 _ eq_refl) in Hx2. now apply (Hkeep n2).
Qed.

Lemma write_file_keeps_other_files_witness :
  read_file Samples.strerror
    (snd (write_file Samples.strerror Examples.w_mixed "src/main.py" "new"))
    "src/setup.py"
  = OkContent "/w/src/setup.py" "setup".
Proof.
  apply (write_file_keeps_other_files Samples.strerror Examples.w_mixed _
           "src/main.py" "new" (OkPath "/w/src/main.py") "src/setup.py"
           "/w/src/setup.py" "setup");
    [reflexivity|reflexivity|discriminate|reflexivity].
Defined.

(** X4: after a successful [make_directory] the path names a directory,
    and the same call again succeeds and changes nothing. *)
Theorem make_directory_idempotent (strerror : errno -> string -> string)
    (w w' : world) (dir_path at_path : string) :
  posixpath.isabs (getcwd w) = true ->
  make_directory strerror w dir_path = (OkPath at_path, w') ->
  os_path_isdir w' at_path = true
  /\ make_directory strerror w' dir_path = (OkPath at_path, w').
Proof.
  intros Hcwd Hm.
  pose proof (make_directory_isdir strerror w w' dir_path at_path Hcwd Hm)
    as Hd.
  destruct (full_path_shape w dir_path Hcwd) as (k & comps & Hk & Hc & Hfull).
  rewrite (make_directory_spec strerror w dir_path k comps Hk Hc Hfull) in Hm.
  destruct (mkdir_p _ _ _ _) as [e|n1] eqn:Em; [discriminate|].
  injection Hm as <- <-. split; [exact Hd|].
  rewrite (make_directory_spec strerror (mkWorld (getcwd w) n1) dir_path
             k comps Hk Hc Hfull).
  cbn [fsroot getcwd]. now rewrite (mkdir_p_idem _ _ _ _ _ Em).
Qed.

Lemma make_directory_idempotent_witness :
  os_path_isdir
    (snd (make_directory Samples.strerror Examples.w_mixed "src/gen/out"))
    "/w/src/gen/out" = true
  /\ make_directory Samples.strerror
       (snd (make_directory Samples.strerror Examples.w_mixed "src/gen/out"))
       "src/gen/out"
     = (OkPath "/w/src/gen/out",
        snd (make_directory Samples.strerror Examples.w_mixed "src/gen/out")).
Proof.
  apply (make_directory_idempotent Samples.strerror Examples.w_mixed _
           "src/gen/out" "/w/src/gen/out");
    reflexivity.
Defined.

(** X5: [make_directory] loses nothing: whatever the result, a path that
    named a directory still names one, and a file that [read_file] read is
    read with the same content. *)
Theorem make_directory_keeps_everything
    (strerror : errno -> string -> string) (w w' : world)
    (dir_path : string) (result : op_result) :
  posixpath.isabs (getcwd w) = true ->
  make_directory strerror w dir_path = (result, w') ->
  (forall p, os_path_isdir w p = true -> os_path_isdir w' p = true)
  /\ (forall p at_path text,
        read_file strerror w p = OkContent at_path text ->
        read_file strerror w' p = OkContent at_path text).
Proof.
  intros Hcwd Hm.
  destruct (full_path_shape w dir_path Hcwd) as (k & comps & Hk & Hc & Hfull).
  rewrite (make_directory_spec strerror w dir_path k comps Hk Hc Hfull) in Hm.
  destruct (mkdir_p _ _ _ _) as [e|n1] eqn:Em.
  { injection Hm as _ <-. auto. }
  injection Hm as _ <-. split.
  - intros p. unfold os_path_isdir.
    rewrite !resolve_components, !lookup_walk_to. cbn [fsroot].
    destruct (walk_to (components p) (fsroot w)) as [e|[d|ch]] eqn:Ew;
      try discriminate.
    intros _.
    destruct (mkdir_p_keeps _ _ _ _ _ Em _ _ Ew) as (x' & -> & Hd & _).
    destruct x'; [discriminate|reflexivity].
  - intros p at_path text Hr.
    destruct (full_path_shape w p Hcwd) as (k' & cs & Hk' & Hc' & Hfull').
    destruct (proj1 (read_file_spec strerror w p k' cs Hk' Hc' Hfull' _ _) Hr)
      as [-> Hwalk].
    apply (read_file_spec strerror _ p k' cs Hk' Hc'); [exact Hfull'|].
    split; [reflexivity|]. cbn [fsroot].
    destruct (mkdir_p_keeps _ _ _ _ _ Em _ _ Hwalk) as (x' & -> & _ & Hs).
    now rewrite (Hs _ eq_refl).
Qed.

Lemma make_directory_keeps_everything_witness :
  os_path_isdir
    (snd (make_directory Samples.strerror Examples.w_mixed "src/gen"))
    "/w/src/lib" = true.
Proof.
  apply (proj1 (make_directory_keeps_everything Samples.strerror
                  Examples.w_mixed _ "src/gen" (OkPath "/w/src/gen")
                  eq_refl eq_refl));
    reflexivity.
Defined.

(** X6: [change_directory] never changes the tree.  When it succeeds the
    working directory becomes the path it returns, which is absolute and
    names a directory that the host has not refused.  When it fails the
    host is as it was, and the error is the absolute path followed by
    [ is not a directory] when the path names no directory, the message of
    the host otherwise, which has refused the directory. *)
Theorem change_directory_result (strerror : errno -> string -> string)
    (refuses : syscall -> world -> string -> option exn) (w w' : world)
    (dir_path : string) (result : op_result) :
  posixpath.isabs (getcwd w) = true ->
  change_directory strerror refuses w dir_path = (result, w') ->
  fsroot w' = fsroot w
  /\ match result with
     | OkPath at_path =>
         getcwd w' = at_path
         /\ posixpath.isabs at_path = true
         /\ os_path_isdir w' at_path = true
         /\ os_path_isdir w (full_path_of w dir_path) = true
         /\ refuses Chdir w (full_path_of w dir_path) = None
     | OpError error =>
         w' = w
         /\ ((os_path_isdir w (full_path_of w dir_path) = false
              /\ error = full_path_of w dir_path ++ " is not a directory")
             \/ (os_path_isdir w (full_path_of w dir_path) = true
                 /\ exists e,
                      refuses Chdir w (full_path_of w dir_path) = Some e
                      /\ error = str e))
     | OkContent _ _ => False
     end.
Proof.
  intros Hcwd Hcd.
  destruct (full_path_shape w dir_path Hcwd) as (k & comps & Hk & Hc & Hfull).
  rewrite (change_directory_spec strerror refuses w dir_path k comps Hk Hc
             Hfull) in Hcd.
  rewrite Hfull.
  assert (Hdir : os_path_isdir w (root_at k comps)
                 = match walk_to comps (fsroot w) with
                   | inr (Dir _) => true
                   | _ => false
                   end).
  { unfold os_path_isdir.
    rewrite resolve_components, components_root_at, lookup_walk_to
      by assumption.
    now destruct (walk_to comps (fsroot w)) as [e|[d|ch]]. }
  rewrite Hdir.
  destruct (walk_to comps (fsroot w)) as [e|[d|ch]] eqn:Ew.
  - injection Hcd as <- <-. auto.
  - injection Hcd as <- <-. auto.
  - destruct (refuses Chdir w (root_at k comps)) as [e|] eqn:Er;
      injection Hcd as <- <-.
    + split; [reflexivity|]. split; [reflexivity|]. right.
      split; [reflexivity|]. now exists e.
    + cbn [getcwd fsroot]. repeat split.
      apply os_path_isdir_root_at; [exact Hc|]. now exists ch.
Qed.

(** A directory entered under another spelling of its path, and the same
    directory on a host that refuses it. *)
Lemma change_directory_result_witness :
  (fsroot
     (snd (change_directory Samples.strerror Samples.refuses Examples.w_mixed
             "src/../src/lib"))
   = fsroot Examples.w_mixed
   /\ getcwd
        (snd (change_directory Samples.strerror Samples.refuses
                Examples.w_mixed "src/../src/lib"))
      = "/w/src/lib")
  /\ snd (change_directory Samples.strerror Samples.src_locked
            Examples.w_mixed "lib/../src")
     = Examples.w_mixed.
Proof.
  split.
  - destruct (change_directory_result Samples.strerror Samples.refuses
                Examples.w_mixed
                (snd (change_directory Samples.strerror Samples.refuses
                        Examples.w_mixed "src/../src/lib"))
                "src/../src/lib" (OkPath "/w/src/lib") eq_refl eq_refl)
      as [Hroot [Hcwd _]].
    split; [exact Hroot|exact Hcwd].
  - destruct (change_directory_result Samples.strerror Samples.src_locked
                Examples.w_mixed
                (snd (change_directory Samples.strerror Samples.src_locked
                        Examples.w_mixed "lib/../src"))
                "lib/../src"
                (OpError "[Errno 13] Permission denied: '/w/src'")
                eq_refl eq_refl)
      as [_ [Hsame _]].
    exact Hsame.
Defined.

(** X7: the directory [make_directory] has made can be entered unless the
    host refuses it to the process: the call of [change_directory] with the
    same argument then succeeds, and the working directory is the path
    made, written with one leading separator.  When the host refuses the
    directory, the call fails with the message of the host. *)
Theorem make_then_change_directory (strerror : errno -> string -> string)
    (refuses : syscall -> world -> string -> option exn)
    (w w' : world) (dir_path at_path : string) :
  posixpath.isabs (getcwd w) = true ->
  make_directory strerror w dir_path = (OkPath at_path, w') ->
  match refuses Chdir w' at_path with
  | None =>
      exists cwd w'',
        change_directory strerror refuses w' dir_path = (OkPath cwd, w'')
        /\ get_current_dir w'' = cwd
        /\ cwd = String posixpath.sep
                   (PyStr.join posixpath.sep (components at_path))
        /\ fsroot w'' = fsroot w'
  | Some e =>
      change_directory strerror refuses w' dir_path = (OpError (str e), w')
  end.
Proof.
  intros Hcwd Hm.
  destruct (full_path_shape w dir_path Hcwd) as (k & comps & Hk & Hc & Hfull).
  rewrite (make_directory_spec strerror w dir_path k comps Hk Hc Hfull) in Hm.
  destruct (mkdir_p _ _ _ _) as [e|n1] eqn:Em; [discriminate|].
  injection Hm as <- <-.
  destruct (mkdir_p_walk _ _ _ _ _ Em) as [children Hwalk].
  rewrite (change_directory_spec strerror refuses
             (mkWorld (getcwd w) n1) dir_path k comps Hk Hc Hfull).
  cbn [fsroot]. rewrite Hwalk.
  destruct (refuses Chdir _ _) as [e|]; [reflexivity|].
  eexists. eexists. split; [reflexivity|].
  rewrite components_root_at by exact Hc. cbn. auto.
Qed.

Lemma make_then_change_directory_witness :
  exists cwd w'',
    change_directory Samples.strerror Samples.refuses
      (snd (make_directory Samples.strerror Examples.w_mixed "//w/tmp/x"))
      "//w/tmp/x"
    = (OkPath cwd, w'')
    /\ get_current_dir w'' = cwd
    /\ cwd = String posixpath.sep
               (PyStr.join posixpath.sep (components "//w/tmp/x"))
    /\ fsroot w''
       = fsroot
           (snd (make_directory Samples.strerror Examples.w_mixed
                   "//w/tmp/x")).
Proof.
  apply (make_then_change_directory Samples.strerror Samples.refuses
           Examples.w_mixed _ "//w/tmp/x" "//w/tmp/x");
    reflexivity.
Defined.

(** ** Joining and normalising paths *)

Lemma split_app_sep_gen (x y : string) :
  PyStr.split posixpath.sep (x ++ String posixpath.sep y)
  = (PyStr.split posixpath.sep x ++ PyStr.split posixpath.sep y)%list.
Proof.
  induction x as [|a x IH].
  - cbn [append PyStr.split]. now rewrite Ascii.eqb_refl.
  - cbn [append PyStr.split]. rewrite IH.
    destruct (Ascii.eqb a posixpath.sep); [reflexivity|].
    destruct (PyStr.split posixpath.sep x) as [|h t] eqn:E; [|reflexivity].
    now destruct (split_nonnil posixpath.sep x).
Qed.

Lemma endswith_char_snoc (c : ascii) (x : string) :
  PyStr.endswith_char c x = true -> exists x', x = x' ++ String c "".
Proof.
  induction x as [|a x IH]; [discriminate|].
  cbn [PyStr.endswith_char]. destruct x as [|b x].
  - intros H. apply Ascii.eqb_eq in H. subst. now exists "".
  - intros H. destruct (IH H) as [x' ->]. now exists (String a x').
Qed.

Lemma normpath_abs_kept (p : string) :
  posixpath.isabs p = true ->
  clean_all (kept p)
  /\ exists k, (k = 1 \/ k = 2) /\ posixpath.normpath p = root_at k (kept p).
Proof.
  intros Habs. split.
  - apply fold_normpath_step_keeps_clean; auto using split_parts_no_sep.
  - unfold posixpath.isabs in Habs. unfold posixpath.normpath.
    destruct p as [|a p]; [discriminate Habs|].
    replace (String a p =? "") with false by reflexivity.
    rewrite Habs.
    set (i := if PyStr.startswith "//" (String a p)
                 && negb (PyStr.startswith "///" (String a p))
              then 2 else 1).
    assert (Hi : i = 1 \/ i = 2) by (subst i; destruct (_ && _); auto).
    exists i. split; [exact Hi|].
    assert (E : fold_left (posixpath.normpath_step i)
                  (PyStr.split posixpath.sep (String a p)) []
                = kept (String a p))
      by (destruct Hi as [-> | ->]; reflexivity).
    rewrite E. fold (root_at i (kept (String a p))).
    replace (root_at i (kept (String a p)) =? "") with false; [reflexivity|].
    destruct Hi as [-> | ->]; reflexivity.
Qed.

Lemma kept_root_at (k : nat) (comps : list string) :
  clean_all comps -> kept (root_at k comps) = comps.
Proof.
  intros Hc. unfold kept, root_at. rewrite split_mul, fold_normpath_step_empty.
  destruct comps as [|c comps]; [reflexivity|].
  rewrite split_join; [|discriminate|now apply Forall_clean_no_sep].
  now rewrite fold_normpath_step_clean.
Qed.

(** The components kept of [join(x, q)] are those of [q], after those of
    [x]. *)
Lemma kept_join (x q : string) :
  posixpath.isabs x = true -> PyStr.startswith "/" q = false ->
  kept (posixpath.join x q)
  = fold_left (posixpath.normpath_step 1) (PyStr.split posixpath.sep q)
      (kept x).
Proof.
  intros Hx Hq. unfold posixpath.join. rewrite Hq.
  destruct x as [|a x]; [discriminate Hx|].
  replace (String a x =? "") with false by reflexivity. cbn [orb].
  destruct (PyStr.endswith_char posixpath.sep (String a x)) eqn:He.
  - destruct (endswith_char_snoc _ _ He) as [x' ->].
    rewrite append_assoc. cbn [append]. unfold kept.
    rewrite !split_app_sep_gen, !fold_left_app. reflexivity.
  - unfold kept. now rewrite split_app_sep_gen, fold_left_app.
Qed.

Lemma kept_join_abs (x q : string) :
  PyStr.startswith "/" q = true -> posixpath.join x q = q.
Proof. intros Hq. unfold posixpath.join. now rewrite Hq. Qed.

(** [full_path] is the normal form of [join(getcwd(), path)]. *)
Lemma full_path_normpath (w : world) (p : string) :
  posixpath.isabs (getcwd w) = true ->
  full_path_of w p = posixpath.normpath (posixpath.join (getcwd w) p).
Proof.
  intros H. unfold full_path_of, posixpath.abspath.
  now rewrite (isabs_join _ p H).
Qed.

Lemma startswith_sep_app (a b : string) :
  a <> "" -> PyStr.startswith "/" (a ++ b) = PyStr.startswith "/" a.
Proof. destruct a; [congruence|reflexivity]. Qed.

Lemma join_rel (x y : string) :
  x <> "" -> PyStr.startswith "/" y = false ->
  posixpath.join x y
  = if PyStr.endswith_char posixpath.sep x then x ++ y
    else x ++ String posixpath.sep y.
Proof.
  intros Hx Hy. unfold posixpath.join. rewrite Hy.
  destruct x; [congruence|reflexivity].
Qed.

(** [join] is associative from an absolute path on. *)
Lemma join_assoc (a b c : string) :
  posixpath.isabs a = true ->
  posixpath.join a (posixpath.join b c)
  = posixpath.join (posixpath.join a b) c.
Proof.
  intros Ha.
  assert (Hane : a <> "") by (destruct a; [discriminate Ha|discriminate]).
  destruct (PyStr.startswith "/" c) eqn:Hc.
  { now rewrite !(kept_join_abs _ c Hc). }
  destruct (PyStr.startswith "/" b) eqn:Hb.
  { rewrite (kept_join_abs _ b Hb).
    apply kept_join_abs. unfold posixpath.join. rewrite Hc.
    destruct b as [|b0 b]; [discriminate Hb|].
    destruct ((String b0 b =? "") || _); exact Hb. }
  destruct (String.eqb_spec b "") as [->|Hbne].
  - assert (E1 : posixpath.join "" c = c)
      by (unfold posixpath.join; now rewrite Hc).
    rewrite E1, (join_rel a "") by (assumption || reflexivity).
    destruct (PyStr.endswith_char posixpath.sep a) eqn:He.
    + now rewrite append_empty_r.
    + rewrite (join_rel a c), He by assumption.
      rewrite join_rel; [|now destruct a|exact Hc].
      rewrite endswith_char_app by discriminate. cbn [PyStr.endswith_char].
      rewrite Ascii.eqb_refl. now rewrite append_assoc.
  - assert (Hbc : PyStr.startswith "/" (posixpath.join b c) = false).
    { rewrite join_rel by assumption.
      destruct (PyStr.endswith_char posixpath.sep b);
        now rewrite startswith_sep_app. }
    rewrite (join_rel a (posixpath.join b c)) by assumption.
    rewrite (join_rel a b) by assumption.
    rewrite (join_rel b c) by assumption.
    destruct (PyStr.endswith_char posixpath.sep a) eqn:He.
    + rewrite join_rel; [|now destruct a|exact Hc].
      rewrite endswith_char_app by exact Hbne.
      destruct (PyStr.endswith_char posixpath.sep b);
        now rewrite !append_assoc.
    + rewrite join_rel; [|now destruct a|exact Hc].
      change (a ++ String posixpath.sep b)
        with (a ++ String posixpath.sep "" ++ b).
      rewrite <- append_assoc.
      rewrite endswith_char_app by exact Hbne.
      destruct (PyStr.endswith_char posixpath.sep b);
        now rewrite !append_assoc.
Qed.

(** Where a path leads from the directory [change_directory] has entered:
    where [join(dir_path, path)] led before. *)
Lemma full_path_after_chdir (w : world) (dir_path q : string) :
  posixpath.isabs (getcwd w) = true ->
  components
    (full_path_of
       (mkWorld
          (String posixpath.sep
             (PyStr.join posixpath.sep
                (components (full_path_of w dir_path))))
          (fsroot w))
       q)
  = components (full_path_of w (posixpath.join dir_path q)).
Proof.
  intros Hcwd.
  set (w1 := mkWorld
               (String posixpath.sep
                  (PyStr.join posixpath.sep
                     (components (full_path_of w dir_path))))
               (fsroot w)).
  assert (Hcwd' : posixpath.isabs (getcwd w1) = true) by reflexivity.
  rewrite (full_path_normpath _ q Hcwd').
  rewrite (full_path_normpath _ (posixpath.join dir_path q) Hcwd).
  rewrite join_assoc by exact Hcwd.
  pose proof (isabs_join _ dir_path Hcwd) as Hx.
  destruct (normpath_abs_kept _ Hx) as (Hcx & kx & Hkx & Ex).
  assert (Hdir : getcwd w1
                 = root_at 1 (kept (posixpath.join (getcwd w) dir_path))).
  { unfold w1. cbn [getcwd]. rewrite (full_path_normpath _ _ Hcwd), Ex.
    now rewrite components_root_at. }
  rewrite Hdir.
  set (x := posixpath.join (getcwd w) dir_path) in *.
  destruct (normpath_abs_kept _ (isabs_join (root_at 1 (kept x)) q eq_refl))
    as (Hc1 & k1 & Hk1 & ->).
  destruct (normpath_abs_kept _ (isabs_join x q Hx)) as (Hc2 & k2 & Hk2 & ->).
  rewrite !components_root_at by assumption.
  destruct (PyStr.startswith "/" q) eqn:Hq.
  - now rewrite !(kept_join_abs _ q Hq).
  - rewrite !kept_join by (assumption || reflexivity).
    now rewrite kept_root_at.
Qed.

(** X8: after [change_directory] has entered a directory, [read_file]
    reads at a path what it read before at that path joined to the
    argument of [change_directory]. *)
Theorem read_file_after_change_directory
    (strerror : errno -> string -> string)
    (refuses : syscall -> world -> string -> option exn) (w w' : world)
    (dir_path cwd file_path text : string) :
  posixpath.isabs (getcwd w) = true ->
  change_directory strerror refuses w dir_path = (OkPath cwd, w') ->
  (exists at_path,
     read_file strerror w' file_path = OkContent at_path text)
  <-> (exists at_path,
         read_file strerror w (posixpath.join dir_path file_path)
         = OkContent at_path text).
Proof.
  intros Hcwd Hcd. unfold change_directory, os_chdir in Hcd.
  fold (full_path_of w dir_path) in Hcd.
  destruct (os_path_isdir w (full_path_of w dir_path));
    cbn [negb] in Hcd; [|discriminate].
  destruct (refuses Chdir w (full_path_of w dir_path)); [discriminate|].
  destruct (walk_to _ (fsroot w)) as [e|[d|ch]]; try discriminate.
  injection Hcd as _ <-.
  pose proof (full_path_after_chdir w dir_path file_path Hcwd) as Hsame.
  set (w' := mkWorld _ (fsroot w)) in *.
  assert (Hcwd' : posixpath.isabs (getcwd w') = true) by reflexivity.
  destruct (full_path_shape w' file_path Hcwd')
    as (k1 & c1 & Hk1 & Hc1 & Hf1).
  destruct (full_path_shape w (posixpath.join dir_path file_path) Hcwd)
    as (k2 & c2 & Hk2 & Hc2 & Hf2).
  rewrite Hf1, Hf2, !components_root_at in Hsame by assumption. subst c2.
  split; intros [at_path Hr].
  - destruct (proj1 (read_file_spec strerror _ _ k1 c1 Hk1 Hc1 Hf1 _ _) Hr)
      as [_ Hwalk].
    exists (root_at k2 c1).
    apply (read_file_spec strerror _ _ k2 c1 Hk2 Hc1 Hf2). now split.
  - destruct (proj1 (read_file_spec strerror _ _ k2 c1 Hk2 Hc1 Hf2 _ _) Hr)
      as [_ Hwalk].
    exists (root_at k1 c1).
    apply (read_file_spec strerror _ _ k1 c1 Hk1 Hc1 Hf1). now split.
Qed.

Lemma read_file_after_change_directory_witness :
  exists at_path,
    read_file Samples.strerror
      (snd (change_directory Samples.strerror Samples.refuses
              Examples.w_mixed "src/lib"))
      "../main.py"
    = OkContent at_path "pass".
Proof.
  apply (read_file_after_change_directory Samples.strerror Samples.refuses
           Examples.w_mixed _ "src/lib" "/w/src/lib" "../main.py" "pass"
           eq_refl eq_refl).
  exists "/w/src/main.py". reflexivity.
Defined.

(** ** The directory scan, exactly *)

Lemma In_assoc {A : Type} (k : string) (v : A) (l : list (string * A)) :
  NoDup (map fst l) -> In (k, v) l -> assoc k l = Some v.
Proof.
  induction l as [|[k' v'] l IH]; cbn; [tauto|].
  intros Hnd [Heq|Hin].
  - injection Heq as -> ->. now rewrite string_eqb_refl.
  - inversion Hnd as [|? ? Hnotin Hnd']; subst.
    destruct (String.eqb_spec k' k) as [->|_].
    + exfalso. apply Hnotin. change k with (fst (k, v)). now apply in_map.
    + now apply IH.
Qed.

Lemma foldM_flat_map {A B : Type} (f : list B -> A -> M (list B))
    (g : A -> list B) (l : list A) :
  (forall a, In a l -> forall b, f b a = inr (b ++ g a)%list) ->
  forall b, foldM f l b = inr (b ++ flat_map g l)%list.
Proof.
  induction l as [|a l IH]; intros H b; cbn [foldM flat_map].
  - now rewrite app_nil_r.
  - rewrite (H a (or_introl eq_refl)). cbn [bind].
    rewrite IH by (intros a' Ha'; apply H; now right).
    now rewrite app_assoc.
Qed.

Section Exact.

Variable fnmatch : string -> string -> bool.
Variable w : world.
Variable ignore_patterns : list string.
Variable start : string.
Variable k : nat.
Variable comps : list string.

Hypothesis Hk : k = 1 \/ k = 2.
Hypothesis Hcomps : clean_all comps.
Hypothesis Hstart : posixpath.abspath (getcwd w) start = root_at k comps.

Local Abbreviation V :=
  (visit fnmatch w ignore_patterns start (root_at k comps)).
Local Abbreviation dir_at cs := (root_at k (comps ++ cs)).

(** What the scan adds for the file [f] of the directory [cs]. *)
Local Abbreviation entry_of cs f :=
  (if admitted fnmatch ignore_patterns cs [f] then
     match open_read w (dir_at (cs ++ [f])) with
     | inr text => [mkEntry (PyStr.join posixpath.sep (cs ++ [f])) text]
     | inl _ => []
     end
   else []).

Lemma visit_file_exact (cs : list string) (context : list entry)
    (f : string) :
  clean_all cs -> clean f = true ->
  visit_file fnmatch w ignore_patterns start (dir_at cs) (rel_of cs)
    context f
  = inr (context ++ entry_of cs f)%list.
Proof.
  intros Hcs Hf. unfold visit_file. cbn [admitted].
  destruct (excluded fnmatch ignore_patterns (rel_of cs) f) eqn:Hex.
  { cbn [negb andb]. now rewrite app_nil_r. }
  rewrite join_root_at' by clean_names.
  rewrite <- app_assoc.
  assert (Hcsf : clean_all (cs ++ [f])) by clean_names.
  rewrite (relpath_root_at (getcwd w) start k comps (cs ++ [f]))
    by assumption.
  assert (Hrel : rel_of (cs ++ [f]) = PyStr.join posixpath.sep (cs ++ [f]))
    by (destruct cs; reflexivity).
  rewrite Hrel. cbn [bind ret negb andb].
  destruct (component_ignored fnmatch ignore_patterns
              (PyStr.join posixpath.sep (cs ++ [f]))) eqn:Hci.
  { cbn [negb]. now rewrite app_nil_r. }
  cbn [negb].
  destruct (open_read w (root_at k (comps ++ cs ++ [f])))
    as [e | text] eqn:Hop; [|reflexivity].
  rewrite app_nil_r.
  destruct (open_read_exn _ _ _ Hop) as [[msg ->] | [msg ->]]; reflexivity.
Qed.

(** Reading below a directory of the scan is looking up in its node. *)
Lemma open_read_lookup (cs r : list string) (n : node) (text : string) :
  clean_all cs -> clean_all r ->
  lookup (comps ++ cs) (fsroot w) = Some n ->
  open_read w (dir_at (cs ++ r)) = inr text
  <-> lookup r n = Some (File (inr text)).
Proof.
  intros Hcs Hr Hn. unfold open_read.
  rewrite resolve_root_at by clean_names.
  rewrite app_assoc, lookup_app, Hn.
  destruct (lookup r n) as [[[[msg|msg]|t]|ch]|]; cbv [ret raise];
    split; intros H; try discriminate H.
  - now injection H as ->.
  - now injection H as ->.
Qed.

Lemma walk_dirs_exact (cs : list string) (children : list (string * node))
    (ds : list string) :
  clean_all cs ->
  lookup (comps ++ cs) (fsroot w) = Some (Dir children) ->
  NoDup (map fst children) ->
  Forall (fun c => scanned_exactly fnmatch w ignore_patterns start k comps (snd c)) children ->
  Forall (fun c => wf_node (snd c) = true) children ->
  clean_all ds ->
  (forall d, In d ds -> exists child, In (d, child) children) ->
  exists new,
    (forall context,
       foldM (descend (walkers_of V (dir_at cs) children)) ds context
       = inr (context ++ new)%list)
    /\ forall p text,
         In (mkEntry p text) new
         <-> exists d child r,
               In d ds /\ In (d, child) children
               /\ clean_all r
               /\ admitted fnmatch ignore_patterns (cs ++ [d]) r = true
               /\ p = PyStr.join posixpath.sep (cs ++ d :: r)
               /\ lookup r child = Some (File (inr text)).
Proof.
  intros Hcs Hn Hnd IHc Hwf Hds. induction Hds as [|d ds Hd _ IH]; intros Hin.
  - exists []. split.
    + intros context. cbn. now rewrite app_nil_r.
    + intros p text. split; [intros []|].
      intros (d & child & r & [] & _).
  - destruct (Hin d (or_introl eq_refl)) as [child Hchild].
    destruct (IH (fun d' Hd' => Hin d' (or_intror Hd'))) as (new2 & Hw2 & M2).
    rewrite Forall_forall in IHc, Hwf.
    pose proof (IHc _ Hchild) as Hex. pose proof (Hwf _ Hchild) as Hwfc.
    cbn [snd] in Hex, Hwfc.
    assert (Hcsd : clean_all (cs ++ [d])) by clean_names.
    assert (Hlk : lookup (comps ++ cs ++ [d]) (fsroot w) = Some child).
    { rewrite app_assoc, lookup_app, Hn. cbn [lookup].
      now rewrite (In_assoc _ _ _ Hnd Hchild). }
    destruct (Hex (cs ++ [d])%list Hwfc Hcsd Hlk) as (new1 & Hw1 & M1).
    exists (new1 ++ new2)%list. split.
    + intros context. cbn [foldM]. rewrite descend_child.
      rewrite (In_assoc _ _ _ Hnd Hchild).
      rewrite join_root_at' by clean_names.
      rewrite <- app_assoc, Hw1. cbn [bind]. rewrite Hw2.
      now rewrite app_assoc.
    + intros p text. rewrite in_app_iff, M1, M2. split.
      * intros [(r & Hr & Ha & -> & Hl)
               |(d' & child' & r & Hd' & Hc' & Hr & Ha & -> & Hl)].
        -- exists d, child, r. rewrite <- app_assoc.
           repeat split; try assumption. now left.
        -- exists d', child', r. repeat split; try assumption. now right.
      * intros (d' & child' & r & [<-|Hd'] & Hc' & Hr & Ha & -> & Hl).
        -- left. exists r. rewrite <- app_assoc.
           pose proof (In_assoc _ _ _ Hnd Hchild) as E1.
           pose proof (In_assoc _ _ _ Hnd Hc') as E2.
           rewrite E1 in E2. injection E2 as <-.
           repeat split; assumption.
        -- right. exists d', child', r. repeat split; assumption.
Qed.

Lemma os_walk_exact (n : node) :
  scanned_exactly fnmatch w ignore_patterns start k comps n.
Proof.
  induction n as [data | children IHc] using node_ind';
    intros cs Hwf Hcs Hn.
  - exists []. split.
    + intros context. cbn. now rewrite app_nil_r.
    + intros p text. split; [intros []|].
      intros (r & _ & Ha & _ & Hl).
      destruct r; [discriminate Ha|discriminate Hl].
  - apply wf_node_Dir in Hwf as (Hnames & Hnd & Hwfc).
    set (files := map fst (filter (fun c => negb (is_dir (snd c))) children)).
    set (ds := filter
                 (fun d =>
                    negb (pruned fnmatch ignore_patterns (rel_of cs) d))
                 (map fst (filter (fun c => is_dir (snd c)) children))).
    assert (Hfiles : clean_all files)
      by (now apply Forall_map_filter).
    assert (Hds : clean_all ds)
      by (apply Forall_filter; now apply Forall_map_filter).
    destruct (walk_dirs_exact cs children ds Hcs Hn Hnd IHc Hwfc Hds)
      as (new2 & Hw2 & M2).
    { intros d Hd. apply filter_In in Hd as [Hd _].
      apply in_map_iff in Hd as ([d' child] & <- & Hd).
      apply filter_In in Hd as [Hd _]. now exists child. }
    exists (flat_map (fun f => entry_of cs f) files ++ new2)%list. split.
    + intros context. rewrite os_walk_Dir. unfold visit at 1.
      rewrite (relpath_root_at (getcwd w) (root_at k comps) k comps cs)
        by (try assumption; now apply abspath_root_at).
      cbn [bind ret]. fold files.
      rewrite (foldM_flat_map _ (fun f => entry_of cs f)).
      2:{ intros f Hf context'. apply visit_file_exact; [exact Hcs|].
          rewrite Forall_forall in Hfiles. now apply Hfiles. }
      cbn [bind ret fst snd]. fold ds. rewrite Hw2.
      now rewrite app_assoc.
    + intros p text. rewrite in_app_iff, M2, in_flat_map. split.
      * intros [(f & Hf & He)
               |(d & child & r & Hd & Hc & Hr & Ha & -> & Hl)].
        -- assert (Hcf : clean f = true)
             by (rewrite Forall_forall in Hfiles; now apply Hfiles).
           destruct (admitted fnmatch ignore_patterns cs [f]) eqn:Ha;
             [|destruct He].
           destruct (open_read w (dir_at (cs ++ [f]))) as [e|t] eqn:Ho;
             [destruct He|].
           destruct He as [[= <- <-]|[]].
           exists [f]. repeat split; try assumption; [clean_names|].
           apply (open_read_lookup cs [f] _ _ Hcs); [clean_names|exact Hn|].
           exact Ho.
        -- exists (d :: r). subst ds. apply filter_In in Hd as [Hd Hp].
           apply in_map_iff in Hd as ([d' child'] & Hdd & Hd).
           cbn [fst] in Hdd. subst d'.
           apply filter_In in Hd as [Hd Hdir]. cbn [snd] in Hdir.
           assert (Hcd : clean d = true).
           { rewrite Forall_forall in Hnames. apply Hnames.
             change d with (fst (d, child)). now apply in_map. }
           assert (Hr' : r <> []) by (intros ->; discriminate Ha).
           repeat split.
           ++ now constructor.
           ++ cbn [admitted]. destruct r as [|r0 r]; [congruence|].
              now rewrite Hp, Ha.
           ++ cbn [lookup]. now rewrite (In_assoc _ _ _ Hnd Hc).
      * intros (r & Hr & Ha & -> & Hl).
        destruct r as [|name r]; [discriminate Ha|].
        inversion Hr as [|? ? Hcn Hr']; subst.
        cbn [lookup] in Hl.
        destruct (assoc name children) as [child|] eqn:Ec; [|discriminate].
        pose proof (assoc_In _ _ _ Ec) as Hin.
        destruct r as [|r0 r].
        -- left. cbn [lookup] in Hl. injection Hl as ->.
           exists name. split.
           ++ subst files. apply in_map_iff. exists (name, File (inr text)).
              split; [reflexivity|]. apply filter_In. now split.
           ++ rewrite Ha.
              assert (Ho : open_read w (dir_at (cs ++ [name])) = inr text).
              { apply (open_read_lookup cs [name] (Dir children) text Hcs);
                  [clean_names|exact Hn|].
                cbn [lookup]. now rewrite Ec. }
              rewrite Ho. now left.
        -- right. cbn [admitted] in Ha.
           apply andb_true_iff in Ha as [Hp Ha].
           destruct child as [data|ch]; [discriminate Hl|].
           exists name, (Dir ch), (r0 :: r). repeat split; try assumption.
           subst ds. apply filter_In. split; [|exact Hp].
           apply in_map_iff. exists (name, Dir ch).
           split; [reflexivity|]. apply filter_In. now split.
Qed.

End Exact.

(** In directory mode the context holds the admitted files that can be
    read, and no other entry. *)
Lemma directory_scan_characterised (fnmatch : string -> string -> bool) (w : world)
    (arg : string) (ignore_patterns : list string) :
  wf_world w = true ->
  load_ignore_patterns w = inr ignore_patterns ->
  os_path_isfile w (full_path_of w arg) = false ->
  exists context,
    get_workspace_context fnmatch w arg = Success context
    /\ forall p text,
         In (mkEntry p text) context
         <-> exists r,
               clean_all r
               /\ admitted fnmatch ignore_patterns [] r = true
               /\ p = PyStr.join posixpath.sep r
               /\ open_read w (posixpath.join_all (full_path_of w arg) r)
                  = inr text.
Proof.
  intros Hwf Hload Hfile.
  assert (Hcwd : posixpath.isabs (getcwd w) = true)
    by (unfold wf_world in Hwf; now apply andb_prop in Hwf as [Hwf _]).
  destruct (abspath_shape (getcwd w) (posixpath.join (getcwd w) arg) Hcwd)
    as (k & comps & Hk & Hcomps & Hfull).
  fold (full_path_of w arg) in Hfull.
  assert (Hstart : posixpath.abspath (getcwd w) arg = root_at k comps)
    by (now rewrite <- abspath_join_cwd).
  unfold get_workspace_context, get_workspace_context_try.
  rewrite Hload. cbn [bind]. fold (full_path_of w arg). rewrite Hfile.
  unfold os_walk_path. rewrite Hfull.
  assert (Hopen : forall r text, clean_all r ->
            open_read w (posixpath.join_all (root_at k comps) r) = inr text
            <-> match resolve w (root_at k comps) with
                | Some n => lookup r n = Some (File (inr text))
                | None => False
                end).
  { intros r text Hr. rewrite join_all_root_at by assumption.
    unfold open_read. rewrite !resolve_root_at by clean_names.
    rewrite lookup_app.
    destruct (lookup comps (fsroot w)) as [n|]; cbv [raise].
    - destruct (lookup r n) as [[[[msg|msg]|t]|ch]|]; cbv [ret raise];
        split; intros H; try discriminate H; now injection H as ->.
    - split; [discriminate|tauto]. }
  destruct (resolve w (root_at k comps)) as [n|] eqn:Hres.
  - rewrite resolve_root_at in Hres by assumption.
    destruct (os_walk_exact fnmatch w ignore_patterns arg k comps
                Hk Hcomps Hstart n [])
      as (new & Hw & Hin).
    + apply (lookup_wf comps (fsroot w)); [|exact Hres].
      unfold wf_world in Hwf. now apply andb_prop in Hwf as [_ Hwf].
    + constructor.
    + now rewrite app_nil_r.
    + rewrite app_nil_r in Hw. rewrite (Hw []). cbn [bind ret app].
      exists new. split; [reflexivity|].
      intros p text. rewrite Hin. cbn [app].
      split; intros (r & Hr & Ha & Hp & Hl); exists r;
        repeat split; try assumption; now apply (Hopen r text Hr).
  - cbn [bind ret]. exists []. split; [reflexivity|].
    intros p text. split; [intros []|].
    intros (r & Hr & _ & _ & Ho). now apply (Hopen r text Hr) in Ho.
Qed.



(** ** More patterns, fewer entries *)

Lemma existsb_incl {A : Type} (f : A -> bool) (l l' : list A) :
  incl l l' -> existsb f l = true -> existsb f l' = true.
Proof.
  intros Hincl H. apply existsb_exists in H as (x & Hx & Hf).
  apply existsb_exists. exists x. split; [now apply Hincl|exact Hf].
Qed.

Lemma existsb_incl_false {A : Type} (f : A -> bool) (l l' : list A) :
  incl l l' -> existsb f l' = false -> existsb f l = false.
Proof.
  intros Hincl H. destruct (existsb f l) eqn:E; [|reflexivity].
  now rewrite (existsb_incl f l l' Hincl E) in H.
Qed.

(** The tests of the scan let through less when there are more
    patterns. *)
Lemma admitted_incl (fnmatch : string -> string -> bool)
    (patterns patterns' : list string) (cs r : list string) :
  incl patterns patterns' ->
  admitted fnmatch patterns' cs r = true ->
  admitted fnmatch patterns cs r = true.
Proof.
  intros Hincl. revert cs. induction r as [|name r IH]; intros cs H;
    [discriminate H|].
  cbn [admitted] in H |- *. destruct r as [|r0 r].
  - apply andb_true_iff in H as [Hex Hci].
    apply negb_true_iff in Hex, Hci. apply andb_true_iff. split.
    + apply negb_true_iff. unfold excluded in Hex |- *.
      apply orb_false_iff in Hex as [Hex H3].
      apply orb_false_iff in Hex as [H1 H2].
      rewrite (existsb_incl_false _ _ _ Hincl H1).
      rewrite (existsb_incl_false _ _ _ Hincl H2).
      now rewrite H3.
    + apply negb_true_iff. unfold component_ignored in Hci |- *.
      destruct (existsb
                  (fun part => existsb (fun p => fnmatch part p) patterns)
                  (PyStr.split os_sep
                     (PyStr.join posixpath.sep (cs ++ [name])))) eqn:E;
        [|reflexivity].
      rewrite <- Hci. symmetry.
      apply existsb_exists in E as (part & Hpart & Hm).
      apply existsb_exists. exists part. split; [exact Hpart|].
      exact (existsb_incl _ _ _ Hincl Hm).
  - apply andb_true_iff in H as [Hp Ha]. apply negb_true_iff in Hp.
    apply andb_true_iff. split.
    + apply negb_true_iff. unfold pruned in Hp |- *.
      exact (existsb_incl_false _ _ _ Hincl Hp).
    + now apply IH.
Qed.

(** The ignore file is never admitted: its name holds [.git]. *)
Lemma admitted_not_gitignore (fnmatch : string -> string -> bool)
    (patterns : list string) (cs r : list string) :
  admitted fnmatch patterns cs r = true -> last r "" <> ".gitignore".
Proof.
  revert cs. induction r as [|name r IH]; intros cs H; [discriminate H|].
  cbn [admitted] in H. destruct r as [|r0 r].
  - apply andb_true_iff in H as [Hex _]. apply negb_true_iff in Hex.
    unfold excluded in Hex. apply orb_false_iff in Hex as [_ H3].
    cbn [last]. intros ->. discriminate H3.
  - apply andb_true_iff in H as [_ Ha].
    rewrite last_cons_nonnil by discriminate. exact (IH _ Ha).
Qed.



(** ** Reading a file, and collecting it *)

(** [open] for reading, with or without the encoding. *)
Lemma open_r_open_read (strerror : errno -> string -> string) (w : world)
    (k : nat) (comps : list string) :
  clean_all comps ->
  match open_r strerror w (root_at k comps),
        open_read w (root_at k comps) with
  | inr text, inr text' => text = text'
  | inl _, inl _ => True
  | _, _ => False
  end.
Proof.
  intros Hc. unfold open_r, open_read.
  rewrite resolve_components, components_root_at, lookup_walk_to
    by assumption.
  now destruct (walk_to comps (fsroot w)) as [e|[[[msg|msg]|t]|ch]].
Qed.

(** X10: on a regular file, [read_file] and the collector agree, once the
    ignore file is loaded: where [read_file] returns a content, the
    collector returns the single entry of that content under the base name
    of the path [read_file] returns; where [read_file] fails, the collector
    fails with its fixed reason. *)
Theorem read_file_agrees_with_collector
    (strerror : errno -> string -> string)
    (fnmatch : string -> string -> bool) (w : world) (arg : string)
    (ignore_patterns : list string) :
  posixpath.isabs (getcwd w) = true ->
  load_ignore_patterns w = inr ignore_patterns ->
  os_path_isfile w (full_path_of w arg) = true ->
  match read_file strerror w arg with
  | OkContent at_path text =>
      get_workspace_context fnmatch w arg
      = Success [mkEntry (posixpath.basename at_path) text]
  | OpError _ =>
      get_workspace_context fnmatch w arg
      = Failure "Cannot read file: binary or unreadable"
  | OkPath _ => False
  end.
Proof.
  intros Hcwd Hload Hfile.
  rewrite (single_file_mode fnmatch w arg ignore_patterns Hload Hfile).
  destruct (full_path_shape w arg Hcwd) as (k & comps & Hk & Hc & Hfull).
  unfold read_file. fold (full_path_of w arg). rewrite Hfull.
  pose proof (open_r_open_read strerror w k comps Hc) as H.
  destruct (open_r strerror w (root_at k comps)) as [e|text];
    destruct (open_read w (root_at k comps)) as [e'|text'];
    try contradiction; [reflexivity|now subst].
Qed.

Lemma read_file_agrees_with_collector_witness :
  match read_file Samples.strerror Examples.w_mixed "src/lib/util.py" with
  | OkContent at_path text =>
      get_workspace_context Fnmatch.fnmatchcase Examples.w_mixed
        "src/lib/util.py"
      = Success [mkEntry (posixpath.basename at_path) text]
  | OpError _ =>
      get_workspace_context Fnmatch.fnmatchcase Examples.w_mixed
        "src/lib/util.py"
      = Failure "Cannot read file: binary or unreadable"
  | OkPath _ => False
  end.
Proof.
  apply (read_file_agrees_with_collector Samples.strerror Fnmatch.fnmatchcase
           Examples.w_mixed "src/lib/util.py" []);
    reflexivity.
Defined.

(** ** The configuration *)

(** X11: [set_active_config] returns [True] exactly when the active name
    is one of the configurations.  Then the active configuration holds the
    value under the key and its other keys as before, the other
    configurations and the active name are unchanged, and the configuration
    is saved once.  Otherwise nothing is changed and nothing is saved, and
    the active configuration reads as empty. *)
Theorem set_active_config_spec (stored : Type)
    (save_config : configuration -> stored -> stored)
    (config : configuration) (file : stored) (key : string) (v : value) :
  match set_active_config stored save_config config file key v with
  | (true, config', file') =>
      assoc (active_name config) (configs_of config) <> None
      /\ assoc key (get_active_config config') = Some v
      /\ (forall key', key' <> key ->
            assoc key' (get_active_config config')
            = assoc key' (get_active_config config))
      /\ (forall name, name <> active_name config ->
            assoc name (configs_of config') = assoc name (configs_of config))
      /\ active_name config' = active_name config
      /\ file' = save_config config' file
  | (false, config', file') =>
      assoc (active_name config) (configs_of config) = None
      /\ config' = config /\ file' = file
      /\ get_active_config config = []
  end.
Proof.
  unfold set_active_config, get_active_config, dict_get.
  destruct (assoc (active_name config) (configs_of config)) as [conf|] eqn:E.
  - split; [discriminate|].
    assert (Ha : active_name
                   (mkConfiguration
                      (Some (setitem (active_name config)
                               (setitem key v conf) (configs_of config)))
                      (active config))
                 = active_name config) by reflexivity.
    rewrite Ha. cbn [configs_of configs]. rewrite assoc_setitem_same.
    split; [apply assoc_setitem_same|].
    split; [intros key' Hne; now apply assoc_setitem_other|].
    split; [intros name Hne; now apply assoc_setitem_other|].
    split; reflexivity.
  - repeat split; reflexivity.
Qed.

(** ** Words and lines *)

Lemma split_whitespace_words (s : string) :
  Forall (fun word => word <> "") (PyText.split_whitespace s).
Proof.
  induction s as [|c s IH]; [constructor|].
  cbn [PyText.split_whitespace].
  destruct (PyStr.isspace c); [exact IH|].
  destruct s as [|c' s']; [constructor; [discriminate|constructor]|].
  destruct (PyStr.isspace c').
  - constructor; [discriminate|exact IH].
  - destruct (PyText.split_whitespace (String c' s')) as [|word words].
    + constructor; [discriminate|constructor].
    + inversion IH; subst. constructor; [discriminate|assumption].
Qed.

Lemma split_whitespace_nonnil (c : ascii) (s : string) :
  PyStr.isspace c = false -> PyText.split_whitespace (String c s) <> [].
Proof.
  intros Hc. cbn [PyText.split_whitespace]. rewrite Hc.
  destruct s as [|c' s']; [discriminate|].
  destruct (PyStr.isspace c'); [discriminate|].
  destruct (PyText.split_whitespace (String c' s')); discriminate.
Qed.

Lemma join_nonempty (sep v : string) (vs : list string) :
  v <> "" -> PyText.join sep (v :: vs) <> "".
Proof.
  intros Hv. cbn [PyText.join]. destruct vs; [exact Hv|].
  destruct v; [congruence|discriminate].
Qed.

(** The first word of a string that starts with no whitespace is a prefix
    of the string. *)
Lemma split_whitespace_first (s word : string) (words : list string) :
  PyStr.lstrip PyStr.isspace s = s ->
  PyText.split_whitespace s = word :: words ->
  PyStr.startswith word s = true.
Proof.
  revert word words. induction s as [|c s IH]; intros word words Hl Hs;
    [discriminate Hs|].
  cbn [PyStr.lstrip] in Hl. cbn [PyText.split_whitespace] in Hs.
  destruct (PyStr.isspace c) eqn:Hc.
  { exfalso. clear - Hl.
    assert (H : forall t, String.length (PyStr.lstrip PyStr.isspace t)
                          <= String.length t).
    { induction t as [|a t IHt]; cbn; [lia|].
      destruct (PyStr.isspace a); cbn; lia. }
    specialize (H s). rewrite Hl in H. cbn in H. lia. }
  destruct s as [|c' s'].
  - injection Hs as <- <-. cbn. now rewrite Ascii.eqb_refl.
  - destruct (PyStr.isspace c') eqn:Hc'.
    + injection Hs as <- <-. cbn. now rewrite Ascii.eqb_refl.
    + destruct (PyText.split_whitespace (String c' s')) as [|w0 ws] eqn:E.
      * now destruct (split_whitespace_nonnil c' s' Hc').
      * injection Hs as <- <-. cbn [PyStr.startswith].
        rewrite Ascii.eqb_refl. cbn [andb].
        apply (IH w0 ws); [|reflexivity].
        cbn [PyStr.lstrip]. now rewrite Hc'.
Qed.

Lemma strip_no_leading_space (line : string) :
  PyStr.lstrip PyStr.isspace (PyStr.strip line) = PyStr.strip line.
Proof.
  unfold PyStr.strip.
  destruct (blank line) eqn:Hb.
  - now rewrite (lstrip_blank _ Hb).
  - destruct (lstrip_not_blank _ Hb) as (c & s & -> & Hc).
    cbn [PyStr.rstrip].
    destruct (PyStr.rstrip PyStr.isspace s); rewrite ?Hc;
      cbn [PyStr.lstrip]; now rewrite Hc.
Qed.

(** ** The interactive loop *)

Lemma startswith_app (p s : string) :
  PyStr.startswith p s = true -> exists rest, s = p ++ rest.
Proof.
  revert s. induction p as [|a p IH]; intros s H.
  - now exists s.
  - destruct s as [|b s]; [discriminate H|].
    cbn [PyStr.startswith] in H. apply andb_true_iff in H as [Hab H].
    apply Ascii.eqb_eq in Hab. subst b.
    destruct (IH _ H) as [rest ->]. now exists rest.
Qed.

Lemma getcwd_write_file (strerror : errno -> string -> string) (w : world)
    (file_path content : string) :
  getcwd (snd (write_file strerror w file_path content)) = getcwd w.
Proof.
  unfold write_file, os_makedirs, open_w.
  destruct (mkdir_p _ _ _ _); cbn [bind ret]; [reflexivity|].
  destruct (write_at _ _ _ _ _); reflexivity.
Qed.

Lemma getcwd_make_directory (strerror : errno -> string -> string)
    (w : world) (dir_path : string) :
  getcwd (snd (make_directory strerror w dir_path)) = getcwd w.
Proof.
  unfold make_directory, os_makedirs.
  destruct (mkdir_p _ _ _ _); reflexivity.
Qed.

(** X12: a value given to [debug] with [/config set] switches the debug
    mode on, whatever the value is, [false] included: the handler stores
    the words of the value as a string that is not empty, which is true for
    [call_api]; from then on every call is answered by the mock response,
    without the service. *)
Theorem config_set_debug_is_on
    (strerror : errno -> string -> string)
    (os_stat : world -> string -> M (nat * string))
    (refuses : syscall -> world -> string -> option exn)
    (fnmatch : string -> string -> bool)
    (stored : Type) (save_config : configuration -> stored -> stored)
    (create : value -> value -> list Msg.t -> string + list (option string))
    (print_tree : world -> string -> string)
    (s : state stored) (line v : string) (vs : list string) :
  FileEditMode.active (file_edit_mode s) = false ->
  PyText.split_whitespace (PyStr.strip line)
  = "/config" :: "set" :: "debug" :: v :: vs ->
  assoc (active_name (config s)) (configs_of (config s)) <> None ->
  exists s',
    loop_body strerror os_stat refuses fnmatch stored save_config create
      print_tree
      s line = Next s'
    /\ assoc "debug" (get_active_config (config s'))
       = Some (VStr (PyText.join " " (v :: vs)))
    /\ forall create' messages,
         call_api create' (config s') messages
         = ApiOk "DEBUG MODE: This is a mock response. Set debug=false to use actual API.".
Proof.
  intros Hedit Hwords Hactive.
  pose proof (split_whitespace_first _ _ _ (strip_no_leading_space line)
                Hwords) as Hstart.
  destruct (startswith_app _ _ Hstart) as [rest Hcmd].
  unfold loop_body. rewrite Hedit, Hwords, Hcmd.
  cbn [append String.eqb Ascii.eqb Bool.eqb orb PyStr.startswith andb].
  unfold set_active_config.
  destruct (assoc (active_name (config s)) (configs_of (config s)))
    as [conf|] eqn:E; [|congruence].
  eexists. split; [reflexivity|]. cbn [config].
  assert (Hd : assoc "debug"
                 (get_active_config
                    (mkConfiguration
                       (Some (setitem (active_name (config s))
                                (setitem "debug"
                                   (VStr (PyText.join " " (v :: vs))) conf)
                                (configs_of (config s))))
                       (active (config s))))
               = Some (VStr (PyText.join " " (v :: vs)))).
  { unfold get_active_config, dict_get.
    change (active_name (mkConfiguration _ (active (config s))))
      with (active_name (config s)).
    cbn [configs_of configs]. rewrite assoc_setitem_same.
    apply assoc_setitem_same. }
  split; [exact Hd|].
  intros create' messages. unfold call_api, dict_get at 1. rewrite Hd.
  cbn [truthy].
  pose proof (split_whitespace_words (PyStr.strip line)) as Hw.
  rewrite Hwords in Hw.
  do 3 (inversion Hw as [|? ? _ Hw']; subst; clear Hw; rename Hw' into Hw).
  inversion Hw as [|? ? Hv _]; subst.
  destruct (String.eqb_spec (PyText.join " " (v :: vs)) "") as [He|_];
    [|reflexivity].
  now destruct (join_nonempty " " v vs Hv).
Qed.

Lemma config_set_debug_is_on_witness :
  exists s',
    loop_body Samples.strerror Samples.os_stat Samples.refuses
      Fnmatch.fnmatchcase
      (option configuration) Samples.save_config Samples.create
      Samples.print_tree
      (initial (option configuration) Examples.w_mixed None DEFAULT_CONFIG)
      "/config set debug false" = Next s'
    /\ assoc "debug" (get_active_config (config s'))
       = Some (VStr (PyText.join " " ["false"]))
    /\ forall create' messages,
         call_api create' (config s') messages
         = ApiOk "DEBUG MODE: This is a mock response. Set debug=false to use actual API.".
Proof.
  apply (config_set_debug_is_on Samples.strerror Samples.os_stat Samples.refuses
           Fnmatch.fnmatchcase (option configuration) Samples.save_config
           Samples.create Samples.print_tree
           (initial (option configuration) Examples.w_mixed None
              DEFAULT_CONFIG)
           "/config set debug false" "false" []);
    [reflexivity|reflexivity|discriminate].
Defined.

Lemma loop_body_names_cwd
    (strerror : errno -> string -> string)
    (os_stat : world -> string -> M (nat * string))
    (refuses : syscall -> world -> string -> option exn)
    (fnmatch : string -> string -> bool)
    (stored : Type) (save_config : configuration -> stored -> stored)
    (create : value -> value -> list Msg.t -> string + list (option string))
    (print_tree : world -> string -> string)
    (s : state stored) (line : string) :
  names_cwd s ->
  match loop_body strerror os_stat refuses fnmatch stored save_config create
          print_tree s line with
  | Next s' => names_cwd s'
  | Break s' => names_cwd s'
  | Fatal => False
  end.
Proof.
  intros [others Hm].
  unfold loop_body, handle_context, handle_ls, handle_tree,
    handle_ls_printed, handle_tree_printed.
  assert (Hsame : forall w e c (f : stored), getcwd w = getcwd (host s) ->
            names_cwd (mkState w f c e (messages s))).
  { intros w e c f Hw. exists others. cbn [messages host]. now rewrite Hw. }
  assert (Happ : forall new, names_cwd (append_messages stored s new)).
  { intros new. exists (others ++ new)%list. cbn [messages host
    append_messages].
    now rewrite Hm. }
  destruct (FileEditMode.active (file_edit_mode s)).
  { destruct (PyStr.strip line =? "/save").
    - destruct (FileEditMode.file_path (file_edit_mode s)) as [file_path|].
      + pose proof (getcwd_write_file strerror (host s) file_path
                      (PyText.join NL
                         (FileEditMode.content (file_edit_mode s)))) as Hg.
        destruct (write_file _ _ _ _) as [result w']. cbn [snd] in Hg.
        now apply Hsame.
      + now apply Hsame.
    - destruct (PyStr.strip line =? "/cancel"); now apply Hsame. }
  destruct ((PyStr.strip line =? "/exit") || (PyStr.strip line =? "/quit")).
  { now exists others. }
  destruct (PyStr.startswith "/config" (PyStr.strip line)) eqn:Hconfig.
  { destruct (startswith_app _ _ Hconfig) as [rest Hcmd]. rewrite Hcmd.
    destruct (PyText.split_whitespace ("/config" ++ rest))
      as [|w0 [|command args]] eqn:Hw.
    - now destruct (split_whitespace_nonnil "/" ("config" ++ rest) eq_refl).
    - now exists others.
    - destruct (command =? "list"); [now exists others|].
      destruct (command =? "show"); [now exists others|].
      destruct args as [|key [|v vs]]; try (now exists others).
      destruct (command =? "set"); [|now exists others].
      destruct (set_active_config _ _ _ _ _ _) as [[ok config'] file'].
      now apply Hsame. }
  destruct (PyStr.strip line =? "/help"); [now exists others|].
  destruct ((PyStr.strip line =? "/pwd") || (PyStr.strip line =? "/cwd"));
    [now exists others|].
  destruct (PyStr.startswith "/cd " (PyStr.strip line)).
  { unfold change_directory.
    destruct (negb (os_path_isdir _ _)); [now exists others|].
    destruct (os_chdir _ _ _ _) as [e|w1]; [now exists others|].
    rewrite Hm. eexists. reflexivity. }
  destruct (PyStr.startswith "/mkdir " (PyStr.strip line)).
  { pose proof (getcwd_make_directory strerror (host s)
                  (PyStr.strip (PyText.slice_from 7 (PyStr.strip line))))
      as Hg.
    destruct (make_directory _ _ _) as [result w']. cbn [snd] in Hg.
    now apply Hsame. }
  destruct (PyStr.startswith "/cat " (PyStr.strip line));
    [now exists others|].
  destruct (PyStr.startswith "/write " (PyStr.strip line));
    [now apply Hsame|].
  destruct (PyStr.startswith "/append " (PyStr.strip line)).
  { destruct (read_file _ _ _); now exists others. }
  destruct (PyStr.startswith "/context" (PyStr.strip line)
            || PyStr.startswith "/#" (PyStr.strip line)).
  { destruct (get_workspace_context _ _ _); [apply Happ|now exists others]. }
  destruct (PyStr.startswith "/ls" (PyStr.strip line)).
  { destruct (list_directory _ _ _ _ _); [apply Happ|now exists others]. }
  destruct (PyStr.startswith "/tree" (PyStr.strip line)); [apply Happ|].
  destruct (call_api _ _ _).
  - exists ((others ++ [Msg.mk "user" (PyStr.strip line)])
            ++ [Msg.mk "assistant" message])%list.
    cbn [messages host append_messages]. now rewrite Hm.
  - apply Happ.
Qed.

(** X13: in every session the loop ends without an exception leaving
    [main], and the first message of the history, the one of the system,
    names the working directory of the process at the end as at the start:
    [/cd] is the only command that changes the directory, and it rewrites
    that message. *)
Theorem system_message_names_cwd
    (strerror : errno -> string -> string)
    (os_stat : world -> string -> M (nat * string))
    (refuses : syscall -> world -> string -> option exn)
    (fnmatch : string -> string -> bool)
    (stored : Type) (save_config : configuration -> stored -> stored)
    (create : value -> value -> list Msg.t -> string + list (option string))
    (print_tree : world -> string -> string)
    (w : world) (file : stored) (config : configuration)
    (lines : list string) :
  exists s others,
    loop strerror os_stat refuses fnmatch stored save_config create print_tree
      (initial stored w file config) lines = Some s
    /\ messages s
       = Msg.mk "system" (system_content (get_current_dir (host s)))
         :: others.
Proof.
  assert (H : forall s0 : state stored, names_cwd s0 ->
            exists s, loop strerror os_stat refuses fnmatch stored save_config
              create
                        print_tree s0 lines = Some s
                      /\ names_cwd s).
  { induction lines as [|line lines IH]; intros s0 Hs0.
    - now exists s0.
    - cbn [loop].
      pose proof (loop_body_names_cwd strerror os_stat refuses fnmatch stored
                    save_config create print_tree s0 line Hs0) as Hb.
      destruct (loop_body _ _ _ _ _ _ _ _ s0 line) as [s1|s1|].
      + now apply IH.
      + now exists s1.
      + contradiction. }
  destruct (H (initial stored w file config)) as (s & Hl & others & Hm).
  - now exists [].
  - now exists s, others.
Qed.

(** In the edit mode, lines of content are appended to [content], one by
    one, and nothing else changes. *)
Lemma loop_edit_lines
    (strerror : errno -> string -> string)
    (os_stat : world -> string -> M (nat * string))
    (refuses : syscall -> world -> string -> option exn)
    (fnmatch : string -> string -> bool)
    (stored : Type) (save_config : configuration -> stored -> stored)
    (create : value -> value -> list Msg.t -> string + list (option string))
    (print_tree : world -> string -> string)
    (w : world) (file : stored) (c : configuration) (msgs : list Msg.t)
    (file_path : option string) (mode : option string)
    (ls : list string) :
  forallb is_content ls = true ->
  forall (content : list string) (rest : list string),
    loop strerror os_stat refuses fnmatch stored save_config create print_tree
      (mkState w file c (FileEditMode.mk true file_path content mode) msgs)
      (ls ++ rest)
    = loop strerror os_stat refuses fnmatch stored save_config create print_tree
        (mkState w file c
           (FileEditMode.mk true file_path (content ++ ls) mode) msgs)
        rest.
Proof.
  induction ls as [|l ls IH]; intros Hls content rest.
  - now rewrite app_nil_r.
  - cbn [forallb] in Hls. apply andb_true_iff in Hls as [Hl Hls].
    unfold is_content in Hl. apply andb_true_iff in Hl as [H1 H2].
    apply negb_true_iff in H1, H2.
    cbn [app loop]. unfold loop_body at 1.
    cbn [file_edit_mode FileEditMode.active]. rewrite H1, H2.
    unfold with_edit.
    cbn [host config_file config messages file_edit_mode
         FileEditMode.active FileEditMode.file_path FileEditMode.content
         FileEditMode.mode].
    rewrite (IH Hls). now rewrite <- app_assoc.
Qed.

(** X14: a session of [/write]: from the command to [/save], every line
    is taken as content, commands like [/exit] included, and [/save] calls
    [write_file] once, with the lines joined by newlines; the configuration
    and the history are as before and the edit mode is left. *)
Theorem write_session
    (strerror : errno -> string -> string)
    (os_stat : world -> string -> M (nat * string))
    (refuses : syscall -> world -> string -> option exn)
    (fnmatch : string -> string -> bool)
    (stored : Type) (save_config : configuration -> stored -> stored)
    (create : value -> value -> list Msg.t -> string + list (option string))
    (print_tree : world -> string -> string)
    (s : state stored) (line arg : string) (ls : list string) :
  FileEditMode.active (file_edit_mode s) = false ->
  PyStr.strip line = "/write " ++ arg ->
  forallb is_content ls = true ->
  loop strerror os_stat refuses fnmatch stored save_config create print_tree
    s (line :: ls ++ ["/save"])
  = Some (mkState
            (snd (write_file strerror (host s) (PyStr.strip arg)
                    (PyText.join NL ls)))
            (config_file s) (config s)
            (FileEditMode.mk false None [] None) (messages s)).
Proof.
  intros Hedit Hcmd Hls. cbn [loop]. unfold loop_body at 1.
  rewrite Hedit, Hcmd.
  cbn [append String.eqb Ascii.eqb Bool.eqb orb PyStr.startswith andb
       PyText.slice_from].
  unfold with_edit.
  rewrite (loop_edit_lines strerror os_stat refuses fnmatch stored save_config
    create
             print_tree _ _ _ _ _ _ ls Hls).
  cbn [app loop]. unfold loop_body.
  cbn [file_edit_mode FileEditMode.active FileEditMode.file_path
       FileEditMode.content host config_file config messages].
  replace (PyStr.strip "/save" =? "/save") with true by reflexivity.
  destruct (write_file _ _ _ _) as [result w']. reflexivity.
Qed.

Lemma write_session_witness :
  loop Samples.strerror Samples.os_stat Samples.refuses
      Fnmatch.fnmatchcase
    (option configuration) Samples.save_config Samples.create
    Samples.print_tree
    (initial (option configuration) Examples.w_mixed None DEFAULT_CONFIG)
    ("/write  notes.txt " :: ["first"; "  /exit"; "/quit "] ++ ["/save"])
  = Some (mkState
            (snd (write_file Samples.strerror Examples.w_mixed
                    (PyStr.strip " notes.txt")
                    (PyText.join NL ["first"; "  /exit"; "/quit "])))
            None DEFAULT_CONFIG
            (FileEditMode.mk false None [] None)
            (messages
               (initial (option configuration) Examples.w_mixed None
                  DEFAULT_CONFIG))).
Proof.
  apply (write_session Samples.strerror Samples.os_stat Samples.refuses
      Fnmatch.fnmatchcase
           (option configuration) Samples.save_config Samples.create
           Samples.print_tree
           (initial (option configuration) Examples.w_mixed None
              DEFAULT_CONFIG)
           "/write  notes.txt " " notes.txt" ["first"; "  /exit"; "/quit "]);
    reflexivity.
Defined.

(** X15: a session of [/write], or of [/append] on a file that can be
    read, that ends with [/cancel] changes nothing: started in the state in
    which [main] enters its loop, or after a session that left the edit
    mode, it leads back to the same state, whatever was entered in
    between. *)
Theorem cancelled_session_changes_nothing
    (strerror : errno -> string -> string)
    (os_stat : world -> string -> M (nat * string))
    (refuses : syscall -> world -> string -> option exn)
    (fnmatch : string -> string -> bool)
    (stored : Type) (save_config : configuration -> stored -> stored)
    (create : value -> value -> list Msg.t -> string + list (option string))
    (print_tree : world -> string -> string)
    (s : state stored) (line arg : string) (ls : list string) :
  file_edit_mode s = FileEditMode.mk false None [] None ->
  PyStr.strip line = "/write " ++ arg
  \/ (PyStr.strip line = "/append " ++ arg
      /\ exists at_path text,
           read_file strerror (host s) (PyStr.strip arg)
           = OkContent at_path text) ->
  forallb is_content ls = true ->
  loop strerror os_stat refuses fnmatch stored save_config create print_tree
    s (line :: ls ++ ["/cancel"])
  = Some s.
Proof.
  intros Hedit Hcmd Hls. cbn [loop]. unfold loop_body at 1.
  rewrite Hedit. cbn [FileEditMode.active].
  assert (Hs : mkState (host s) (config_file s) (config s)
                 (FileEditMode.mk false None [] None) (messages s) = s)
    by (destruct s; cbn in *; now subst).
  assert (Hcancel : forall file_path content mode,
            loop strerror os_stat refuses fnmatch stored save_config create
              print_tree
              (mkState (host s) (config_file s) (config s)
                 (FileEditMode.mk true file_path content mode) (messages s))
              (ls ++ ["/cancel"])
            = Some s).
  { intros file_path content mode.
    rewrite (loop_edit_lines strerror os_stat refuses fnmatch stored save_config
               create print_tree _ _ _ _ _ _ ls Hls).
    cbn [app loop]. unfold loop_body.
    cbn [file_edit_mode FileEditMode.active].
    replace (PyStr.strip "/cancel" =? "/save") with false by reflexivity.
    replace (PyStr.strip "/cancel" =? "/cancel") with true by reflexivity.
    unfold with_edit, FileEditMode.reset.
    cbn [host config_file config messages]. now rewrite Hs. }
  destruct Hcmd as [Hcmd|[Hcmd (at_path & text & Hread)]]; rewrite Hcmd;
    cbn [append String.eqb Ascii.eqb Bool.eqb orb PyStr.startswith andb
         PyText.slice_from].
  - unfold with_edit. apply Hcancel.
  - rewrite Hread. unfold with_edit. apply Hcancel.
Qed.

Lemma cancelled_session_changes_nothing_witness :
  loop Samples.strerror Samples.os_stat Samples.refuses
      Fnmatch.fnmatchcase
    (option configuration) Samples.save_config Samples.create
    Samples.print_tree
    (initial (option configuration) Examples.w_mixed None DEFAULT_CONFIG)
    ("/append a.txt" :: ["more"; "/help"] ++ ["/cancel"])
  = Some (initial (option configuration) Examples.w_mixed None
            DEFAULT_CONFIG).
Proof.
  apply (cancelled_session_changes_nothing Samples.strerror Samples.os_stat
    Samples.refuses
           Fnmatch.fnmatchcase (option configuration) Samples.save_config
           Samples.create Samples.print_tree
           (initial (option configuration) Examples.w_mixed None
              DEFAULT_CONFIG)
           "/append a.txt" "a.txt" ["more"; "/help"]).
  - reflexivity.
  - right. split; [reflexivity|]. exists "/w/a.txt", "hello". reflexivity.
  - reflexivity.
Defined.

Lemma splitlines_line (l rest : string) :
  one_line l = true ->
  PyText.splitlines (l ++ String "010" rest) = l :: PyText.splitlines rest.
Proof.
  intros Hl. induction l as [|c l IH].
  - cbn [append PyText.splitlines].
    replace (PyText.linebreak "010") with true by reflexivity.
    destruct rest as [|c' rest']; [reflexivity|].
    replace (Ascii.eqb "010" "013") with false by reflexivity.
    reflexivity.
  - cbn [one_line] in Hl. apply andb_true_iff in Hl as [Hc Hl].
    apply negb_true_iff in Hc.
    cbn [append PyText.splitlines]. rewrite Hc, (IH Hl). reflexivity.
Qed.

(** The lines of a text that ends with a newline. *)
Lemma splitlines_join (ls : list string) :
  ls <> [] -> forallb one_line ls = true ->
  PyText.splitlines (PyText.join NL ls ++ NL) = ls.
Proof.
  induction ls as [|l ls IH]; [congruence|]. intros _ Hls.
  cbn [forallb] in Hls. apply andb_true_iff in Hls as [Hl Hls].
  destruct ls as [|l2 ls].
  - cbn [PyText.join]. unfold NL. now rewrite splitlines_line.
  - change (PyText.join NL (l :: l2 :: ls))
      with (l ++ NL ++ PyText.join NL (l2 :: ls)).
    rewrite !append_assoc. unfold NL at 1. cbn [append].
    rewrite splitlines_line by exact Hl.
    rewrite IH; [reflexivity|discriminate|exact Hls].
Qed.

(** X16: a session of [/append] on a file that can be read: [/save] calls
    [write_file] once with the lines of the file, as [str.splitlines]
    gives them, followed by the lines entered, joined by newlines.  For a
    file made of lines that each end with a newline, the lines are those
    lines: the file is written again without its final newline, even when
    no line is entered. *)
Theorem append_session
    (strerror : errno -> string -> string)
    (os_stat : world -> string -> M (nat * string))
    (refuses : syscall -> world -> string -> option exn)
    (fnmatch : string -> string -> bool)
    (stored : Type) (save_config : configuration -> stored -> stored)
    (create : value -> value -> list Msg.t -> string + list (option string))
    (print_tree : world -> string -> string)
    (s : state stored) (line arg at_path old : string) (ls : list string) :
  FileEditMode.active (file_edit_mode s) = false ->
  PyStr.strip line = "/append " ++ arg ->
  read_file strerror (host s) (PyStr.strip arg) = OkContent at_path old ->
  forallb is_content ls = true ->
  loop strerror os_stat refuses fnmatch stored save_config create print_tree
    s (line :: ls ++ ["/save"])
  = Some (mkState
            (snd (write_file strerror (host s) (PyStr.strip arg)
                    (PyText.join NL (PyText.splitlines old ++ ls))))
            (config_file s) (config s)
            (FileEditMode.mk false None [] None) (messages s))
  /\ forall old_lines,
       old_lines <> [] -> forallb one_line old_lines = true ->
       old = PyText.join NL old_lines ++ NL ->
       PyText.splitlines old = old_lines.
Proof.
  intros Hedit Hcmd Hread Hls. split.
  - cbn [loop]. unfold loop_body at 1.
    rewrite Hedit, Hcmd.
    cbn [append String.eqb Ascii.eqb Bool.eqb orb PyStr.startswith andb
         PyText.slice_from].
    rewrite Hread. unfold with_edit.
    rewrite (loop_edit_lines strerror os_stat refuses fnmatch stored save_config
               create print_tree _ _ _ _ _ _ ls Hls).
    cbn [app loop]. unfold loop_body.
    cbn [file_edit_mode FileEditMode.active FileEditMode.file_path
         FileEditMode.content host config_file config messages].
    replace (PyStr.strip "/save" =? "/save") with true by reflexivity.
    destruct (write_file _ _ _ _) as [result w']. reflexivity.
  - intros old_lines Hne Hone ->. now apply splitlines_join.
Qed.

Lemma append_session_witness :
  loop Samples.strerror Samples.os_stat Samples.refuses
      Fnmatch.fnmatchcase
    (option configuration) Samples.save_config Samples.create
    Samples.print_tree
    (initial (option configuration) Examples.w_nested_gitignore None
       DEFAULT_CONFIG)
    ("/append sub/x.txt" :: ["more"] ++ ["/save"])
  = Some (mkState
            (snd (write_file Samples.strerror Examples.w_nested_gitignore
                    (PyStr.strip "sub/x.txt")
                    (PyText.join NL (PyText.splitlines "kept" ++ ["more"]))))
            None DEFAULT_CONFIG
            (FileEditMode.mk false None [] None)
            (messages
               (initial (option configuration) Examples.w_nested_gitignore
                  None DEFAULT_CONFIG))).
Proof.
  apply (append_session Samples.strerror Samples.os_stat Samples.refuses
      Fnmatch.fnmatchcase
           (option configuration) Samples.save_config Samples.create
           Samples.print_tree
           (initial (option configuration) Examples.w_nested_gitignore None
              DEFAULT_CONFIG)
           "/append sub/x.txt" "sub/x.txt" "/w/sub/x.txt" "kept" ["more"]);
    reflexivity.
Defined.

(** ** The order of a listing *)

Lemma ascii_compare_nat (a b : ascii) :
  Ascii.compare a b = Nat.compare (nat_of_ascii a) (nat_of_ascii b).
Proof.
  unfold Ascii.compare, nat_of_ascii.
  now rewrite Nnat.N2Nat.inj_compare.
Qed.

Lemma ascii_compare_eq (a b : ascii) : Ascii.compare a b = Eq -> a = b.
Proof. apply Ascii.compare_eq_iff. Qed.

Lemma ascii_compare_refl (a : ascii) : Ascii.compare a a = Eq.
Proof. rewrite ascii_compare_nat. apply Nat.compare_refl. Qed.

Lemma string_compare_trans (c : comparison) (s1 s2 s3 : string) :
  String.compare s1 s2 = c -> String.compare s2 s3 = c ->
  String.compare s1 s3 = c.
Proof.
  revert s2 s3. induction s1 as [|a1 s1 IH]; intros [|a2 s2] [|a3 s3];
    cbn [String.compare]; try congruence.
  rewrite !ascii_compare_nat.
  destruct (Nat.compare_spec (nat_of_ascii a1) (nat_of_ascii a2)) as [E|L|G];
    destruct (Nat.compare_spec (nat_of_ascii a2) (nat_of_ascii a3))
      as [E'|L'|G'];
    destruct (Nat.compare_spec (nat_of_ascii a1) (nat_of_ascii a3))
      as [E''|L''|G''];
    try lia; try congruence.
  apply IH.
Qed.

Lemma string_leb_trans (s1 s2 s3 : string) :
  String.leb s1 s2 = true -> String.leb s2 s3 = true ->
  String.leb s1 s3 = true.
Proof.
  unfold String.leb.
  destruct (String.compare s1 s2) eqn:E12; try discriminate;
    destruct (String.compare s2 s3) eqn:E23; try discriminate; intros _ _.
  - now rewrite (string_compare_trans Eq _ _ _ E12 E23).
  - apply String.compare_eq_iff in E12. subst. now rewrite E23.
  - apply String.compare_eq_iff in E23. subst. now rewrite E12.
  - now rewrite (string_compare_trans Lt _ _ _ E12 E23).
Qed.

Lemma key_le_total (a b : bool * string) :
  key_le a b = true \/ key_le b a = true.
Proof.
  unfold key_le. destruct a as [[|] x], b as [[|] y]; cbn [fst snd]; auto;
    apply String.leb_total.
Qed.

Lemma key_le_trans (a b c : bool * string) :
  key_le a b = true -> key_le b c = true -> key_le a c = true.
Proof.
  unfold key_le. destruct a as [[|] x], b as [[|] y], c as [[|] z];
    cbn [fst snd]; try discriminate; auto; apply string_leb_trans.
Qed.

Lemma insert_sorted_perm {A : Type} (le : A -> A -> bool) (x : A)
    (l : list A) :
  Permutation (x :: l) (insert_sorted le x l).
Proof.
  induction l as [|y l IH]; cbn [insert_sorted]; [reflexivity|].
  destruct (le x y); [reflexivity|].
  rewrite perm_swap. now apply perm_skip.
Qed.

Lemma sort_by_perm {A : Type} (le : A -> A -> bool) (l : list A) :
  Permutation l (sort_by le l).
Proof.
  induction l as [|x l IH]; [reflexivity|].
  cbn [sort_by fold_right]. fold (sort_by le l).
  rewrite <- insert_sorted_perm. now apply perm_skip.
Qed.

Lemma insert_sorted_sorted {A : Type} (le : A -> A -> bool) (x : A)
    (l : list A) :
  (forall a b, le a b = true \/ le b a = true) ->
  (forall a b c, le a b = true -> le b c = true -> le a c = true) ->
  StronglySorted (fun a b => le a b = true) l ->
  StronglySorted (fun a b => le a b = true) (insert_sorted le x l).
Proof.
  intros Htot Htrans Hs. induction Hs as [|y l Hs IH Hy].
  - cbn. constructor; constructor.
  - cbn [insert_sorted]. destruct (le x y) eqn:E.
    + constructor; [now constructor|].
      constructor; [exact E|].
      rewrite Forall_forall in Hy |- *. intros z Hz.
      exact (Htrans _ _ _ E (Hy z Hz)).
    + constructor; [exact IH|].
      apply (Permutation_Forall (insert_sorted_perm le x l)).
      constructor; [|exact Hy].
      destruct (Htot x y) as [H|H]; [congruence|exact H].
Qed.

Lemma sort_by_sorted {A : Type} (le : A -> A -> bool) (l : list A) :
  (forall a b, le a b = true \/ le b a = true) ->
  (forall a b c, le a b = true -> le b c = true -> le a c = true) ->
  StronglySorted (fun a b => le a b = true) (sort_by le l).
Proof.
  intros Htot Htrans. induction l as [|x l IH]; [constructor|].
  cbn [sort_by fold_right]. now apply insert_sorted_sorted.
Qed.

Lemma StronglySorted_after {A : Type} (R : A -> A -> Prop)
    (before after : list A) (x : A) :
  StronglySorted R (before ++ x :: after) -> Forall (R x) after.
Proof.
  induction before as [|b before IH]; cbn [app]; intros H.
  - now apply StronglySorted_inv in H as [_ H].
  - apply StronglySorted_inv in H as [H _]. now apply IH.
Qed.

(** X17: the listing that [/ls] adds to the history holds one line for
    each entry [list_directory] returns, no more and no less, in the order
    of the sort: the directories come before the other entries, each group
    by the lower-case names; the first line of the listing bears the color
    codes of the terminal. *)
Theorem ls_listing_sorted
    (strerror : errno -> string -> string)
    (os_stat : world -> string -> M (nat * string))
    (refuses : syscall -> world -> string -> option exn)
    (fnmatch : string -> string -> bool)
    (stored : Type) (save_config : configuration -> stored -> stored)
    (create : value -> value -> list Msg.t -> string + list (option string))
    (print_tree : world -> string -> string)
    (s : state stored) (line rest at_path : string) (files : list listed) :
  FileEditMode.active (file_edit_mode s) = false ->
  PyStr.strip line = "/ls" ++ rest ->
  list_directory strerror os_stat refuses (host s)
    match PyText.split_maxsplit1 ("/ls" ++ rest) with
    | _ :: arg :: _ => arg
    | _ => "."
    end
  = OkFiles at_path files ->
  exists sorted,
    loop_body strerror os_stat refuses fnmatch stored save_config create
      print_tree
      s line
    = Next (append_messages stored s
              [Msg.mk "user"
                 ("Directory listing for " ++ at_path ++ ":" ++ NL
                  ++ PyText.join NL
                       (Color.green ("Contents of: " ++ at_path)
                        :: map ls_line sorted))])
    /\ Permutation files sorted
    /\ StronglySorted ls_le sorted
    /\ forall before x after,
         sorted = (before ++ x :: after)%list -> is_directory x = false ->
         Forall (fun y => is_directory y = false) after.
Proof.
  intros Hedit Hcmd Hls.
  exists (sort_by (fun x y => key_le (ls_key x) (ls_key y)) files).
  assert (Hsorted : StronglySorted ls_le
                      (sort_by (fun x y => key_le (ls_key x) (ls_key y))
                         files)).
  { apply (sort_by_sorted (fun x y => key_le (ls_key x) (ls_key y))).
    - intros a b. apply key_le_total.
    - intros a b c. apply key_le_trans. }
  split; [|split; [apply sort_by_perm|split; [exact Hsorted|]]].
  - unfold loop_body. rewrite Hedit, Hcmd.
    cbn [append String.eqb Ascii.eqb Bool.eqb orb PyStr.startswith andb].
    unfold handle_ls. cbn [append] in Hls. now rewrite Hls.
  - intros before x after Heq Hx. rewrite Heq in Hsorted.
    apply StronglySorted_after in Hsorted.
    eapply Forall_impl; [|exact Hsorted].
    intros y Hxy. unfold ls_le, key_le in Hxy.
    destruct x as [nx [|] sx mx|nx ex]; [discriminate Hx| |];
      destruct y as [ny [|] sy my|ny ey]; cbn in Hxy |- *;
      congruence.
Qed.

Lemma ls_listing_sorted_witness :
  exists sorted,
    loop_body Samples.strerror Samples.os_stat Samples.refuses
      Fnmatch.fnmatchcase
      (option configuration) Samples.save_config Samples.create
      Samples.print_tree
      (initial (option configuration) Examples.w_mixed None DEFAULT_CONFIG)
      "/ls src"
    = Next (append_messages (option configuration)
              (initial (option configuration) Examples.w_mixed None
                 DEFAULT_CONFIG)
              [Msg.mk "user"
                 ("Directory listing for " ++ "/w/src" ++ ":" ++ NL
                  ++ PyText.join NL
                       (Color.green ("Contents of: " ++ "/w/src")
                        :: map ls_line sorted))])
    /\ Permutation
         [Listed "main.py" false 0 "2024-01-01T00:00:00";
          Listed "setup.py" false 0 "2024-01-01T00:00:00";
          Listed "notes.env.bak" false 0 "2024-01-01T00:00:00";
          Listed "lib" true 0 "2024-01-01T00:00:00"]
         sorted
    /\ StronglySorted ls_le sorted
    /\ forall before x after,
         sorted = (before ++ x :: after)%list -> is_directory x = false ->
         Forall (fun y => is_directory y = false) after.
Proof.
  apply (ls_listing_sorted Samples.strerror Samples.os_stat Samples.refuses
           Fnmatch.fnmatchcase (option configuration) Samples.save_config
           Samples.create Samples.print_tree
           (initial (option configuration) Examples.w_mixed None
              DEFAULT_CONFIG)
           "/ls src" " src" "/w/src");
    reflexivity.
Defined.

(** ** What every session keeps *)

(** A property of the host that the three operations that change it keep
    is kept by one turn of the loop. *)
Lemma loop_body_host
    (strerror : errno -> string -> string)
    (os_stat : world -> string -> M (nat * string))
    (refuses : syscall -> world -> string -> option exn)
    (fnmatch : string -> string -> bool)
    (stored : Type) (save_config : configuration -> stored -> stored)
    (create : value -> value -> list Msg.t -> string + list (option string))
    (print_tree : world -> string -> string)
    (P : world -> Prop) (s : state stored) (line : string) :
  (forall w file_path content,
     P w -> P (snd (write_file strerror w file_path content))) ->
  (forall w dir_path, P w -> P (snd (make_directory strerror w dir_path))) ->
  (forall w dir_path,
     P w -> P (snd (change_directory strerror refuses w dir_path))) ->
  P (host s) ->
  match loop_body strerror os_stat refuses fnmatch stored save_config create
          print_tree s line with
  | Next s' => P (host s')
  | Break s' => P (host s')
  | Fatal => True
  end.
Proof.
  intros Hwrite Hmkdir Hcd Hs.
  unfold loop_body, handle_context, handle_ls, handle_tree,
    handle_ls_printed, handle_tree_printed.
  destruct (FileEditMode.active (file_edit_mode s)).
  { destruct (PyStr.strip line =? "/save").
    - destruct (FileEditMode.file_path (file_edit_mode s)) as [file_path|];
        [|exact Hs].
      specialize (Hwrite (host s) file_path
                    (PyText.join NL (FileEditMode.content (file_edit_mode s)))
                    Hs).
      now destruct (write_file _ _ _ _).
    - destruct (PyStr.strip line =? "/cancel"); exact Hs. }
  destruct ((PyStr.strip line =? "/exit") || (PyStr.strip line =? "/quit"));
    [exact Hs|].
  destruct (PyStr.startswith "/config" (PyStr.strip line)).
  { destruct (PyText.split_whitespace (PyStr.strip line))
      as [|w0 [|command args]]; [exact I|exact Hs|].
    destruct (command =? "list"); [exact Hs|].
    destruct (command =? "show"); [exact Hs|].
    destruct args as [|key [|v vs]]; try exact Hs.
    destruct (command =? "set"); [|exact Hs].
    now destruct (set_active_config _ _ _ _ _ _) as [[ok config'] file']. }
  destruct (PyStr.strip line =? "/help"); [exact Hs|].
  destruct ((PyStr.strip line =? "/pwd") || (PyStr.strip line =? "/cwd"));
    [exact Hs|].
  destruct (PyStr.startswith "/cd " (PyStr.strip line)).
  { specialize (Hcd (host s)
                  (PyStr.strip (PyText.slice_from 4 (PyStr.strip line))) Hs).
    destruct (change_directory _ _ _ _) as [[at_path|at_path text|error] w'];
      try exact Hs; destruct (messages s); try exact I; exact Hcd. }
  destruct (PyStr.startswith "/mkdir " (PyStr.strip line)).
  { specialize (Hmkdir (host s)
                  (PyStr.strip (PyText.slice_from 7 (PyStr.strip line))) Hs).
    now destruct (make_directory _ _ _). }
  destruct (PyStr.startswith "/cat " (PyStr.strip line)); [exact Hs|].
  destruct (PyStr.startswith "/write " (PyStr.strip line)); [exact Hs|].
  destruct (PyStr.startswith "/append " (PyStr.strip line)).
  { now destruct (read_file _ _ _). }
  destruct (PyStr.startswith "/context" (PyStr.strip line)
            || PyStr.startswith "/#" (PyStr.strip line)).
  { now destruct (get_workspace_context _ _ _). }
  destruct (PyStr.startswith "/ls" (PyStr.strip line)).
  { now destruct (list_directory _ _ _ _ _). }
  destruct (PyStr.startswith "/tree" (PyStr.strip line)); [exact Hs|].
  now destruct (call_api _ _ _).
Qed.

Lemma loop_host
    (strerror : errno -> string -> string)
    (os_stat : world -> string -> M (nat * string))
    (refuses : syscall -> world -> string -> option exn)
    (fnmatch : string -> string -> bool)
    (stored : Type) (save_config : configuration -> stored -> stored)
    (create : value -> value -> list Msg.t -> string + list (option string))
    (print_tree : world -> string -> string)
    (P : world -> Prop) (lines : list string) :
  (forall w file_path content,
     P w -> P (snd (write_file strerror w file_path content))) ->
  (forall w dir_path, P w -> P (snd (make_directory strerror w dir_path))) ->
  (forall w dir_path,
     P w -> P (snd (change_directory strerror refuses w dir_path))) ->
  forall s s',
    P (host s) ->
    loop strerror os_stat refuses fnmatch stored save_config create print_tree
      s lines = Some s' ->
    P (host s').
Proof.
  intros Hwrite Hmkdir Hcd.
  induction lines as [|line lines IH]; intros s s' Hs Hl.
  - cbn in Hl. now injection Hl as <-.
  - cbn [loop] in Hl.
    pose proof (loop_body_host strerror os_stat refuses fnmatch stored
      save_config
                  create print_tree P s line Hwrite Hmkdir Hcd Hs) as Hb.
    destruct (loop_body _ _ _ _ _ _ _ _ s line) as [s1|s1|].
    + exact (IH s1 s' Hb Hl).
    + now injection Hl as <-.
    + discriminate Hl.
Qed.

(** *** Well-formed trees *)

Lemma nodupb_app_new (l : list string) (c : string) :
  nodupb l = true -> ~ In c l -> nodupb (l ++ [c]) = true.
Proof.
  induction l as [|a l IH]; cbn [nodupb app existsb]; [reflexivity|].
  intros H Hnot. apply andb_true_iff in H as [Ha Hl].
  rewrite (IH Hl) by (intros Hin; apply Hnot; now right).
  rewrite andb_true_r.
  apply negb_true_iff in Ha. apply negb_true_iff.
  rewrite existsb_app, Ha. cbn.
  rewrite orb_false_r. apply String.eqb_neq. intros ->. apply Hnot. now left.
Qed.

Lemma wf_node_setitem (c : string) (child : node)
    (children : list (string * node)) :
  clean c = true -> wf_node child = true ->
  wf_node (Dir children) = true ->
  wf_node (Dir (setitem c child children)) = true.
Proof.
  intros Hc Hchild Hwf. cbn [wf_node] in Hwf |- *.
  apply andb_true_iff in Hwf as [Hwf Hall].
  apply andb_true_iff in Hwf as [Hclean Hnd].
  assert (Hforall : forallb (fun x => wf_node (snd x)) (setitem c child
    children)
                    = true).
  { clear Hclean Hnd. induction children as [|[k0 n0] children IH].
    - cbn. now rewrite Hchild.
    - cbn [forallb snd] in Hall. apply andb_true_iff in Hall as [H0 Hall].
      cbn [setitem]. destruct (k0 =? c); cbn [forallb snd].
      + now rewrite Hchild, Hall.
      + now rewrite H0, IH. }
  rewrite Hforall, andb_true_r.
  destruct (assoc c children) as [old|] eqn:E.
  - rewrite (map_fst_setitem_in c child old children E).
    now rewrite Hclean, Hnd.
  - rewrite (map_fst_setitem_new c child children E).
    rewrite forallb_app, Hclean. cbn [forallb]. rewrite Hc. cbn [andb].
    apply nodupb_app_new; [exact Hnd|]. now apply assoc_None_not_In.
Qed.

Lemma assoc_wf (c : string) (children : list (string * node)) (child : node) :
  wf_node (Dir children) = true -> assoc c children = Some child ->
  wf_node child = true.
Proof.
  intros Hwf E. apply wf_node_Dir in Hwf as (_ & _ & Hall).
  rewrite Forall_forall in Hall. exact (Hall _ (assoc_In _ _ _ E)).
Qed.

Lemma mkdir_p_wf (strerror : errno -> string -> string) (cs : list string)
    (prefix : string) (n n' : node) :
  clean_all cs -> wf_node n = true ->
  mkdir_p strerror prefix cs n = inr n' -> wf_node n' = true.
Proof.
  intros Hcs. revert prefix n n'.
  induction Hcs as [|c cs Hc _ IH]; intros prefix n n' Hwf H.
  - cbn in H. destruct n; [discriminate|]. now injection H as <-.
  - cbn [mkdir_p] in H. destruct n as [data|children]; [discriminate|].
    destruct (mkdir_p _ _ cs _) as [|child'] eqn:E; [discriminate|].
    cbn [bind] in H. injection H as <-.
    apply wf_node_setitem; [exact Hc| |exact Hwf].
    refine (IH _ _ _ _ E).
    destruct (assoc c children) as [child|] eqn:Ec; [|reflexivity].
    exact (assoc_wf _ _ _ Hwf Ec).
Qed.

Lemma write_at_wf (strerror : errno -> string -> string) (p : string)
    (cs : list string) (text : string) (n n' : node) :
  clean_all cs -> wf_node n = true ->
  write_at strerror p cs text n = inr n' -> wf_node n' = true.
Proof.
  intros Hcs. revert n n'.
  induction Hcs as [|c cs Hc Hcs IH]; intros n n' Hwf H; [discriminate|].
  destruct n as [data|children]; [cbn in H; discriminate|].
  destruct cs as [|c1 cs].
  - cbn [write_at] in H.
    assert (n' = Dir (setitem c (File (inr (universal_newlines text)))
                        children)) as ->.
    { destruct (assoc c children) as [[[[msg|msg]|t]|ch]|];
        cbv [ret raise os_error] in H; congruence. }
    now apply wf_node_setitem.
  - rewrite write_at_cons_Dir in H by discriminate.
    destruct (assoc c children) as [child|] eqn:Ec; [|discriminate].
    destruct (write_at _ _ _ _ child) as [|child'] eqn:E; [discriminate|].
    cbn [bind] in H. injection H as <-.
    apply wf_node_setitem; [exact Hc| |exact Hwf].
    exact (IH _ _ (assoc_wf _ _ _ Hwf Ec) E).
Qed.

Lemma wf_world_cwd (w : world) :
  wf_world w = true -> posixpath.isabs (getcwd w) = true.
Proof. unfold wf_world. intros H. now apply andb_true_iff in H as [H _]. Qed.

Lemma wf_world_root (w : world) :
  wf_world w = true -> wf_node (fsroot w) = true.
Proof. unfold wf_world. intros H. now apply andb_true_iff in H as [_ H]. Qed.

Lemma write_file_wf (strerror : errno -> string -> string) (w : world)
    (file_path content : string) :
  wf_world w = true ->
  wf_world (snd (write_file strerror w file_path content)) = true.
Proof.
  intros Hwf. pose proof (wf_world_cwd _ Hwf) as Hcwd.
  pose proof (wf_world_root _ Hwf) as Hroot.
  destruct (full_path_shape w file_path Hcwd) as (k & comps & Hk & Hc & Hfull).
  rewrite (write_file_spec strerror w file_path content k comps Hk Hc Hfull).
  destruct (mkdir_p _ _ _ _) as [e|n1] eqn:Em; [exact Hwf|].
  pose proof (mkdir_p_wf _ _ _ _ _ (Forall_removelast _ _ Hc) Hroot Em) as H1.
  destruct (write_at _ _ _ _ n1) as [e|n2] eqn:E; cbn [snd]; unfold wf_world;
    cbn [getcwd fsroot]; rewrite Hcwd; cbn [andb]; [exact H1|].
  exact (write_at_wf _ _ _ _ _ _ Hc H1 E).
Qed.

Lemma make_directory_wf (strerror : errno -> string -> string) (w : world)
    (dir_path : string) :
  wf_world w = true ->
  wf_world (snd (make_directory strerror w dir_path)) = true.
Proof.
  intros Hwf. pose proof (wf_world_cwd _ Hwf) as Hcwd.
  pose proof (wf_world_root _ Hwf) as Hroot.
  destruct (full_path_shape w dir_path Hcwd) as (k & comps & Hk & Hc & Hfull).
  rewrite (make_directory_spec strerror w dir_path k comps Hk Hc Hfull).
  destruct (mkdir_p _ _ _ _) as [e|n1] eqn:Em; [exact Hwf|].
  cbn [snd]. unfold wf_world. cbn [getcwd fsroot]. rewrite Hcwd. cbn [andb].
  exact (mkdir_p_wf _ _ _ _ _ Hc Hroot Em).
Qed.

Lemma change_directory_wf (strerror : errno -> string -> string)
    (refuses : syscall -> world -> string -> option exn) (w : world)
    (dir_path : string) :
  wf_world w = true ->
  wf_world (snd (change_directory strerror refuses w dir_path)) = true.
Proof.
  intros Hwf. unfold change_directory, os_chdir.
  destruct (negb (os_path_isdir _ _)); [exact Hwf|].
  destruct (refuses Chdir w _); [exact Hwf|].
  destruct (walk_to _ (fsroot w)) as [e|[d|ch]]; try exact Hwf.
  cbn [snd ret]. unfold wf_world. cbn [getcwd fsroot].
  exact (wf_world_root _ Hwf).
Qed.

(** X18: every session keeps the filesystem well formed and the working
    directory absolute, so that what is proved of the collector on a
    well-formed filesystem holds at every turn of the loop. *)
Theorem session_keeps_well_formed
    (strerror : errno -> string -> string)
    (os_stat : world -> string -> M (nat * string))
    (refuses : syscall -> world -> string -> option exn)
    (fnmatch : string -> string -> bool)
    (stored : Type) (save_config : configuration -> stored -> stored)
    (create : value -> value -> list Msg.t -> string + list (option string))
    (print_tree : world -> string -> string)
    (s s' : state stored) (lines : list string) :
  wf_world (host s) = true ->
  loop strerror os_stat refuses fnmatch stored save_config create print_tree
    s lines = Some s' ->
  wf_world (host s') = true.
Proof.
  apply (loop_host strerror os_stat refuses fnmatch stored save_config create
           print_tree (fun w => wf_world w = true)).
  - intros w file_path content. apply write_file_wf.
  - intros w dir_path. apply make_directory_wf.
  - intros w dir_path. apply change_directory_wf.
Qed.

Lemma session_keeps_well_formed_witness :
  wf_world
    (snd (write_file Samples.strerror
            (snd (change_directory Samples.strerror Samples.refuses
                    (snd (make_directory Samples.strerror Examples.w_mixed
                            "docs"))
                    "docs"))
            "readme.md" "text"))
  = true.
Proof.
  apply (session_keeps_well_formed Samples.strerror Samples.os_stat
           Samples.refuses
           Fnmatch.fnmatchcase (option configuration) Samples.save_config
           Samples.create Samples.print_tree
           (initial (option configuration) Examples.w_mixed None
              DEFAULT_CONFIG)
           (mkState
              (snd (write_file Samples.strerror
                      (snd (change_directory Samples.strerror Samples.refuses
                              (snd (make_directory Samples.strerror
                                      Examples.w_mixed "docs"))
                              "docs"))
                      "readme.md" "text"))
              None DEFAULT_CONFIG (FileEditMode.mk false None [] None)
              [Msg.mk "system" (system_content "/w/docs")])
           ["/mkdir docs"; "/cd docs"; "/write readme.md"; "text"; "/save"]);
    reflexivity.
Defined.

(** *** Nothing is removed *)

Lemma kinds_kept_refl (n : node) : kinds_kept n n.
Proof. intros q x H. now exists x. Qed.

Lemma kinds_kept_trans (n1 n2 n3 : node) :
  kinds_kept n1 n2 -> kinds_kept n2 n3 -> kinds_kept n1 n3.
Proof.
  intros H12 H23 q x H. destruct (H12 q x H) as (x2 & H2 & E2).
  destruct (H23 q x2 H2) as (x3 & H3 & E3). exists x3. split; congruence.
Qed.

(** [open] for writing succeeds on no directory. *)
Lemma write_at_target (strerror : errno -> string -> string) (p : string)
    (cs : list string) (text : string) (n n' x : node) :
  write_at strerror p cs text n = inr n' ->
  walk_to cs n = inr x -> is_dir x = false.
Proof.
  revert n n'. induction cs as [|c cs IH]; intros n n' H Hx; [discriminate|].
  destruct n as [data|children]; [cbn in H; discriminate|].
  cbn [walk_to] in Hx.
  destruct (assoc c children) as [child|] eqn:Ec; [|discriminate].
  destruct cs as [|c1 cs].
  - cbn [write_at] in H. rewrite Ec in H. cbn in Hx. injection Hx as <-.
    destruct child as [data|ch]; [reflexivity|discriminate].
  - rewrite write_at_cons_Dir in H by discriminate. rewrite Ec in H.
    destruct (write_at _ _ _ _ child) as [|child'] eqn:E; [discriminate|].
    exact (IH _ _ E Hx).
Qed.

Lemma write_file_kinds_kept (strerror : errno -> string -> string)
    (w : world) (file_path content : string) :
  posixpath.isabs (getcwd w) = true ->
  kinds_kept (fsroot w)
    (fsroot (snd (write_file strerror w file_path content))).
Proof.
  intros Hcwd.
  destruct (full_path_shape w file_path Hcwd) as (k & comps & Hk & Hc & Hfull).
  rewrite (write_file_spec strerror w file_path content k comps Hk Hc Hfull).
  destruct (mkdir_p _ _ _ _) as [e|n1] eqn:Em; [apply kinds_kept_refl|].
  assert (H1 : kinds_kept (fsroot w) n1).
  { intros q x Hq.
    destruct (mkdir_p_keeps _ _ _ _ _ Em q x Hq) as (x' & Hx' & Hd & _).
    now exists x'. }
  destruct (write_at _ _ _ _ n1) as [e|n2] eqn:E; cbn [snd fsroot];
    [exact H1|].
  apply (kinds_kept_trans _ n1); [exact H1|].
  intros q x Hq. destruct (list_eq_dec string_dec q comps) as [->|Hne].
  - rewrite (write_at_walk _ _ _ _ _ _ E). eexists. split; [reflexivity|].
    symmetry. exact (write_at_target _ _ _ _ _ _ _ E Hq).
  - destruct (write_at_keeps _ _ _ _ _ _ E q x Hne Hq) as (x' & Hx' & Hd & _).
    now exists x'.
Qed.

Lemma make_directory_kinds_kept (strerror : errno -> string -> string)
    (w : world) (dir_path : string) :
  posixpath.isabs (getcwd w) = true ->
  kinds_kept (fsroot w) (fsroot (snd (make_directory strerror w dir_path))).
Proof.
  intros Hcwd.
  destruct (full_path_shape w dir_path Hcwd) as (k & comps & Hk & Hc & Hfull).
  rewrite (make_directory_spec strerror w dir_path k comps Hk Hc Hfull).
  destruct (mkdir_p _ _ _ _) as [e|n1] eqn:Em; [apply kinds_kept_refl|].
  intros q x Hq.
  destruct (mkdir_p_keeps _ _ _ _ _ Em q x Hq) as (x' & Hx' & Hd & _).
  now exists x'.
Qed.

Lemma isabs_change_directory (strerror : errno -> string -> string)
    (refuses : syscall -> world -> string -> option exn) (w : world)
    (dir_path : string) :
  posixpath.isabs (getcwd w) = true ->
  posixpath.isabs
    (getcwd (snd (change_directory strerror refuses w dir_path))) = true.
Proof.
  intros H. unfold change_directory, os_chdir.
  destruct (negb (os_path_isdir _ _)); [exact H|].
  destruct (refuses Chdir w _); [exact H|].
  now destruct (walk_to _ (fsroot w)) as [e|[d|ch]].
Qed.

Lemma fsroot_change_directory (strerror : errno -> string -> string)
    (refuses : syscall -> world -> string -> option exn) (w : world)
    (dir_path : string) :
  fsroot (snd (change_directory strerror refuses w dir_path)) = fsroot w.
Proof.
  unfold change_directory, os_chdir.
  destruct (negb (os_path_isdir _ _)); [reflexivity|].
  destruct (refuses Chdir w _); [reflexivity|].
  now destruct (walk_to _ (fsroot w)) as [e|[d|ch]].
Qed.

(** X19: no session removes anything: a path that names a directory when
    the session starts names a directory when it ends, and a path that
    names a regular file still names a regular file.  The program makes
    directories and files and rewrites files; it has no command that
    deletes or renames. *)
Theorem session_removes_nothing
    (strerror : errno -> string -> string)
    (os_stat : world -> string -> M (nat * string))
    (refuses : syscall -> world -> string -> option exn)
    (fnmatch : string -> string -> bool)
    (stored : Type) (save_config : configuration -> stored -> stored)
    (create : value -> value -> list Msg.t -> string + list (option string))
    (print_tree : world -> string -> string)
    (s s' : state stored) (lines : list string) (p : string) :
  posixpath.isabs (getcwd (host s)) = true ->
  loop strerror os_stat refuses fnmatch stored save_config create print_tree
    s lines = Some s' ->
  (os_path_isdir (host s) p = true -> os_path_isdir (host s') p = true)
  /\ (os_path_isfile (host s) p = true -> os_path_isfile (host s') p = true).
Proof.
  intros Hcwd Hloop.
  assert (H : posixpath.isabs (getcwd (host s')) = true
              /\ kinds_kept (fsroot (host s)) (fsroot (host s'))).
  { apply (loop_host strerror os_stat refuses fnmatch stored save_config create
             print_tree
             (fun w => posixpath.isabs (getcwd w) = true
                       /\ kinds_kept (fsroot (host s)) (fsroot w))
             lines) with (s := s); try assumption.
    - intros w file_path content [Ha Hk]. split.
      + now rewrite getcwd_write_file.
      + apply (kinds_kept_trans _ (fsroot w)); [exact Hk|].
        now apply write_file_kinds_kept.
    - intros w dir_path [Ha Hk]. split.
      + now rewrite getcwd_make_directory.
      + apply (kinds_kept_trans _ (fsroot w)); [exact Hk|].
        now apply make_directory_kinds_kept.
    - intros w dir_path [Ha Hk]. split.
      + now apply isabs_change_directory.
      + now rewrite fsroot_change_directory.
    - split; [exact Hcwd|apply kinds_kept_refl]. }
  destruct H as [_ Hk].
  unfold os_path_isdir, os_path_isfile.
  rewrite !resolve_components, !lookup_walk_to.
  destruct (walk_to (components p) (fsroot (host s))) as [e|x] eqn:Ex.
  { split; discriminate. }
  destruct (Hk _ _ Ex) as (x' & -> & Hd).
  destruct x, x'; cbn in Hd; try discriminate Hd; split; auto.
Qed.

Lemma session_removes_nothing_witness :
  os_path_isfile
    (snd (write_file Samples.strerror Examples.w_mixed "a.txt" "new"))
    "/w/src/main.py" = true.
Proof.
  apply (proj2 (session_removes_nothing Samples.strerror Samples.os_stat
                  Samples.refuses
                  Fnmatch.fnmatchcase (option configuration)
                  Samples.save_config Samples.create Samples.print_tree
                  (initial (option configuration) Examples.w_mixed None
                     DEFAULT_CONFIG)
                  (mkState
                     (snd (write_file Samples.strerror Examples.w_mixed
                             "a.txt" "new"))
                     None DEFAULT_CONFIG (FileEditMode.mk false None [] None)
                     [Msg.mk "system" (system_content "/w")])
                  ["/write a.txt"; "new"; "/save"] "/w/src/main.py"
                  eq_refl eq_refl));
    reflexivity.
Defined.

(** ** Listing a directory, and paths that name nothing *)

Lemma list_directory_spec (strerror : errno -> string -> string)
    (os_stat : world -> string -> M (nat * string))
    (refuses : syscall -> world -> string -> option exn) (w : world)
    (dir_path : string) (k : nat) (comps : list string) :
  (k = 1 \/ k = 2) -> clean_all comps ->
  full_path_of w dir_path = root_at k comps ->
  list_directory strerror os_stat refuses w dir_path
  = match refuses Listdir w (root_at k comps) with
    | Some e => LsError (str e)
    | None =>
        match walk_to comps (fsroot w) with
        | inr (Dir children) =>
            OkFiles (root_at k comps)
              (map (fun entry =>
                      let entry_path :=
                        posixpath.join (root_at k comps) entry in
                      match os_stat w entry_path with
                      | inr (size, modified) =>
                          Listed entry (os_path_isdir w entry_path) size
                            modified
                      | inl e => Unlisted entry (str e)
                      end)
                 (map fst children))
        | inr (File _) => LsError (strerror ENOTDIR (root_at k comps))
        | inl e => LsError (strerror e (root_at k comps))
        end
    end.
Proof.
  intros Hk Hc Hfull. unfold list_directory, os_listdir.
  fold (full_path_of w dir_path). rewrite Hfull.
  rewrite components_root_at by assumption.
  destruct (refuses Listdir w (root_at k comps)); [reflexivity|].
  now destruct (walk_to comps (fsroot w)) as [e|[d|ch]].
Qed.

(** X20: on a well-formed filesystem [list_directory] succeeds exactly on
    the paths that name a directory the host does not refuse to list.  It
    then returns the absolute path and one element for each child of the
    directory, in the order of the listing, under the name of the child;
    an element that bears [isDirectory] bears the kind of its child.  When
    the host refuses the call the error is the message of the host. *)
Theorem list_directory_lists_children
    (strerror : errno -> string -> string)
    (os_stat : world -> string -> M (nat * string))
    (refuses : syscall -> world -> string -> option exn) (w : world)
    (dir_path : string) :
  wf_world w = true ->
  match list_directory strerror os_stat refuses w dir_path with
  | OkFiles at_path files =>
      at_path = full_path_of w dir_path
      /\ os_path_isdir w at_path = true
      /\ refuses Listdir w at_path = None
      /\ exists children,
           resolve w at_path = Some (Dir children)
           /\ map listed_name files = map fst children
           /\ Forall2
                (fun f c =>
                   forall name isDirectory size modified,
                     f = Listed name isDirectory size modified ->
                     isDirectory = is_dir (snd c))
                files children
  | LsError error =>
      match refuses Listdir w (full_path_of w dir_path) with
      | Some e => error = str e
      | None => os_path_isdir w (full_path_of w dir_path) = false
      end
  end.
Proof.
  intros Hwf. assert (Hcwd : posixpath.isabs (getcwd w) = true)
    by (unfold wf_world in Hwf; now apply andb_true_iff in Hwf as [Hwf _]).
  destruct (full_path_shape w dir_path Hcwd) as (k & comps & Hk & Hc & Hfull).
  rewrite (list_directory_spec strerror os_stat refuses w dir_path k comps Hk
             Hc Hfull).
  rewrite Hfull.
  destruct (refuses Listdir w (root_at k comps)) as [x|] eqn:Er;
    [reflexivity|].
  assert (Hdir : os_path_isdir w (root_at k comps)
                 = match walk_to comps (fsroot w) with
                   | inr (Dir _) => true
                   | _ => false
                   end).
  { unfold os_path_isdir.
    rewrite resolve_components, components_root_at, lookup_walk_to
      by assumption.
    now destruct (walk_to comps (fsroot w)) as [e|[d|ch]]. }
  assert (Hres : resolve w (root_at k comps)
                 = match walk_to comps (fsroot w) with
                   | inr n => Some n
                   | inl _ => None
                   end).
  { now rewrite resolve_components, components_root_at, lookup_walk_to
      by assumption. }
  destruct (walk_to comps (fsroot w)) as [e|[d|children]] eqn:Ew.
  - exact Hdir.
  - exact Hdir.
  - split; [reflexivity|]. split; [exact Hdir|]. split; [exact Er|].
    exists children. split; [exact Hres|].
    assert (Hlk : lookup comps (fsroot w) = Some (Dir children))
      by (now rewrite lookup_walk_to, Ew).
    assert (Hwfd : wf_node (Dir children) = true).
    { apply (lookup_wf comps (fsroot w)); [|exact Hlk].
      unfold wf_world in Hwf. now apply andb_true_iff in Hwf as [_ Hwf]. }
    apply wf_node_Dir in Hwfd as (Hnames & Hnd & _).
    assert (Hkind : forall c, In c children ->
              os_path_isdir w (posixpath.join (root_at k comps) (fst c))
              = is_dir (snd c)).
    { intros [name child] Hin. cbn [fst snd].
      assert (Hcn : clean name = true).
      { rewrite Forall_forall in Hnames. apply Hnames.
        change name with (fst (name, child)). now apply in_map. }
      rewrite join_root_at' by assumption.
      unfold os_path_isdir. rewrite resolve_root_at by clean_names.
      rewrite lookup_app, Hlk. cbn [lookup].
      rewrite (In_assoc _ _ _ Hnd Hin). now destruct child. }
    clear Hnames Hnd Hlk Ew Hdir Hres. split.
    + induction children as [|c children IH]; [reflexivity|].
      cbn [map]. f_equal.
      * destruct (os_stat w _) as [e|[size modified]]; reflexivity.
      * apply IH. intros c' Hc'. apply Hkind. now right.
    + induction children as [|c children IH]; [constructor|].
      cbn [map]. constructor.
      * intros name isDirectory size modified Hf.
        destruct (os_stat w _) as [e|[size' modified']]; [discriminate Hf|].
        injection Hf as _ <- _ _. apply Hkind. now left.
      * apply IH. intros c' Hc'. apply Hkind. now right.
Qed.

(** The directory [/w/src] listed, and refused. *)
Lemma list_directory_lists_children_witness :
  match list_directory Samples.strerror Samples.os_stat Samples.refuses
          Examples.w_mixed "src" with
  | OkFiles at_path files =>
      at_path = full_path_of Examples.w_mixed "src"
      /\ os_path_isdir Examples.w_mixed at_path = true
      /\ Samples.refuses Listdir Examples.w_mixed at_path = None
      /\ exists children,
           resolve Examples.w_mixed at_path = Some (Dir children)
           /\ map listed_name files = map fst children
           /\ Forall2
                (fun f c =>
                   forall name isDirectory size modified,
                     f = Listed name isDirectory size modified ->
                     isDirectory = is_dir (snd c))
                files children
  | LsError error =>
      match Samples.refuses Listdir Examples.w_mixed
              (full_path_of Examples.w_mixed "src") with
      | Some e => error = str e
      | None =>
          os_path_isdir Examples.w_mixed
            (full_path_of Examples.w_mixed "src") = false
      end
  end
  /\ list_directory Samples.strerror Samples.os_stat Samples.src_locked
       Examples.w_mixed "src"
     = LsError "[Errno 13] Permission denied: '/w/src'".
Proof.
  split.
  - apply (list_directory_lists_children Samples.strerror Samples.os_stat
             Samples.refuses Examples.w_mixed "src").
    reflexivity.
  - pose proof (list_directory_lists_children Samples.strerror
                  Samples.os_stat Samples.src_locked Examples.w_mixed "src"
                  eq_refl) as H.
    destruct (list_directory Samples.strerror Samples.os_stat
                Samples.src_locked Examples.w_mixed "src")
      as [at_path files|error] eqn:E.
    + discriminate E.
    + now rewrite H.
Defined.

(** X21: on a path that names nothing the three operations fail, each in
    its way, and the host is left as it was: [read_file] and
    [list_directory] return an error, and [change_directory] returns its
    own message, the absolute path followed by [ is not a directory]. *)
Theorem missing_path_fails (strerror : errno -> string -> string)
    (os_stat : world -> string -> M (nat * string))
    (refuses : syscall -> world -> string -> option exn) (w : world)
    (arg : string) :
  posixpath.isabs (getcwd w) = true ->
  os_path_exists w (full_path_of w arg) = false ->
  (exists error, read_file strerror w arg = OpError error)
  /\ (exists error,
        list_directory strerror os_stat refuses w arg = LsError error)
  /\ change_directory strerror refuses w arg
     = (OpError (full_path_of w arg ++ " is not a directory"), w).
Proof.
  intros Hcwd Hmiss.
  destruct (full_path_shape w arg Hcwd) as (k & comps & Hk & Hc & Hfull).
  unfold os_path_exists in Hmiss.
  rewrite Hfull, resolve_components, components_root_at, lookup_walk_to
    in Hmiss by assumption.
  destruct (walk_to comps (fsroot w)) as [e|x] eqn:Ew; [|discriminate Hmiss].
  split; [|split].
  - unfold read_file, open_r. fold (full_path_of w arg).
    rewrite Hfull, components_root_at, Ew by assumption.
    eexists. reflexivity.
  - rewrite (list_directory_spec strerror os_stat refuses w arg k comps Hk Hc
               Hfull).
    rewrite Ew. destruct (refuses Listdir w _); eexists; reflexivity.
  - rewrite (change_directory_spec strerror refuses w arg k comps Hk Hc
               Hfull).
    now rewrite Ew, Hfull.
Qed.

Lemma missing_path_fails_witness :
  (exists error,
     read_file Samples.strerror Examples.w_secret "secret.env/key"
     = OpError error)
  /\ (exists error,
        list_directory Samples.strerror Samples.os_stat Samples.refuses
          Examples.w_secret "secret.env/key"
        = LsError error)
  /\ change_directory Samples.strerror Samples.refuses Examples.w_secret
       "secret.env/key"
     = (OpError
          (full_path_of Examples.w_secret "secret.env/key"
           ++ " is not a directory"),
        Examples.w_secret).
Proof.
  apply (missing_path_fails Samples.strerror Samples.os_stat Samples.refuses
           Examples.w_secret "secret.env/key");
    reflexivity.
Defined.

(** ** The history, and what is written then collected *)

(** X22: the chat history only grows: whatever is entered, the messages
    of the history stay where they are and as they are, new ones come
    after them, and the first message keeps its role; only its content is
    rewritten, by [/cd]. *)
Theorem history_only_grows
    (strerror : errno -> string -> string)
    (os_stat : world -> string -> M (nat * string))
    (refuses : syscall -> world -> string -> option exn)
    (fnmatch : string -> string -> bool)
    (stored : Type) (save_config : configuration -> stored -> stored)
    (create : value -> value -> list Msg.t -> string + list (option string))
    (print_tree : world -> string -> string)
    (s s' : state stored) (lines : list string) (first : Msg.t)
    (others : list Msg.t) :
  messages s = first :: others ->
  loop strerror os_stat refuses fnmatch stored save_config create print_tree
    s lines = Some s' ->
  exists content new,
    messages s' = (Msg.mk (Msg.role first) content :: others ++ new)%list.
Proof.
  intros Hm.
  assert (H0 : exists content new,
             messages s
             = (Msg.mk (Msg.role first) content :: others ++ new)%list).
  { exists (Msg.content first), []. rewrite app_nil_r, Hm. now destruct first. }
  clear Hm. revert s H0.
  induction lines as [|line lines IH]; intros s Hs Hl.
  { cbn in Hl. now injection Hl as <-. }
  cbn [loop] in Hl.
  assert (Hb : match loop_body strerror os_stat refuses fnmatch stored
    save_config
                       create print_tree s line with
               | Next s1 | Break s1 =>
                   exists content new,
                     messages s1
                     = (Msg.mk (Msg.role first) content :: others ++ new)%list
               | Fatal => True
               end).
  { destruct Hs as (content & new & Hm).
    assert (Hsame : exists content0 new0,
              messages s
              = (Msg.mk (Msg.role first) content0 :: others ++ new0)%list)
      by (now exists content, new).
    assert (Happ : forall more,
              exists content0 new0,
                (messages s ++ more)%list
                = (Msg.mk (Msg.role first) content0 :: others ++ new0)%list).
    { intros more. exists content, (new ++ more)%list.
      rewrite Hm. cbn [app]. now rewrite app_assoc. }
    unfold loop_body, handle_context, handle_ls, handle_tree,
      handle_ls_printed, handle_tree_printed.
    destruct (FileEditMode.active (file_edit_mode s)).
    { destruct (PyStr.strip line =? "/save").
      - destruct (FileEditMode.file_path (file_edit_mode s));
          [now destruct (write_file _ _ _ _)|exact Hsame].
      - destruct (PyStr.strip line =? "/cancel"); exact Hsame. }
    destruct ((PyStr.strip line =? "/exit") || (PyStr.strip line =? "/quit"));
      [exact Hsame|].
    destruct (PyStr.startswith "/config" (PyStr.strip line)).
    { destruct (PyText.split_whitespace (PyStr.strip line))
        as [|w0 [|command args]]; [exact I|exact Hsame|].
      destruct (command =? "list"); [exact Hsame|].
      destruct (command =? "show"); [exact Hsame|].
      destruct args as [|key [|v vs]]; try exact Hsame.
      destruct (command =? "set"); [|exact Hsame].
      now destruct (set_active_config _ _ _ _ _ _) as [[ok config'] file']. }
    destruct (PyStr.strip line =? "/help"); [exact Hsame|].
    destruct ((PyStr.strip line =? "/pwd") || (PyStr.strip line =? "/cwd"));
      [exact Hsame|].
    destruct (PyStr.startswith "/cd " (PyStr.strip line)).
    { destruct (change_directory _ _ _ _) as [[at_path|at_path text|error] w'];
        try exact Hsame; rewrite Hm; cbn [messages Msg.role];
        eexists; eexists; reflexivity. }
    destruct (PyStr.startswith "/mkdir " (PyStr.strip line)).
    { now destruct (make_directory _ _ _). }
    destruct (PyStr.startswith "/cat " (PyStr.strip line)); [exact Hsame|].
    destruct (PyStr.startswith "/write " (PyStr.strip line)); [exact Hsame|].
    destruct (PyStr.startswith "/append " (PyStr.strip line)).
    { now destruct (read_file _ _ _). }
    destruct (PyStr.startswith "/context" (PyStr.strip line)
              || PyStr.startswith "/#" (PyStr.strip line)).
    { destruct (get_workspace_context _ _ _); [apply Happ|exact Hsame]. }
    destruct (PyStr.startswith "/ls" (PyStr.strip line)).
    { destruct (list_directory _ _ _ _ _); [apply Happ|exact Hsame]. }
    destruct (PyStr.startswith "/tree" (PyStr.strip line)); [apply Happ|].
    destruct (call_api _ _ _).
    - cbn [messages append_messages]. rewrite <- app_assoc. apply Happ.
    - apply Happ. }
  destruct (loop_body _ _ _ _ _ _ _ _ s line) as [s1|s1|].
  - exact (IH s1 Hb Hl).
  - now injection Hl as <-.
  - discriminate Hl.
Qed.

Lemma history_only_grows_witness :
  exists content new,
    messages
      (mkState Examples.w_mixed (@None configuration)
         (mkConfiguration (Some [("default", [("apiKey", VStr "k")])]) None)
         FileEditMode.init
         [Msg.mk "system" (system_content "/w");
          Msg.mk "user" "/help me";
          Msg.mk "assistant" "ok"])
    = (Msg.mk (Msg.role (Msg.mk "system" (system_content "/w"))) content
       :: [] ++ new)%list.
Proof.
  apply (history_only_grows Samples.strerror Samples.os_stat Samples.refuses
           Fnmatch.fnmatchcase (option configuration) Samples.save_config
           Samples.create Samples.print_tree
           (mkState Examples.w_mixed None
              (mkConfiguration
                 (Some [("default", [("apiKey", VStr "k")])]) None)
              FileEditMode.init [Msg.mk "system" (system_content "/w")])
           _ ["/help me"; "/exit"] (Msg.mk "system" (system_content "/w")) []);
    reflexivity.
Defined.

(** X23: a file that [write_file] has written is collected as it was
    written: once the ignore file is loaded in the new state, the collector
    called with the same path returns the single entry that bears the base
    name of the path written and the text a read returns. *)
Theorem written_file_is_collected (strerror : errno -> string -> string)
    (fnmatch : string -> string -> bool) (w w' : world)
    (file_path content at_path : string) (ignore_patterns : list string) :
  posixpath.isabs (getcwd w) = true ->
  write_file strerror w file_path content = (OkPath at_path, w') ->
  load_ignore_patterns w' = inr ignore_patterns ->
  get_workspace_context fnmatch w' file_path
  = Success [mkEntry (posixpath.basename at_path)
               (universal_newlines content)].
Proof.
  intros Hcwd Hw Hload.
  destruct (full_path_shape w file_path Hcwd) as (k & comps & Hk & Hc & Hfull).
  rewrite (write_file_spec strerror w file_path content k comps Hk Hc Hfull)
    in Hw.
  destruct (mkdir_p _ _ _ _) as [e|n1]; [discriminate|].
  destruct (write_at _ _ _ _ n1) as [e|n2] eqn:E; [discriminate|].
  injection Hw as <- <-.
  pose proof (write_at_walk _ _ _ _ _ _ E) as Hwalk.
  assert (Hfull' : full_path_of (mkWorld (getcwd w) n2) file_path
                   = root_at k comps) by exact Hfull.
  assert (Hres : resolve (mkWorld (getcwd w) n2) (root_at k comps)
                 = Some (File (inr (universal_newlines content)))).
  { rewrite resolve_components, components_root_at, lookup_walk_to
      by assumption.
    cbn [fsroot]. now rewrite Hwalk. }
  rewrite (single_file_mode fnmatch _ file_path ignore_patterns Hload).
  - rewrite Hfull'. unfold open_read. now rewrite Hres.
  - rewrite Hfull'. unfold os_path_isfile. now rewrite Hres.
Qed.

Lemma written_file_is_collected_witness :
  get_workspace_context Fnmatch.fnmatchcase
    (snd (write_file Samples.strerror Examples.w_mixed "src/.env" "KEY=1"))
    "src/.env"
  = Success [mkEntry (posixpath.basename "/w/src/.env")
               (universal_newlines "KEY=1")].
Proof.
  apply (written_file_is_collected Samples.strerror Fnmatch.fnmatchcase
           Examples.w_mixed _ "src/.env" "KEY=1" "/w/src/.env" []);
    reflexivity.
Defined.

(** ** The handlers that are repeated *)

(** X25: outside the edit mode, [/context], [/#], [/ls] and [/tree] are
    answered by their first handler, whatever follows the command on the
    line: the handlers that lines 658 to 806 repeat are never reached.  In
    particular [/ls] and [/tree] always go through the handlers that add
    their output to the history, never through the last ones, which only
    print. *)
Theorem first_handler_answers
    (strerror : errno -> string -> string)
    (os_stat : world -> string -> M (nat * string))
    (refuses : syscall -> world -> string -> option exn)
    (fnmatch : string -> string -> bool)
    (stored : Type) (save_config : configuration -> stored -> stored)
    (create : value -> value -> list Msg.t -> string + list (option string))
    (print_tree : world -> string -> string)
    (s : state stored) (line : string) :
  FileEditMode.active (file_edit_mode s) = false ->
  (PyStr.startswith "/context" (PyStr.strip line)
   || PyStr.startswith "/#" (PyStr.strip line) = true ->
   loop_body strerror os_stat refuses fnmatch stored save_config create
     print_tree
     s line
   = handle_context fnmatch stored s (PyStr.strip line))
  /\ (PyStr.startswith "/ls" (PyStr.strip line) = true ->
      loop_body strerror os_stat refuses fnmatch stored save_config create
        print_tree
        s line
      = handle_ls strerror os_stat refuses stored s (PyStr.strip line))
  /\ (PyStr.startswith "/tree" (PyStr.strip line) = true ->
      loop_body strerror os_stat refuses fnmatch stored save_config create
        print_tree
        s line
      = handle_tree stored print_tree s (PyStr.strip line)).
Proof.
  intros Hedit. unfold loop_body. rewrite Hedit.
  split; [|split]; intros H.
  - apply orb_true_iff in H as [H|H];
      destruct (startswith_app _ _ H) as [rest ->];
      cbn [append String.eqb Ascii.eqb Bool.eqb orb PyStr.startswith andb];
      reflexivity.
  - destruct (startswith_app _ _ H) as [rest ->].
    cbn [append String.eqb Ascii.eqb Bool.eqb orb PyStr.startswith andb].
    reflexivity.
  - destruct (startswith_app _ _ H) as [rest ->].
    cbn [append String.eqb Ascii.eqb Bool.eqb orb PyStr.startswith andb].
    reflexivity.
Qed.

Lemma first_handler_answers_witness :
  loop_body Samples.strerror Samples.os_stat Samples.refuses
      Fnmatch.fnmatchcase
    (option configuration) Samples.save_config Samples.create
    Samples.print_tree
    (initial (option configuration) Examples.w_mixed None DEFAULT_CONFIG)
    " /lsx src "
  = handle_ls Samples.strerror Samples.os_stat Samples.refuses
      (option configuration)
      (initial (option configuration) Examples.w_mixed None DEFAULT_CONFIG)
      (PyStr.strip " /lsx src ").
Proof.
  apply (proj1 (proj2 (first_handler_answers Samples.strerror Samples.os_stat
    Samples.refuses
                         Fnmatch.fnmatchcase (option configuration)
                         Samples.save_config Samples.create
                         Samples.print_tree
                         (initial (option configuration) Examples.w_mixed
                            None DEFAULT_CONFIG)
                         " /lsx src " eq_refl)));
    reflexivity.
Defined.
